(** * USAFFE backend: a shallow embedding of the request handlers

    The repository holds several near-duplicate Express servers over SQLite.
    Each module below embeds one of them:

    - [Server]    : src/server.js (combat_points schema, admin keys, axios avatar proxy);
    - [AppendLog] : the server with the append-only [verification_codes] log
                    (src/unnamed/part_000, second file);
    - [Keyed]     : the server with the keyed [verification_codes] table, the
                    resolving attendee route and the fetch avatar proxy
                    (src/unnamed/part_000, third file);
    - [Basic]     : the first server of src/unnamed/part_000 ([POST /api/users]).

    Conventions.
    - A table is the list of its rows in rowid order; a handler is a function
      from the request, the values it reads from its environment (clock,
      random source, upstream reply) and the store, to a response and the
      store afterwards.
    - A timestamp is the number of milliseconds since the epoch, as [Z]:
      the code stores [Date.toISOString()] texts and reads them back with
      [new Date(text)], which is the identity at millisecond precision.
    - [randomUUID()], [Math.random()] and [Date.now()] are inputs of the
      handler that calls them.
    - The outcome of a [db.get] is an explicit [db_result]: the callbacks of
      the source receive [(err, row)].
    - SQLite's conversion of a bound text for the comparison with an INTEGER
      column is SQLite's code, not the repository's: the handlers are
      embedded over it (class [Sqlite]), and what is proved of them holds
      for every such conversion. The closed examples run over plain decimal
      texts ([decimal_texts]).
    - A row id is an autoincrement rowid, of magnitude below 2^53: JavaScript
      carries it exactly, so it is passed around as the integer it is.
      Points are added as the code adds them, as doubles in JavaScript and
      as 64-bit integers or doubles in SQLite. *)

From Stdlib Require Import ZArith List String Ascii Bool Lia QArith Permutation.
From Stdlib Require Import DecimalString DecimalZ.
From stdpp Require Import base strings gmap.
Import ListNotations.

Local Open Scope string_scope.
Local Open Scope Z_scope.
Set Warnings "-register-all".

(** ** JavaScript values, as far as JSON carries them

    A number is integer-valued: identifiers, counts, timestamps and point
    deltas are the numbers the handlers compute with. [VNum z] is the
    number a JSON integer literal [z] parses to, so the handlers that do
    arithmetic on it go through [to_double]; a number with a fraction is
    outside this type. *)

Inductive value : Type :=
  | VUndef
  | VNull
  | VBool (b : bool)
  | VNum (z : Z)
  | VStr (s : string)
  | VArr (items : list value)
  | VObj (fields : list (string * value)).

(** [!!v] of JavaScript: undefined, null, false, 0 and the empty string are falsy. *)
Definition truthy (v : value) : bool :=
  match v with
  | VUndef | VNull => false
  | VBool b => b
  | VNum z => negb (z =? 0)
  | VStr s => negb (String.eqb s "")
  | VArr _ | VObj _ => true
  end.

Fixpoint assoc (k : string) (fs : list (string * value)) : value :=
  match fs with
  | [] => VUndef
  | (k', v) :: fs' => if String.eqb k k' then v else assoc k fs'
  end.

(** [v.k] on a value that is neither null nor undefined. *)
Definition prop (k : string) (v : value) : value :=
  match v with
  | VObj fs => assoc k fs
  | _ => VUndef
  end.

(** [v[0]] on a value that is neither null nor undefined. *)
Definition first_item (v : value) : value :=
  match v with
  | VArr (x :: _) => x
  | VObj fs => assoc "0" fs
  | VStr (String c _) => VStr (String c EmptyString)
  | _ => VUndef
  end.

(** [v?.k] and [v?.[0]]. *)
Definition opt_prop (k : string) (v : value) : value :=
  match v with
  | VUndef | VNull => VUndef
  | _ => prop k v
  end.

Definition opt_first (v : value) : value :=
  match v with
  | VUndef | VNull => VUndef
  | _ => first_item v
  end.

(** [a && b] and [a || b]. *)
Definition js_and (a b : value) : value := if truthy a then b else a.
Definition js_or (a b : value) : value := if truthy a then a else b.

(** [String.prototype.includes]. *)
Fixpoint includes (hay needle : string) : bool :=
  String.prefix needle hay
  || match hay with
     | EmptyString => false
     | String _ hay' => includes hay' needle
     end.

(** Decimal rendering of an integer, [n.toString()]: for a number of
    magnitude up to 2^53, the digits of the integer. *)
Definition toString (z : Z) : string := NilZero.string_of_int (Z.to_int z).

(** ** SQLite: an INTEGER column compared with a bound text

    In [WHERE id = ?] with a text bound, SQLite applies the numeric
    affinity of the column to the text: a text that is a well-formed
    numeric literal, blanks around it allowed ('7', ' 7', '+7', '7.0',
    '7e0'), is compared as the number it converts to, and any other text
    equals no integer. Whatever the text, it equals at most one integer:
    [sqlite_int_of_text s] is that integer, if there is one. The conversion
    is SQLite's, so the handlers take it as given. *)
Class Sqlite : Type := { sqlite_int_of_text : string -> option Z }.

(** The conversion on plain decimal literals ('7', '-12', '007'). On such a
    text, and on a text that is no numeric literal at all, this is what
    SQLite computes; the closed examples of this development bind no other
    texts. *)
Definition decimal_int_of_text (s : string) : option Z :=
  if String.eqb s "" || String.eqb s "-" then None
  else option_map Z.of_int (NilZero.int_of_string s).

Definition decimal_texts : Sqlite := {| sqlite_int_of_text := decimal_int_of_text |}.

(** ** Numbers: IEEE-754 doubles and SQLite integers

    A JavaScript number is a double. [to_double z] is the double nearest to
    the integer [z], ties to even: what [JSON.parse] makes of the literal
    [z], what reading a stored 64-bit integer into JavaScript yields, and
    the rounding of every sum. An integer of magnitude up to 2^53 is its
    own double. A magnitude of 2^1024 or more has no double (the code holds
    Infinity there); what is stated about sums below stays within 2^53. *)
Definition to_double (z : Z) : Z :=
  let a := Z.abs z in
  let e := Z.log2 a in
  if e <? 53 then z
  else
    let ulp := 2 ^ (e - 52) in
    let m := a / ulp in
    let r := a mod ulp in
    let m' := if 2 * r <? ulp then m
              else if ulp <? 2 * r then m + 1
              else if Z.even m then m else m + 1 in
    Z.sgn z * (m' * ulp).

(** [a + b] of JavaScript on two integer-valued numbers. *)
Definition js_add (a b : Z) : Z := to_double (to_double a + to_double b).

Definition int32 (z : Z) : bool := (- 2 ^ 31 <=? z) && (z <? 2 ^ 31).
Definition int64 (z : Z) : bool := (- 2 ^ 63 <=? z) && (z <? 2 ^ 63).

(** [col + ?] of SQLite with a JavaScript number bound. The driver binds a
    number that is a 32-bit integer as an INTEGER and any other number as a
    REAL. SQLite adds two integers as 64-bit integers when the sum fits and
    otherwise, as whenever an operand is a REAL, adds them as doubles. The
    INTEGER column stores an integer-valued result as that integer. *)
Definition sql_add (col d : Z) : Z :=
  if int32 d && int64 col && int64 (col + d) then col + d
  else to_double (to_double col + to_double d).

(** The range in which every integer is a double. *)
Definition safe (z : Z) : Prop := Z.abs z <= 2 ^ 53.

(** ** Responses and query outcomes *)

Record response : Type := mkResponse { status : Z; body : value }.

(** [res.json(b)] and [res.status(c).json(b)]. *)
Definition json (b : value) : response := mkResponse 200 b.
Definition status_json (c : Z) (b : value) : response := mkResponse c b.
Definition error (c : Z) (msg : string) : response :=
  status_json c (VObj [("error", VStr msg)]).

(** What a [db.get] callback receives: an error, or the first row if any. *)
Inductive db_result (A : Type) : Type :=
  | DbErr
  | DbRow (row : option A).
Arguments DbErr {A}.
Arguments DbRow {A} row.

(** What an awaited upstream call yields: an exception, or the parsed reply. *)
Inductive upstream : Type :=
  | Throws
  | Replies (data : value).

(** ** src/server.js *)

Module Server.

Section WithSqlite.

Context {sq : Sqlite}.

(** *** Admin keys and sessions *)

Record admin_key : Type := mkAdminKey {
  k_id : Z;
  k_key : string;
  k_created_at : Z;
  k_expires_at : Z;
  k_used : Z
}.

Record session : Type := mkSession { s_key : string; s_createdAt : Z }.

(** The [admin_keys] table and the process-wide [ADMIN_SESSIONS] map. *)
Record world : Type := mkWorld {
  admin_keys : list admin_key;
  next_key_id : Z;
  ADMIN_SESSIONS : gmap string session
}.

Definition twelve_hours : Z := 12 * 60 * 60 * 1000.

(** POST /api/admin-keys/create, with a store that accepts the insert. *)
Definition create_key (key : string) (now : Z) (w : world) : response * world :=
  let expiresAt := now + twelve_hours in
  (json (VObj [("key", VStr key); ("expires_at", VNum expiresAt)]),
   mkWorld (admin_keys w ++ [mkAdminKey (next_key_id w) key now expiresAt 0])
           (next_key_id w + 1)
           (ADMIN_SESSIONS w)).

(** [SELECT * FROM admin_keys WHERE key = ?] *)
Definition select_key (key : string) (ks : list admin_key) : option admin_key :=
  find (fun r => String.eqb (k_key r) key) ks.

(** [UPDATE admin_keys SET used = 1 WHERE id = ?] *)
Definition mark_used (i : Z) (ks : list admin_key) : list admin_key :=
  map (fun r =>
         if k_id r =? i
         then mkAdminKey (k_id r) (k_key r) (k_created_at r) (k_expires_at r) 1
         else r) ks.

Definition InvalidKey : response := error 401 "Invalid key".
Definition Expired : response := error 401 "Key expired".
Definition AlreadyUsed : response := error 401 "Key already used".
Definition token_reply (tok : string) : response := json (VObj [("token", VStr tok)]).

(** The callback of the lookup in POST /api/admin/login. [now] is
    [new Date()] and [tok] is [randomUUID()], both read in the callback. *)
Definition login_callback (key : string) (now : Z) (tok : string)
           (res : db_result admin_key) (w : world) : response * world :=
  match res with
  | DbErr => (error 500 "Database error", w)
  | DbRow None => (InvalidKey, w)
  | DbRow (Some row) =>
      if k_expires_at row <? now then (Expired, w)
      else if negb (k_used row =? 0) then (AlreadyUsed, w)
      else (token_reply tok,
            mkWorld (mark_used (k_id row) (admin_keys w))
                    (next_key_id w)
                    (<[tok := mkSession key now]> (ADMIN_SESSIONS w)))
  end.

(** POST /api/admin/login served alone: the lookup reads the table as it is
    when the request arrives. [key] is [req.body.key]; absent is [None]. *)
Definition login (key : option string) (now : Z) (tok : string) (w : world)
  : response * world :=
  match key with
  | None => (error 400 "Key is required", w)
  | Some k =>
      if String.eqb k "" then (error 400 "Key is required", w)
      else login_callback k now tok (DbRow (select_key k (admin_keys w))) w
  end.

(** *** The event loop, for requests in flight together

    A login request runs in three turns: the handler queues the lookup,
    SQLite runs the lookup, and the callback runs with the row that was
    read. Each turn is atomic; turns of different requests interleave. The
    UPDATE a callback issues is applied within the callback's own turn, the
    earliest it can take effect. *)

Inductive flight : Type :=
  | Queued (key : string)
  | Fetched (key : string) (res : db_result admin_key).

Record system : Type := mkSystem {
  sys_world : world;
  in_flight : gmap nat flight;
  replies : list (nat * response)
}.

Inductive event : Type :=
  | Arrives (r : nat) (key : option string)
  | Selects (r : nat)
  | CallsBack (r : nat) (now : Z) (tok : string).

Definition step (e : event) (s : system) : system :=
  match e with
  | Arrives r key =>
      match key with
      | None =>
          mkSystem (sys_world s) (in_flight s)
                   (replies s ++ [(r, error 400 "Key is required")])
      | Some k =>
          if String.eqb k ""
          then mkSystem (sys_world s) (in_flight s)
                        (replies s ++ [(r, error 400 "Key is required")])
          else mkSystem (sys_world s) (<[r := Queued k]> (in_flight s)) (replies s)
      end
  | Selects r =>
      match in_flight s !! r with
      | Some (Queued k) =>
          mkSystem (sys_world s)
                   (<[r := Fetched k (DbRow (select_key k (admin_keys (sys_world s))))]>
                      (in_flight s))
                   (replies s)
      | _ => s
      end
  | CallsBack r now tok =>
      match in_flight s !! r with
      | Some (Fetched k res) =>
          let '(resp, w') := login_callback k now tok res (sys_world s) in
          mkSystem w' (delete r (in_flight s)) (replies s ++ [(r, resp)])
      | _ => s
      end
  end.

Definition run (es : list event) (s : system) : system :=
  fold_left (fun acc e => step e acc) es s.

Definition idle (w : world) : system := mkSystem w ∅ [].

(** *** Members *)

Record user : Type := mkUser {
  id : Z;
  roblox_id : option string;
  username : option string;
  display_name : option string;
  rank : option string;
  combat_points : Z;
  created_at : Z
}.

Record users_table : Type := mkUsers { users : list user; next_user_id : Z }.

(** [col = ?] on a TEXT column with a text bound; NULL equals nothing. *)
Definition text_is (col : option string) (s : string) : bool :=
  match col with
  | Some t => String.eqb t s
  | None => false
  end.

(** [col = ?] on an INTEGER column with a text bound. *)
Definition int_is (col : Z) (s : string) : bool :=
  match sqlite_int_of_text s with
  | Some z => col =? z
  | None => false
  end.

(** [getUserByIdOrRobloxId]: [SELECT * FROM users WHERE roblox_id = ? OR id = ?]
    with the same text bound twice; [db.get] hands over the first row.
    SQLite answers the two sides of the OR one after the other, each through
    its index: first the rows whose [roblox_id] is the text, then the row
    whose [id] the text converts to. The query only reads: the table
    afterwards is the table before. *)
Definition getUserByIdOrRobloxId (idOrRobloxId : string) (t : users_table)
  : db_result user * users_table :=
  (DbRow (match find (fun u => text_is (roblox_id u) idOrRobloxId) (users t) with
          | Some u => Some u
          | None => find (fun u => int_is (id u) idOrRobloxId) (users t)
          end),
   t).

Definition NotFound : response := error 404 "User not found".

(** The member lookup that opens GET /api/users/:idOrRobloxId and the
    adjust and promote routes: the row for the handler to go on with, or
    the response that ends the request. *)
Definition resolve (idOrRobloxId : string) (t : users_table)
  : (response + user) * users_table :=
  let '(res, t') := getUserByIdOrRobloxId idOrRobloxId t in
  match res with
  | DbErr => (inl (error 500 "Database error"), t')
  | DbRow None => (inl NotFound, t')
  | DbRow (Some u) => (inr u, t')
  end.

(** [username || ''] on a request field. *)
Definition or_empty (s : option string) : string :=
  match s with
  | Some t => t
  | None => ""
  end.

(** [ensureUserByRobloxProfile], with a store that answers every statement:
    an existing row is handed back as it is; otherwise a row is inserted
    and read back by its new id. *)
Definition ensureUserByRobloxProfile (robloxId : string)
           (uname dname : option string) (now : Z) (t : users_table)
  : option user * users_table :=
  match find (fun u => text_is (roblox_id u) robloxId) (users t) with
  | Some row => (Some row, t)
  | None =>
      let row := mkUser (next_user_id t) (Some robloxId)
                        (Some (or_empty uname)) (Some (or_empty dname))
                        (Some "Unassigned") 0 now in
      let t' := mkUsers (users t ++ [row]) (next_user_id t + 1) in
      (find (fun u => id u =? next_user_id t) (users t'), t')
  end.

(** *** Avatar proxy: GET /api/avatar/:robloxId *)

Definition avatar (reply : upstream) : response :=
  match reply with
  | Throws => json (VObj [("imageUrl", VNull)])
  | Replies data =>
      let item := first_item (prop "data" data) in
      let cond :=
        js_and data (js_and (prop "data" data) (js_and item (prop "imageUrl" item))) in
      let imageUrl := if truthy cond then prop "imageUrl" item else VNull in
      if negb (truthy imageUrl) then json (VObj [("imageUrl", VNull)])
      else json (VObj [("imageUrl", imageUrl)])
  end.

(** *** Training attendees: POST /api/trainings/:trainingId/attendees *)

(** An entry of the [attendees] array: a JSON number or a JSON string. A
    number is an id or an external account number, an integer of magnitude
    at most 2^53. *)
Inductive ident : Type :=
  | IdNum (z : Z)
  | IdStr (s : string).

Record training : Type := mkTraining {
  t_id : Z; t_type : string; t_date : string; t_host_id : string
}.

(** A row of [training_attendees], as the values bound by [stmt.run]. *)
Record attendee_row : Type := mkAttendee {
  a_training_id : string;
  a_attendee : ident
}.

Record roster : Type := mkRoster {
  trainings : list training;
  training_attendees : list attendee_row
}.

(** [SELECT * FROM trainings WHERE id = ?] *)
Definition select_training (trainingId : string) (r : roster) : option training :=
  find (fun t => int_is (t_id t) trainingId) (trainings r).

(** The body of the training lookup's callback: one [stmt.run] per entry,
    then [stmt.finalize], whose callback gets [finalize_err]. *)
Definition attendees_callback (trainingId : string) (attendees : list ident)
           (res : db_result training) (finalize_err : bool) (r : roster)
  : response * roster :=
  match res with
  | DbErr => (error 500 "Database error", r)
  | DbRow None => (error 404 "Training not found", r)
  | DbRow (Some _) =>
      let r' := mkRoster (trainings r)
                  (fold_left (fun rows a => (rows ++ [mkAttendee trainingId a])%list)
                             attendees (training_attendees r)) in
      if finalize_err then (error 500 "Database error", r')
      else (json (VObj [("success", VBool true)]), r')
  end.

(** [attendees] is [req.body.attendees] when it is an array, [None] otherwise. *)
Definition add_attendees (trainingId : string) (attendees : option (list ident))
           (finalize_err : bool) (r : roster) : response * roster :=
  match attendees with
  | None | Some [] => (error 400 "attendees must be a non-empty array", r)
  | Some l =>
      attendees_callback trainingId l (DbRow (select_training trainingId r))
                         finalize_err r
  end.

(** *** Command stats: GET /api/admin/stats *)

(** A row of [SELECT COUNT( * ) as cnt]. *)
Record count_row : Type := mkCount { cnt : Z }.

Record stats : Type := mkStats {
  active_personnel : Z;
  trainings_today : Z;
  medals_awarded : Z
}.

Definition stats_json (s : stats) : value :=
  VObj [("active_personnel", VNum (active_personnel s));
        ("trainings_today", VNum (trainings_today s));
        ("medals_awarded", VNum (medals_awarded s))].

(** [if (!err && row) stats.x = row.cnt || 0], starting from [cur]. *)
Definition set_count (cur : Z) (res : db_result count_row) : Z :=
  match res with
  | DbRow (Some row) => if cnt row =? 0 then 0 else cnt row
  | _ => cur
  end.

Definition admin_stats (users_q trainings_q medals_q : db_result count_row) : response :=
  let s0 := mkStats 0 0 0 in
  let s1 := mkStats (set_count (active_personnel s0) users_q)
                    (trainings_today s0) (medals_awarded s0) in
  let s2 := mkStats (active_personnel s1)
                    (set_count (trainings_today s1) trainings_q) (medals_awarded s1) in
  let s3 := mkStats (active_personnel s2) (trainings_today s2)
                    (set_count (medals_awarded s2) medals_q) in
  json (stats_json s3).

(** *** The admin gate: [requireAdmin] *)

(** What a middleware does with a request: hand it on, or answer it. *)
Inductive gate : Type :=
  | Next
  | Answered (r : response).

(** [s.slice(n)] for [n] within the length of [s] or beyond it. *)
Fixpoint slice (n : nat) (s : string) : string :=
  match n, s with
  | O, _ => s
  | S n', String _ s' => slice n' s'
  | S _, EmptyString => EmptyString
  end.

(** [requireAdmin]; [authorization] is [req.headers['authorization']]. *)
Definition requireAdmin (authorization : option string) (w : world) : gate :=
  let authHeader := match authorization with Some h => h | None => "" end in
  let token := if String.prefix "Bearer " authHeader
               then Some (slice 7 authHeader) else None in
  match token with
  | None => Answered (error 401 "Admin token required")
  | Some tok =>
      if String.eqb tok "" then Answered (error 401 "Admin token required")
      else match ADMIN_SESSIONS w !! tok with
           | None => Answered (error 401 "Invalid or expired admin session")
           | Some _ => Next
           end
  end.

(** *** Adjusting and promoting a member *)

(** [UPDATE users SET combat_points = ? WHERE id = ?] *)
Definition set_combat_points (i newCombat : Z) (us : list user) : list user :=
  map (fun u => if id u =? i
                then mkUser (id u) (roblox_id u) (username u) (display_name u)
                            (rank u) newCombat (created_at u)
                else u) us.

(** [UPDATE users SET rank = ? WHERE id = ?] *)
Definition set_rank (i : Z) (newRank : string) (us : list user) : list user :=
  map (fun u => if id u =? i
                then mkUser (id u) (roblox_id u) (username u) (display_name u)
                            (Some newRank) (combat_points u) (created_at u)
                else u) us.

(** POST /api/users/:idOrRobloxId/adjust, with a store that accepts the
    update. [combatDelta] is [req.body.combatDelta]; the sum is a sum of
    JavaScript numbers. *)
Definition adjust (idOrRobloxId : string) (combatDelta : value) (t : users_table)
  : response * users_table :=
  match combatDelta with
  | VNum delta =>
      match fst (resolve idOrRobloxId t) with
      | inl resp => (resp, t)
      | inr user =>
          let newCombat :=
            js_add (if combat_points user =? 0 then 0 else combat_points user) delta in
          (json (VObj [("success", VBool true); ("new_combat_points", VNum newCombat)]),
           mkUsers (set_combat_points (id user) newCombat (users t)) (next_user_id t))
      end
  | _ => (error 400 "combatDelta must be a number", t)
  end.

(** POST /api/users/:idOrRobloxId/promote, with a store that accepts the
    update. [newRank] is [req.body.newRank], a JSON string when present. *)
Definition promote (idOrRobloxId : string) (newRank : option string) (t : users_table)
  : response * users_table :=
  match newRank with
  | None => (error 400 "newRank is required", t)
  | Some r =>
      if String.eqb r "" then (error 400 "newRank is required", t)
      else
        match fst (resolve idOrRobloxId t) with
        | inl resp => (resp, t)
        | inr user =>
            (json (VObj [("success", VBool true); ("rank", VStr r)]),
             mkUsers (set_rank (id user) r (users t)) (next_user_id t))
        end
  end.

(** *** Creating a training: POST /api/trainings/create *)

(** The roster with the autoincrement counter of [trainings]. *)
Record training_book : Type := mkBook {
  book : roster;
  next_training_id : Z
}.

(** [!x] on a request field that is a JSON string when present. *)
Definition blank (s : option string) : bool :=
  match s with
  | None => true
  | Some t => String.eqb t ""
  end.

Definition create_training (type date host_id : option string) (b : training_book)
  : response * training_book :=
  if blank type || blank date || blank host_id
  then (error 400 "type, date, and host_id are required", b)
  else
    let lastID := next_training_id b in
    (json (VObj [("training_id", VNum lastID);
                 ("type", VStr (or_empty type));
                 ("date", VStr (or_empty date));
                 ("host_id", VStr (or_empty host_id))]),
     mkBook (mkRoster (trainings (book b)
                         ++ [mkTraining lastID (or_empty type) (or_empty date)
                                        (or_empty host_id)])
                      (training_attendees (book b)))
            (lastID + 1)).

End WithSqlite.

End Server.

(** ** Verification by profile text, append-only log
    (src/unnamed/part_000, the server whose [verification_codes] has an
    autoincrement id and a [created_at] column) *)

Module AppendLog.

Record verification_code : Type := mkCode {
  v_id : Z;
  v_roblox_id : Z;
  v_code : string;
  v_created_at : Z
}.

(** The tables a verification request can reach. [users] has the columns
    of src/server.js. *)
Record store : Type := mkStore {
  users : list Server.user;
  verification_codes : list verification_code;
  next_code_id : Z
}.

(** [generateVerificationCode]; [suffix] is
    [Math.random().toString(36).substring(2, 8).toUpperCase()]. *)
Definition generateVerificationCode (suffix : string) : string :=
  String.append "USAFE-" suffix.

(** [isExpired]: [diffMs / 1000 / 60 > 10]. The quotient is taken over the
    rationals; on integer milliseconds the double-precision quotient
    compares with 10 the same way (600000 / 1000 / 60 is exactly 10 and
    rounded division is monotone). *)
Definition isExpired (timestamp now : Z) : bool :=
  let diffMs := now - timestamp in
  let diffMinutes := (inject_Z diffMs / inject_Z 1000 / inject_Z 60)%Q in
  negb (Qle_bool diffMinutes (inject_Z 10)).

(** POST /api/roblox/start-verification, with a store that accepts the insert. *)
Definition start_verification (roblox_id : option Z) (suffix : string) (now : Z)
           (st : store) : response * store :=
  (* [!roblox_id]: the field is a JSON number when present *)
  match roblox_id with
  | None => (error 400 "roblox_id is required", st)
  | Some rid =>
      if rid =? 0 then (error 400 "roblox_id is required", st)
      else
        let code := generateVerificationCode suffix in
        (json (VObj [("code", VStr code)]),
         mkStore (users st)
                 (verification_codes st ++ [mkCode (next_code_id st) rid code now])
                 (next_code_id st + 1))
  end.

(** [SELECT * FROM verification_codes WHERE roblox_id = ? ORDER BY id DESC LIMIT 1] *)
Definition latest_code (rid : Z) (rows : list verification_code)
  : option verification_code :=
  fold_left
    (fun best r =>
       if v_roblox_id r =? rid then
         match best with
         | None => Some r
         | Some b => if v_id b <? v_id r then Some r else Some b
         end
       else best)
    rows None.

(** [bio.includes(code)]: [None] when the call throws a TypeError. *)
Definition js_includes (bio : value) (code : string) : option bool :=
  match bio with
  | VStr s => Some (includes s code)
  | VArr items =>
      Some (existsb (fun x => match x with
                              | VStr s => String.eqb s code
                              | _ => false
                              end) items)
  | _ => None
  end.

Definition Expired : response := error 400 "Verification code expired".
Definition CodeMismatch : response := error 400 "Verification code not found in bio".
Definition NoChallenge : response := error 400 "No verification started".

(** The callback of the lookup in POST /api/roblox/check. [reply] is what
    [axios.get] yields if it is awaited; [tok] is [crypto.randomUUID()]. *)
Definition check_callback (roblox_id : Z) (now : Z) (tok : string)
           (res : db_result verification_code) (reply : upstream) (st : store)
  : response * store :=
  match res with
  | DbErr => (error 500 "Database error", st)
  | DbRow None => (NoChallenge, st)
  | DbRow (Some row) =>
      if isExpired (v_created_at row) now then (Expired, st)
      else
        match reply with
        | Throws => (error 500 "Verification check failed", st)
        | Replies data =>
            let bio := js_or (opt_prop "description" data) (VStr "") in
            match js_includes bio (v_code row) with
            | None => (error 500 "Verification check failed", st)
            | Some false => (CodeMismatch, st)
            | Some true =>
                (json (VObj [("token", VStr tok);
                             ("roblox_id", VNum roblox_id);
                             ("username", prop "name" data);
                             ("display_name", prop "displayName" data)]),
                 st)
            end
        end
  end.

Definition check (roblox_id : option Z) (now : Z) (tok : string)
           (reply : upstream) (st : store) : response * store :=
  match roblox_id with
  | None => (error 400 "roblox_id is required", st)
  | Some rid =>
      if rid =? 0 then (error 400 "roblox_id is required", st)
      else check_callback rid now tok
                          (DbRow (latest_code rid (verification_codes st))) reply st
  end.

End AppendLog.

(** ** The points/valor server with keyed verification codes
    (src/unnamed/part_000, the server that defines [resolveInternalUserId]) *)

Module Keyed.

Section WithSqlite.

Context {sq : Sqlite}.

Record user : Type := mkUser {
  id : Z;
  roblox_id : option string;
  username : option string;
  display_name : option string;
  branch : option string;
  rank : option string;
  points : Z;
  valor : Z;
  created_at : Z
}.

(** [verification_codes]: [roblox_id TEXT PRIMARY KEY, code, expires_at]. *)
Record verification_code : Type := mkCode {
  v_roblox_id : string;
  v_code : string;
  v_expires_at : Z
}.

Record attendance_row : Type := mkAttendance {
  ta_training_id : string;
  ta_user_id : Z
}.

Record store : Type := mkStore {
  users : list user;
  next_user_id : Z;
  verification_codes : list verification_code;
  training_attendance : list attendance_row
}.

(** *** Avatar proxy: GET /api/avatar/:robloxId *)

(** [reply] is [Throws] when [fetch] or [response.json()] throws. *)
Definition avatar (reply : upstream) : response :=
  match reply with
  | Throws => error 500 "Failed to fetch avatar"
  | Replies data =>
      let imageUrl := opt_prop "imageUrl" (opt_first (opt_prop "data" data)) in
      if negb (truthy imageUrl) then error 404 "Avatar not found"
      else json (VObj [("imageUrl", imageUrl)])
  end.

(** *** [resolveInternalUserId] *)

(** [idOrRoblox.toString()]. *)
Definition ident_text (a : Server.ident) : string :=
  match a with
  | Server.IdNum z => toString z
  | Server.IdStr s => s
  end.

(** [id = ?] with the raw value bound: a number is compared as the number
    it is, a text through SQLite's conversion. *)
Definition id_is (col : Z) (a : Server.ident) : bool :=
  match a with
  | Server.IdNum z => col =? z
  | Server.IdStr s => Server.int_is col s
  end.

Inductive resolution : Type :=
  | DbFailure
  | UserNotFound
  | Internal (i : Z).

(** [SELECT id FROM users WHERE id = ? OR roblox_id = ?] with
    [[idOrRoblox, idOrRoblox.toString()]]. SQLite answers the two sides of
    the OR one after the other, each through its index: first the row with
    the id, then the rows whose [roblox_id] is the text; [db.get] hands
    over the first row. *)
Definition select_user (idOrRoblox : Server.ident) (us : list user) : option user :=
  match find (fun u => id_is (id u) idOrRoblox) us with
  | Some u => Some u
  | None => find (fun u => Server.text_is (roblox_id u) (ident_text idOrRoblox)) us
  end.

Definition resolve_callback (res : db_result user) : resolution :=
  match res with
  | DbErr => DbFailure
  | DbRow None => UserNotFound
  | DbRow (Some row) => Internal (id row)
  end.

Definition resolveInternalUserId (idOrRoblox : Server.ident) (st : store)
  : resolution * store :=
  (resolve_callback (DbRow (select_user idOrRoblox (users st))), st).

(** *** Training attendees: POST /api/trainings/:trainingId/attendees *)

(** [!rawId]. *)
Definition falsy_id (a : Server.ident) : bool :=
  match a with
  | Server.IdNum z => z =? 0
  | Server.IdStr s => String.eqb s ""
  end.

(** The request while it is served: the [pending] counter, the lookups
    queued by the [forEach], the rows written by [stmt.run] and the
    responses sent so far. [hadError] is never assigned, so it stays false. *)
Record attendee_run : Type := mkRun {
  pending : Z;
  queued : list Server.ident;
  written : list attendance_row;
  sent : list response
}.

Definition success : response := json (VObj [("success", VBool true)]).

(** One turn of the [forEach]: a falsy entry is counted off at once, any
    other entry queues its lookup. *)
Definition each_entry (run : attendee_run) (rawId : Server.ident) : attendee_run :=
  if falsy_id rawId then
    let p := pending run - 1 in
    mkRun p (queued run) (written run)
          (if p =? 0 then (sent run ++ [success])%list else sent run)
  else mkRun (pending run) (queued run ++ [rawId]) (written run) (sent run).

(** The callback of one lookup, run after the [forEach] has returned: each
    lookup is a statement of its own, and the callbacks run in the order
    in which the lookups complete. [finalize_err] is what the callback of
    [stmt.finalize] receives. *)
Definition resolved_entry (trainingId : string) (finalize_err : bool) (st : store)
           (run : attendee_run) (rawId : Server.ident) : attendee_run :=
  let written' :=
    match fst (resolveInternalUserId rawId st) with
    | Internal internalId => (written run ++ [mkAttendance trainingId internalId])%list
    | _ => written run
    end in
  let p := pending run - 1 in
  mkRun p (queued run) written'
        (if p =? 0
         then (sent run ++ [if finalize_err
                            then error 500 "Failed to add attendees"
                            else success])%list
         else sent run).

(** The whole request: the responses it sends and the store afterwards.
    [attendees] is [req.body.attendees] when it is an array. The order in
    which the queued lookups complete is not the handler's to choose:
    [completion] is that order, a rearrangement of the lookups queued. *)
Definition add_attendees (trainingId : string) (attendees : option (list Server.ident))
           (completion : list Server.ident -> list Server.ident)
           (finalize_err : bool) (st : store) : list response * store :=
  match attendees with
  | None | Some [] => ([error 400 "Attendees array required"], st)
  | Some l =>
      let r0 := mkRun (Z.of_nat (List.length l)) [] (training_attendance st) [] in
      let r1 := fold_left each_entry l r0 in
      let r2 := fold_left (resolved_entry trainingId finalize_err st)
                          (completion (queued r1)) r1 in
      (sent r2,
       mkStore (users st) (next_user_id st) (verification_codes st) (written r2))
  end.

(** *** Command status: GET /api/admin/stats *)

(** A row of [SELECT COUNT( * ) AS count]. *)
Record count_row : Type := mkCount { count : Z }.

(** [row ? row.count : 0]; on an error the callback gets no row. *)
Definition count_or_zero (res : db_result count_row) : Z :=
  match res with
  | DbRow (Some row) => count row
  | _ => 0
  end.

Definition admin_stats (users_q trainings_q medals_q : db_result count_row) : response :=
  json (VObj [("active_personnel", VNum (count_or_zero users_q));
              ("trainings_today", VNum (count_or_zero trainings_q));
              ("medals_awarded", VNum (count_or_zero medals_q))]).

(** *** Bio verification login *)

Definition generateVerificationCode (suffix : string) : string :=
  String.append "USAFE-" suffix.

Definition ten_minutes : Z := 10 * 60 * 1000.

(** [!roblox_id] on [req.body.roblox_id], a JSON string when present. *)
Definition missing_id (roblox_id : option string) : bool :=
  match roblox_id with
  | None => true
  | Some s => String.eqb s ""
  end.

(** [INSERT ... ON CONFLICT(roblox_id) DO UPDATE SET code, expires_at]. *)
Definition upsert_code (rid code : string) (expiresAt : Z)
           (rows : list verification_code) : list verification_code :=
  if existsb (fun r => String.eqb (v_roblox_id r) rid) rows
  then map (fun r => if String.eqb (v_roblox_id r) rid
                     then mkCode (v_roblox_id r) code expiresAt
                     else r) rows
  else (rows ++ [mkCode rid code expiresAt])%list.

(** POST /api/roblox/start-verification, with a store that accepts the statement. *)
Definition start_verification (roblox_id : option string) (suffix : string) (now : Z)
           (st : store) : response * store :=
  if missing_id roblox_id then (error 400 "roblox_id is required", st)
  else
    let rid := Server.or_empty roblox_id in
    let code := generateVerificationCode suffix in
    let expiresAt := now + ten_minutes in
    (json (VObj [("success", VBool true); ("code", VStr code)]),
     mkStore (users st) (next_user_id st)
             (upsert_code rid code expiresAt (verification_codes st))
             (training_attendance st)).

(** [SELECT code, expires_at FROM verification_codes WHERE roblox_id = ?] *)
Definition select_code (rid : string) (rows : list verification_code)
  : option verification_code :=
  find (fun r => String.eqb (v_roblox_id r) rid) rows.

(** The text a TEXT column receives from a bound reply field: a string as
    it is, a number as its decimal text, a boolean as 1 or 0, NULL for
    null and for an absent field. The profile service sends strings; a
    nested array or object is outside its contract and is bound as NULL here. *)
Definition sql_text (v : value) : option string :=
  match v with
  | VStr s => Some s
  | VNum z => Some (toString z)
  | VBool b => Some (if b then "1" else "0")
  | _ => None
  end.

(** [INSERT INTO users (roblox_id, username, display_name) ... ON CONFLICT(roblox_id)
    DO UPDATE SET username, display_name]. A new row takes the column
    defaults. The id the insert drew from the autoincrement counter is
    spent also when the conflict turns the insert into an update. *)
Definition upsert_profile (rid : string) (uname dname : option string) (now : Z)
           (st : store) : store :=
  if existsb (fun u => Server.text_is (roblox_id u) rid) (users st)
  then mkStore
         (map (fun u => if Server.text_is (roblox_id u) rid
                        then mkUser (id u) (roblox_id u) uname dname (branch u) (rank u)
                                    (points u) (valor u) (created_at u)
                        else u) (users st))
         (next_user_id st + 1) (verification_codes st) (training_attendance st)
  else mkStore
         (users st ++ [mkUser (next_user_id st) (Some rid) uname dname None None 0 0 now])
         (next_user_id st + 1) (verification_codes st) (training_attendance st).

(** [DELETE FROM verification_codes WHERE roblox_id = ?] *)
Definition delete_code (rid : string) (st : store) : store :=
  mkStore (users st) (next_user_id st)
          (List.filter (fun r => negb (String.eqb (v_roblox_id r) rid))
                       (verification_codes st))
          (training_attendance st).

Definition NoChallenge : response := error 400 "No verification code found".
Definition Expired : response := error 400 "Verification code expired".
Definition CodeMismatch : response := error 400 "Code not found in Roblox bio".
Definition UpstreamUnavailable : response := error 500 "Failed to verify with Roblox".

Definition mint_token (rid : string) (stamp : Z) : string :=
  String.append "roblox_" (String.append rid (String.append "_" (toString stamp))).

(** The callback of the lookup in POST /api/roblox/check. [now] is the
    clock at the expiry test, [stamp] the later [Date.now()] of the token;
    [reply] is [Throws] when [fetch] or [response.json()] throws. *)
Definition check_callback (roblox_id : string) (now stamp : Z)
           (res : db_result verification_code) (reply : upstream) (st : store)
  : response * store :=
  match res with
  | DbErr | DbRow None => (NoChallenge, st)
  | DbRow (Some row) =>
      if v_expires_at row <? now then (Expired, st)
      else
        match reply with
        | Throws => (UpstreamUnavailable, st)
        | Replies VUndef | Replies VNull => (UpstreamUnavailable, st)
        | Replies userData =>
            let bio := js_or (prop "description" userData) (VStr "") in
            match AppendLog.js_includes bio (v_code row) with
            | None => (UpstreamUnavailable, st)
            | Some false => (CodeMismatch, st)
            | Some true =>
                let username := prop "name" userData in
                let display_name := prop "displayName" userData in
                let st1 := upsert_profile roblox_id (sql_text username)
                                          (sql_text display_name) now st in
                let st2 := delete_code roblox_id st1 in
                (json (VObj [("success", VBool true);
                             ("token", VStr (mint_token roblox_id stamp));
                             ("roblox_id", VStr roblox_id);
                             ("username", username);
                             ("display_name", display_name)]),
                 st2)
            end
        end
  end.

Definition check (roblox_id : option string) (now stamp : Z) (reply : upstream)
           (st : store) : response * store :=
  if missing_id roblox_id then (error 400 "roblox_id is required", st)
  else
    let rid := Server.or_empty roblox_id in
    check_callback rid now stamp (DbRow (select_code rid (verification_codes st)))
                   reply st.

(** *** Adjusting and promoting a member *)

(** A delta of the request body, [None] when the body has no such field:
    [const { pointsDelta = 0, valorDelta = 0 } = req.body]. A delta that is
    present is a JSON number here; a null, which SQLite would add as NULL,
    or a text is outside this type. *)
Definition or_zero (d : option Z) : Z :=
  match d with
  | Some z => z
  | None => 0
  end.

(** [UPDATE users SET points = points + ?, valor = valor + ? WHERE id = ?] *)
Definition add_points (i pointsDelta valorDelta : Z) (us : list user) : list user :=
  map (fun u => if id u =? i
                then mkUser (id u) (roblox_id u) (username u) (display_name u)
                            (branch u) (rank u)
                            (sql_add (points u) pointsDelta)
                            (sql_add (valor u) valorDelta)
                            (created_at u)
                else u) us.

(** [UPDATE users SET rank = ? WHERE id = ?] *)
Definition set_rank (i : Z) (newRank : string) (us : list user) : list user :=
  map (fun u => if id u =? i
                then mkUser (id u) (roblox_id u) (username u) (display_name u)
                            (branch u) (Some newRank) (points u) (valor u)
                            (created_at u)
                else u) us.

(** POST /api/users/:userId/adjust, with a store that accepts the update. *)
Definition adjust (userId : string) (pointsDelta valorDelta : option Z) (st : store)
  : response * store :=
  match fst (resolveInternalUserId (Server.IdStr userId) st) with
  | Internal internalId =>
      (success,
       mkStore (add_points internalId (or_zero pointsDelta) (or_zero valorDelta)
                           (users st))
               (next_user_id st) (verification_codes st) (training_attendance st))
  | _ => (error 400 "User not found", st)
  end.

(** POST /api/users/:userId/promote, with a store that accepts the update. *)
Definition promote (userId : string) (newRank : option string) (st : store)
  : response * store :=
  if Server.blank newRank then (error 400 "newRank is required", st)
  else
    match fst (resolveInternalUserId (Server.IdStr userId) st) with
    | Internal internalId =>
        (success,
         mkStore (set_rank internalId (Server.or_empty newRank) (users st))
                 (next_user_id st) (verification_codes st) (training_attendance st))
    | _ => (error 400 "User not found", st)
    end.

(** *** Awarding a medal: POST /api/medals/award *)

Record medal_award : Type := mkAward {
  ma_id : Z;
  ma_medal_id : Server.ident;
  ma_user_id : Z;
  ma_awarded_by : Z;
  ma_date : Z;
  ma_reason : string
}.

Record awards_table : Type := mkAwards {
  medal_awards : list medal_award;
  next_award_id : Z
}.

(** [a || b] and [!a] on request fields that carry identifiers. *)
Definition either_id (a b : option Server.ident) : option Server.ident :=
  match a with
  | Some x => if falsy_id x then b else a
  | None => b
  end.

Definition missing (a : option Server.ident) : bool :=
  match a with
  | Some x => falsy_id x
  | None => true
  end.

(** The route, with a store that accepts the insert. [now] is the
    [new Date()] taken when the request is received. *)
Definition award (medal_id user_id awarded_by user_roblox_id awarded_by_roblox_id
                  : option Server.ident)
           (reason : option string) (now : Z) (st : store) (aw : awards_table)
  : response * awards_table :=
  match medal_id with
  | None => (error 400 "medal_id and reason are required", aw)
  | Some medal =>
      if falsy_id medal || Server.blank reason
      then (error 400 "medal_id and reason are required", aw)
      else
        match either_id user_id user_roblox_id,
              either_id awarded_by awarded_by_roblox_id with
        | Some userIdSource, Some awardedBySource =>
            if falsy_id userIdSource || falsy_id awardedBySource
            then (error 400 "User and awarded_by identifiers are required", aw)
            else
              match fst (resolveInternalUserId userIdSource st) with
              | Internal internalUserId =>
                  match fst (resolveInternalUserId awardedBySource st) with
                  | Internal internalAwardedById =>
                      (success,
                       mkAwards (medal_awards aw
                                   ++ [mkAward (next_award_id aw) medal internalUserId
                                               internalAwardedById now
                                               (Server.or_empty reason)])
                                (next_award_id aw + 1))
                  | _ => (error 400 "Awarding user not found", aw)
                  end
              | _ => (error 400 "Target user not found", aw)
              end
        | _, _ => (error 400 "User and awarded_by identifiers are required", aw)
        end
  end.

End WithSqlite.

End Keyed.

(** ** The first server of src/unnamed/part_000 *)

Module Basic.

Section WithSqlite.

Context {sq : Sqlite}.

(** The [users] table has the columns of [Keyed.user]. *)
Record users_table : Type := mkUsers { users : list Keyed.user; next_user_id : Z }.

Definition conflicts (rid : option string) (u : Keyed.user) : bool :=
  match rid with
  | Some r => Server.text_is (Keyed.roblox_id u) r
  | None => false
  end.

(** POST /api/users: [INSERT ... ON CONFLICT(roblox_id) DO UPDATE SET username,
    display_name, branch, rank], with a store that accepts the statement. A
    request field that is absent is bound as NULL, and a NULL [roblox_id]
    conflicts with no row. The id the insert drew from the autoincrement
    counter is spent also when the conflict turns the insert into an update. *)
Definition upsert_user (roblox_id username display_name branch rank : option string)
           (now : Z) (t : users_table) : response * users_table :=
  (json (VObj [("success", VBool true)]),
   if existsb (conflicts roblox_id) (users t)
   then mkUsers
          (map (fun u => if conflicts roblox_id u
                         then Keyed.mkUser (Keyed.id u) (Keyed.roblox_id u)
                                           username display_name branch rank
                                           (Keyed.points u) (Keyed.valor u)
                                           (Keyed.created_at u)
                         else u) (users t))
          (next_user_id t + 1)
   else mkUsers
          (users t ++ [Keyed.mkUser (next_user_id t) roblox_id username display_name
                                    branch rank 0 0 now])
          (next_user_id t + 1)).

(** *** Adjusting points and valor: POST /api/users/:userId/adjust *)

(** [UPDATE users SET points = points + ?, valor = valor + ? WHERE id = ?] with
    the path parameter bound as the id; the route answers success whatever
    the update touched. *)
Definition adjust (userId : string) (pointsDelta valorDelta : option Z) (t : users_table)
  : response * users_table :=
  (json (VObj [("success", VBool true)]),
   mkUsers
     (map (fun u => if Server.int_is (Keyed.id u) userId
                    then Keyed.mkUser (Keyed.id u) (Keyed.roblox_id u) (Keyed.username u)
                                      (Keyed.display_name u) (Keyed.branch u)
                                      (Keyed.rank u)
                                      (sql_add (Keyed.points u) (Keyed.or_zero pointsDelta))
                                      (sql_add (Keyed.valor u) (Keyed.or_zero valorDelta))
                                      (Keyed.created_at u)
                    else u) (users t))
     (next_user_id t)).

(** *** Adding attendees: POST /api/trainings/:trainingId/attendees *)

(** A row of [training_attendance], as the values bound by [stmt.run]. *)
Record attendance : Type := mkAttendance {
  at_training_id : string;
  at_user_id : Server.ident
}.

(** [attendees] is [req.body.attendees], an array; [finalize_err] is what the
    callback of [stmt.finalize] receives. *)
Definition add_attendees (trainingId : string) (attendees : list Server.ident)
           (finalize_err : bool) (rows : list attendance) : response * list attendance :=
  let rows' :=
    fold_left (fun acc userId =>
                 if negb (Keyed.falsy_id userId)
                 then (acc ++ [mkAttendance trainingId userId])%list
                 else acc) attendees rows in
  (if finalize_err then error 500 "Failed to add attendees"
   else json (VObj [("success", VBool true)]),
   rows').

(** *** Command status: GET /api/status *)

(** A row of [SELECT rank FROM users ... LIMIT 1]. *)
Record rank_row : Type := mkRank { rank_of : option string }.

(** [row4 && row4.rank ? row4.rank : 'Unknown'] *)
Definition current_rank (res : db_result rank_row) : string :=
  match res with
  | DbRow (Some row) =>
      match rank_of row with
      | Some r => if String.eqb r "" then "Unknown" else r
      | None => "Unknown"
      end
  | _ => "Unknown"
  end.

Definition status_route (users_q trainings_q medals_q : db_result Keyed.count_row)
           (rank_q : db_result rank_row) : response :=
  json (VObj [("activePersonnel", VNum (Keyed.count_or_zero users_q));
              ("trainingsToday", VNum (Keyed.count_or_zero trainings_q));
              ("medalsAwarded", VNum (Keyed.count_or_zero medals_q));
              ("currentRank", VStr (current_rank rank_q))]).

End WithSqlite.

End Basic.

(** * Properties *)

(** ** Admin key exchange *)

Module AdminKeys.
Import Server.

Definition sample_key : admin_key := mkAdminKey 1 "6b29c8ee" 0 1000 0.
Definition sample_world : world := mkWorld [sample_key] 2 ∅.

Lemma select_key_mark_used key i ks :
  select_key key (mark_used i ks) =
  option_map (fun r => if k_id r =? i
                       then mkAdminKey (k_id r) (k_key r) (k_created_at r)
                                       (k_expires_at r) 1
                       else r)
             (select_key key ks).
Proof.
  unfold select_key, mark_used.
  induction ks as [|r ks IH]; [reflexivity|].
  cbn [map find].
  destruct (k_id r =? i) eqn:E; cbn [k_key];
    destruct (String.eqb (k_key r) key); cbn [option_map]; rewrite ?E; auto.
Qed.

Lemma login_nonempty k now tok w :
  k <> "" ->
  login (Some k) now tok w =
  login_callback k now tok (DbRow (select_key k (admin_keys w))) w.
Proof.
  intros Hk. unfold login.
  destruct (String.eqb k "") eqn:E; [|reflexivity].
  apply String.eqb_eq in E. contradiction.
Qed.

Lemma find_app_none {A} (f : A -> bool) (l l' : list A) :
  find f l = None -> find f (l ++ l') = find f l'.
Proof.
  induction l as [|x l IH]; [reflexivity|]. cbn [find app].
  destruct (f x); [discriminate | exact IH].
Qed.

(** A key that was just created is the row the login finds, valid for
    twelve hours and unused. *)
Lemma created_key_is_found key now w :
  select_key key (admin_keys w) = None ->
  select_key key (admin_keys (snd (create_key key now w)))
  = Some (mkAdminKey (next_key_id w) key now (now + twelve_hours) 0).
Proof.
  intros Hfresh. unfold create_key, select_key in *. cbn [snd admin_keys].
  rewrite find_app_none by exact Hfresh.
  cbn [find k_key]. now rewrite String.eqb_refl.
Qed.

(** C1, as the specification words it, makes the exchange fail unless
    the time is strictly before the expiry. At the very instant of expiry
    the code lets it through: with [now = expires_at] and the flag clear
    the login returns the token, although [now] is not strictly before the
    expiry. *)
Lemma login_at_expiry_instant :
  fst (login (Some "6b29c8ee") 1000 "tok" sample_world) = token_reply "tok"
  /\ ~ (1000 < k_expires_at sample_key).
Proof.
  split; [reflexivity | cbn; lia].
Qed.

(** C1 (amended): for a stored key presented at time [now], the login
    returns the token exactly when [now <= expires_at] and the used flag is
    clear; it answers [Expired] when [expires_at < now], [AlreadyUsed] when
    the key is not expired and the flag is set, and [InvalidKey] when no
    row carries the presented key. *)
Theorem login_outcomes (w : world) (row : admin_key) (now : Z) (tok : string) :
  k_key row <> "" ->
  select_key (k_key row) (admin_keys w) = Some row ->
  (fst (login (Some (k_key row)) now tok w) = token_reply tok
     <-> (now <= k_expires_at row /\ k_used row = 0))
  /\ (k_expires_at row < now ->
      fst (login (Some (k_key row)) now tok w) = Expired)
  /\ (now <= k_expires_at row -> k_used row <> 0 ->
      fst (login (Some (k_key row)) now tok w) = AlreadyUsed)
  /\ (forall other, other <> "" -> select_key other (admin_keys w) = None ->
      fst (login (Some other) now tok w) = InvalidKey).
Proof.
  intros Hk Hsel.
  rewrite (login_nonempty _ now tok w Hk). unfold login_callback. rewrite Hsel.
  destruct (Z.ltb_spec (k_expires_at row) now) as [Hexp|Hexp];
    destruct (Z.eqb_spec (k_used row) 0) as [Hu|Hu]; cbn [negb fst].
  all: repeat split; try (intros; first [reflexivity | lia | discriminate]).
  all: try (intros [? ?]; first [lia | contradiction]).
  all: intros other Ho Hnone; rewrite (login_nonempty _ now tok w Ho);
    unfold login_callback; rewrite Hnone; reflexivity.
Qed.

Lemma login_outcomes_witness :
  (fst (login (Some "6b29c8ee") 500 "tok" sample_world) = token_reply "tok"
     <-> (500 <= k_expires_at sample_key /\ k_used sample_key = 0))
  /\ (k_expires_at sample_key < 500 ->
      fst (login (Some "6b29c8ee") 500 "tok" sample_world) = Expired)
  /\ (500 <= k_expires_at sample_key -> k_used sample_key <> 0 ->
      fst (login (Some "6b29c8ee") 500 "tok" sample_world) = AlreadyUsed)
  /\ (forall other, other <> "" -> select_key other (admin_keys sample_world) = None ->
      fst (login (Some other) 500 "tok" sample_world) = InvalidKey).
Proof.
  apply (login_outcomes sample_world sample_key 500 "tok").
  - discriminate.
  - reflexivity.
Defined.

(** A successful login marks the row and stores the session. *)
Lemma login_success_state w row now tok :
  k_key row <> "" ->
  select_key (k_key row) (admin_keys w) = Some row ->
  now <= k_expires_at row -> k_used row = 0 ->
  let w' := snd (login (Some (k_key row)) now tok w) in
  admin_keys w' = mark_used (k_id row) (admin_keys w)
  /\ ADMIN_SESSIONS w' !! tok = Some (mkSession (k_key row) now).
Proof.
  intros Hk Hsel Hexp Hu. rewrite (login_nonempty _ now tok w Hk).
  unfold login_callback. rewrite Hsel.
  destruct (Z.ltb_spec (k_expires_at row) now); [lia|].
  rewrite Hu. cbn. split; [reflexivity | apply lookup_insert_eq].
Qed.

(** Two logins with the same key, one after the other: the first returns
    a token; the second finds the flag set. *)
Lemma login_twice_in_sequence w row now1 tok1 now2 tok2 :
  k_key row <> "" ->
  select_key (k_key row) (admin_keys w) = Some row ->
  now1 <= k_expires_at row -> k_used row = 0 ->
  let '(r1, w1) := login (Some (k_key row)) now1 tok1 w in
  let '(r2, w2) := login (Some (k_key row)) now2 tok2 w1 in
  r1 = token_reply tok1
  /\ r2 = (if k_expires_at row <? now2 then Expired else AlreadyUsed)
  /\ w2 = w1.
Proof.
  intros Hk Hsel Hexp Hu.
  rewrite !(login_nonempty _ _ _ _ Hk).
  unfold login_callback at 1. rewrite Hsel.
  destruct (Z.ltb_spec (k_expires_at row) now1); [lia|].
  rewrite Hu. cbn [negb Z.eqb].
  rewrite (login_nonempty _ _ _ _ Hk).
  unfold login_callback. cbn [admin_keys].
  rewrite select_key_mark_used, Hsel. cbn [option_map].
  rewrite Z.eqb_refl. cbn [k_expires_at k_used].
  destruct (k_expires_at row <? now2); cbn; auto.
Qed.

(** No login clears a flag: every row of the table afterwards comes from a
    row before it with the same id and key, and with its flag either kept
    or set to 1. *)
Lemma login_never_clears key now tok w r' :
  In r' (admin_keys (snd (login key now tok w))) ->
  exists r, In r (admin_keys w) /\ k_id r' = k_id r /\ k_key r' = k_key r
            /\ (k_used r' = k_used r \/ k_used r' = 1).
Proof.
  assert (Hkeep : In r' (admin_keys w) ->
                  exists r, In r (admin_keys w) /\ k_id r' = k_id r
                            /\ k_key r' = k_key r
                            /\ (k_used r' = k_used r \/ k_used r' = 1))
    by (intros H; exists r'; auto).
  unfold login. destruct key as [k|]; [|exact Hkeep].
  destruct (String.eqb k ""); [exact Hkeep|].
  unfold login_callback. destruct (select_key k (admin_keys w)) as [row|]; [|exact Hkeep].
  destruct (k_expires_at row <? now); [exact Hkeep|].
  destruct (negb (k_used row =? 0)); [exact Hkeep|].
  cbn [snd admin_keys]. unfold mark_used. rewrite in_map_iff.
  intros [r [Hr Hin]]. exists r. split; [exact Hin|].
  destruct (k_id r =? k_id row); subst r'; cbn; auto.
Qed.

(** The two turns of one login, run back to back, are the login served alone. *)
Lemma run_alone r k now tok w :
  k <> "" ->
  let s := run [Arrives r (Some k); Selects r; CallsBack r now tok] (idle w) in
  replies s = [(r, fst (login (Some k) now tok w))]
  /\ sys_world s = snd (login (Some k) now tok w).
Proof.
  intros Hk. rewrite (login_nonempty _ _ _ _ Hk).
  unfold run, idle. cbn [fold_left step].
  destruct (String.eqb k "") eqn:E; [apply String.eqb_eq in E; contradiction|].
  cbn [in_flight sys_world replies]. rewrite lookup_insert_eq.
  cbn [in_flight sys_world replies]. rewrite lookup_insert_eq.
  destruct (login_callback k now tok _ w) as [resp w']. cbn. auto.
Qed.

(** Two requests in flight together, both lookups run before either
    callback: whatever the table, for a stored key that is neither
    expired nor used both callbacks see the flag clear and both return a
    token. *)
Lemma race_in_general w row now1 tok1 now2 tok2 :
  k_key row <> "" ->
  select_key (k_key row) (admin_keys w) = Some row ->
  now1 <= k_expires_at row -> now2 <= k_expires_at row -> k_used row = 0 ->
  replies (run [Arrives 1 (Some (k_key row)); Arrives 2 (Some (k_key row));
                Selects 1; Selects 2;
                CallsBack 1 now1 tok1; CallsBack 2 now2 tok2] (idle w))
  = [(1%nat, token_reply tok1); (2%nat, token_reply tok2)].
Proof.
  intros Hk Hsel H1 H2 Hu.
  assert (E0 : String.eqb (k_key row) "" = false) by (now apply String.eqb_neq).
  assert (E1 : (k_expires_at row <? now1) = false) by (apply Z.ltb_ge; lia).
  assert (E2 : (k_expires_at row <? now2) = false) by (apply Z.ltb_ge; lia).
  unfold run, idle, login_callback. cbn [fold_left].
  repeat first
    [ rewrite E0 | rewrite E1 | rewrite E2 | rewrite Hu | rewrite Hsel
    | rewrite lookup_insert_eq | rewrite lookup_insert_ne by lia
    | rewrite lookup_delete_ne by lia
    | progress unfold login_callback
    | progress cbn [step in_flight sys_world replies negb Z.eqb admin_keys] ].
  reflexivity.
Qed.

(** C2: the single use of a key does not survive two requests in flight
    together. With both lookups run before either callback, the two
    logins with the one stored key both return a token and two sessions
    exist afterwards. *)
Theorem login_race_both_succeed :
  let s := run [Arrives 1 (Some "6b29c8ee"); Arrives 2 (Some "6b29c8ee");
                Selects 1; Selects 2;
                CallsBack 1 500 "tok-a"; CallsBack 2 501 "tok-b"]
               (idle sample_world) in
  replies s = [(1%nat, token_reply "tok-a"); (2%nat, token_reply "tok-b")]
  /\ ADMIN_SESSIONS (sys_world s) !! "tok-a" = Some (mkSession "6b29c8ee" 500)
  /\ ADMIN_SESSIONS (sys_world s) !! "tok-b" = Some (mkSession "6b29c8ee" 501).
Proof.
  cbn zeta. repeat split; vm_compute; reflexivity.
Qed.

End AdminKeys.

(** ** Verification by profile text *)

Module Verification.

(** A reply of the profile service with the three fields the code reads. *)
Definition profile (bio name displayName : string) : value :=
  VObj [("description", VStr bio); ("name", VStr name);
        ("displayName", VStr displayName)].

Lemma isExpired_spec created now :
  AppendLog.isExpired created now = true <-> 10 * 60 * 1000 < now - created.
Proof.
  unfold AppendLog.isExpired. rewrite negb_true_iff.
  rewrite <- not_true_iff_false, Qle_bool_iff.
  unfold Qle, Qdiv, Qmult, Qinv, inject_Z. cbn. lia.
Qed.

Lemma bio_includes bio name dname code :
  AppendLog.js_includes
    (js_or (prop "description" (profile bio name dname)) (VStr "")) code
  = Some (includes bio code).
Proof.
  cbn. unfold js_or. cbn [truthy].
  destruct (String.eqb_spec bio ""); subst; reflexivity.
Qed.

(** *** The append-only variant *)

(** The check of the append-only variant writes nothing, whatever the
    lookup yields and whatever it answers. *)
Lemma appendlog_callback_reads_only rid now tok res reply st :
  snd (AppendLog.check_callback rid now tok res reply st) = st.
Proof.
  unfold AppendLog.check_callback.
  destruct res as [|[row|]]; try reflexivity.
  destruct (AppendLog.isExpired _ _); [reflexivity|].
  destruct reply as [|data]; [reflexivity|].
  destruct (AppendLog.js_includes _ _) as [[|]|]; reflexivity.
Qed.

Lemma appendlog_check_reads_only rid now tok reply st :
  snd (AppendLog.check rid now tok reply st) = st.
Proof.
  unfold AppendLog.check.
  destruct rid as [z|]; [|reflexivity].
  destruct (z =? 0); [reflexivity|].
  apply appendlog_callback_reads_only.
Qed.

Lemma appendlog_check_found rid now tok reply st :
  rid <> 0 ->
  AppendLog.check (Some rid) now tok reply st =
  AppendLog.check_callback rid now tok
    (DbRow (AppendLog.latest_code rid (AppendLog.verification_codes st))) reply st.
Proof.
  intros H. unfold AppendLog.check.
  destruct (Z.eqb_spec rid 0); [contradiction | reflexivity].
Qed.

(** *** The keyed variant *)

Lemma keyed_check_found rid now stamp reply st :
  rid <> "" ->
  Keyed.check (Some rid) now stamp reply st =
  Keyed.check_callback rid now stamp
    (DbRow (Keyed.select_code rid (Keyed.verification_codes st))) reply st.
Proof.
  intros H. unfold Keyed.check, Keyed.missing_id.
  destruct (String.eqb_spec rid ""); [contradiction | reflexivity].
Qed.

Lemma select_code_upsert rid code e rows :
  Keyed.select_code rid (Keyed.upsert_code rid code e rows)
  = Some (Keyed.mkCode rid code e).
Proof.
  unfold Keyed.select_code, Keyed.upsert_code.
  destruct (existsb _ rows) eqn:Hex.
  - induction rows as [|r rows IH]; [discriminate|].
    cbn [existsb map find] in *.
    destruct (String.eqb_spec (Keyed.v_roblox_id r) rid) as [->|Hne].
    + cbn [Keyed.v_roblox_id]. rewrite String.eqb_refl. reflexivity.
    + destruct (String.eqb_spec (Keyed.v_roblox_id r) rid); [contradiction|].
      apply IH. exact Hex.
  - induction rows as [|r rows IH].
    + cbn. rewrite String.eqb_refl. reflexivity.
    + cbn [existsb app find] in *. apply orb_false_iff in Hex as [Hr Hex].
      rewrite Hr. apply IH. exact Hex.
Qed.

Lemma select_code_deleted rid st :
  Keyed.select_code rid (Keyed.verification_codes (Keyed.delete_code rid st)) = None.
Proof.
  unfold Keyed.select_code, Keyed.delete_code. cbn [Keyed.verification_codes].
  induction (Keyed.verification_codes st) as [|r rows IH]; [reflexivity|].
  cbn [List.filter]. destruct (String.eqb (Keyed.v_roblox_id r) rid) eqn:E; cbn [negb].
  - exact IH.
  - cbn [find]. rewrite E. exact IH.
Qed.

Lemma upsert_profile_member rid uname dname now st :
  exists u, In u (Keyed.users (Keyed.upsert_profile rid uname dname now st))
            /\ Keyed.roblox_id u = Some rid
            /\ Keyed.username u = uname
            /\ Keyed.display_name u = dname.
Proof.
  unfold Keyed.upsert_profile.
  destruct (existsb _ (Keyed.users st)) eqn:Hex; cbn [Keyed.users].
  - apply existsb_exists in Hex as [u0 [Hin Hm]].
    exists (Keyed.mkUser (Keyed.id u0) (Keyed.roblox_id u0) uname dname
                         (Keyed.branch u0) (Keyed.rank u0) (Keyed.points u0)
                         (Keyed.valor u0) (Keyed.created_at u0)).
    split.
    + apply in_map_iff. exists u0. rewrite Hm. auto.
    + cbn. unfold Server.text_is in Hm.
      destruct (Keyed.roblox_id u0) as [t|]; [|discriminate].
      apply String.eqb_eq in Hm. subst. auto.
  - eexists. split; [apply in_or_app; right; left; reflexivity|]. cbn. auto.
Qed.

(** What a successful check of the keyed variant does: the member row
    carries the names of the reply, the challenge is gone, the token is
    returned with the names, and the same check run again finds no challenge. *)
Lemma keyed_check_success rid row now stamp bio name dname st :
  rid <> "" ->
  Keyed.select_code rid (Keyed.verification_codes st) = Some row ->
  now <= Keyed.v_expires_at row ->
  includes bio (Keyed.v_code row) = true ->
  let reply := Replies (profile bio name dname) in
  let '(resp, st') := Keyed.check (Some rid) now stamp reply st in
  resp = json (VObj [("success", VBool true);
                     ("token", VStr (Keyed.mint_token rid stamp));
                     ("roblox_id", VStr rid);
                     ("username", VStr name);
                     ("display_name", VStr dname)])
  /\ (exists u, In u (Keyed.users st') /\ Keyed.roblox_id u = Some rid
                /\ Keyed.username u = Some name /\ Keyed.display_name u = Some dname)
  /\ Keyed.select_code rid (Keyed.verification_codes st') = None
  /\ forall now2 stamp2 reply2,
       fst (Keyed.check (Some rid) now2 stamp2 reply2 st') = Keyed.NoChallenge.
Proof.
  intros Hrid Hsel Hexp Hinc reply. subst reply.
  rewrite (keyed_check_found _ _ _ _ _ Hrid).
  unfold Keyed.check_callback. rewrite Hsel.
  destruct (Z.ltb_spec (Keyed.v_expires_at row) now); [lia|].
  cbv beta iota delta [profile]. fold (profile bio name dname).
  rewrite bio_includes, Hinc.
  cbn [prop assoc String.eqb Ascii.eqb Bool.eqb profile Keyed.sql_text].
  repeat split.
  - destruct (upsert_profile_member rid (Some name) (Some dname) now st)
      as [u [Hin Hu]].
    exists u. split; [exact Hin | exact Hu].
  - apply select_code_deleted.
  - intros now2 stamp2 reply2. rewrite (keyed_check_found _ _ _ _ _ Hrid).
    unfold Keyed.check_callback. rewrite select_code_deleted. reflexivity.
Qed.

(** A check of the keyed variant that does not answer 200 writes nothing,
    whatever the lookup yields. *)
Lemma keyed_failed_callback_reads_only rid now stamp res reply st :
  status (fst (Keyed.check_callback rid now stamp res reply st)) <> 200 ->
  snd (Keyed.check_callback rid now stamp res reply st) = st.
Proof.
  unfold Keyed.check_callback.
  destruct res as [|[row|]]; try reflexivity.
  destruct (Keyed.v_expires_at row <? now); [reflexivity|].
  destruct reply as [|data]; [reflexivity|].
  destruct data; try reflexivity;
    destruct (AppendLog.js_includes _ _) as [[|]|]; try reflexivity;
    cbn [fst status json]; congruence.
Qed.

Lemma keyed_failed_check_reads_only rid now stamp reply st :
  status (fst (Keyed.check rid now stamp reply st)) <> 200 ->
  snd (Keyed.check rid now stamp reply st) = st.
Proof.
  unfold Keyed.check.
  destruct (Keyed.missing_id rid); [reflexivity|].
  apply keyed_failed_callback_reads_only.
Qed.

(** *** Issuance *)

Lemma latest_code_in rid rows acc r :
  fold_left
    (fun best r =>
       if AppendLog.v_roblox_id r =? rid then
         match best with
         | None => Some r
         | Some b => if AppendLog.v_id b <? AppendLog.v_id r then Some r else Some b
         end
       else best) rows acc = Some r ->
  In r rows \/ acc = Some r.
Proof.
  revert acc. induction rows as [|x rows IH]; intros acc H; cbn [fold_left] in H.
  - right. exact H.
  - apply IH in H as [H|H]; [left; right; exact H|].
    destruct (AppendLog.v_roblox_id x =? rid); [|right; exact H].
    destruct acc as [b|].
    + destruct (AppendLog.v_id b <? AppendLog.v_id x).
      * injection H as <-. left. left. reflexivity.
      * right. exact H.
    + injection H as <-. left. left. reflexivity.
Qed.

(** With ids handed out in increasing order, the row a start request
    appends is the one the next lookup finds. *)
Lemma appendlog_issued_is_latest rid suffix issued st :
  rid <> 0 ->
  Forall (fun r => AppendLog.v_id r < AppendLog.next_code_id st)
         (AppendLog.verification_codes st) ->
  AppendLog.latest_code rid
    (AppendLog.verification_codes
       (snd (AppendLog.start_verification (Some rid) suffix issued st)))
  = Some (AppendLog.mkCode (AppendLog.next_code_id st) rid
                           (AppendLog.generateVerificationCode suffix) issued).
Proof.
  intros Hrid Hids. unfold AppendLog.start_verification.
  destruct (Z.eqb_spec rid 0); [contradiction|].
  cbn [snd AppendLog.verification_codes]. unfold AppendLog.latest_code.
  rewrite fold_left_app. cbn [fold_left AppendLog.v_roblox_id AppendLog.v_id].
  rewrite Z.eqb_refl.
  destruct (fold_left _ _ None) as [b|] eqn:Hb; [|reflexivity].
  apply latest_code_in in Hb as [Hin|Hb]; [|discriminate].
  rewrite List.Forall_forall in Hids. apply Hids in Hin.
  destruct (Z.ltb_spec (AppendLog.v_id b) (AppendLog.next_code_id st));
    [reflexivity | lia].
Qed.

Lemma keyed_issued_is_stored rid suffix issued st :
  rid <> "" ->
  Keyed.select_code rid
    (Keyed.verification_codes
       (snd (Keyed.start_verification (Some rid) suffix issued st)))
  = Some (Keyed.mkCode rid (Keyed.generateVerificationCode suffix)
                       (issued + Keyed.ten_minutes)).
Proof.
  intros Hrid. unfold Keyed.start_verification, Keyed.missing_id.
  destruct (String.eqb_spec rid ""); [contradiction|].
  cbn [snd Keyed.verification_codes Server.or_empty].
  apply select_code_upsert.
Qed.

(** *** Checks of an issued challenge *)

Definition log_store : AppendLog.store :=
  snd (AppendLog.start_verification (Some 42) "ABC123" 0 (AppendLog.mkStore [] [] 1)).

Definition keyed_store : Keyed.store :=
  snd (Keyed.start_verification (Some "42") "ABC123" 0 (Keyed.mkStore [] 1 [] [])).

(** C3: on the append-only variant a check that succeeds returns a token
    and stops there. After a challenge for account 42 is issued and its
    code is in the bio, the check answers 200, yet no member row exists
    afterwards, the challenge is still stored, and the same check run
    again answers 200 once more. *)
Theorem appendlog_success_skips_upsert_and_replays :
  let reply := Replies (profile "hello USAFE-ABC123" "bob" "Bob") in
  let c1 := AppendLog.check (Some 42) 1000 "tok-1" reply log_store in
  let c2 := AppendLog.check (Some 42) 2000 "tok-2" reply (snd c1) in
  fst c1 = json (VObj [("token", VStr "tok-1"); ("roblox_id", VNum 42);
                       ("username", VStr "bob"); ("display_name", VStr "Bob")])
  /\ AppendLog.users (snd c1) = []
  /\ AppendLog.verification_codes (snd c1) = AppendLog.verification_codes log_store
  /\ fst c2 = json (VObj [("token", VStr "tok-2"); ("roblox_id", VNum 42);
                          ("username", VStr "bob"); ("display_name", VStr "Bob")]).
Proof.
  cbn zeta. repeat split; vm_compute; reflexivity.
Qed.

(** C4: a check made more than ten minutes after the challenge it finds
    was issued answers [Expired] and leaves the store as it was, whatever
    the profile service would reply; this holds for the challenge found in
    any store and, in particular, for one just issued. *)
Theorem check_after_window_is_expired (now : Z) (reply : upstream) :
  (forall st rid row tok,
      rid <> 0 ->
      AppendLog.latest_code rid (AppendLog.verification_codes st) = Some row ->
      10 * 60 * 1000 < now - AppendLog.v_created_at row ->
      AppendLog.check (Some rid) now tok reply st = (AppendLog.Expired, st))
  /\ (forall st rid row issued stamp,
      rid <> "" ->
      Keyed.select_code rid (Keyed.verification_codes st) = Some row ->
      Keyed.v_expires_at row = issued + 10 * 60 * 1000 ->
      10 * 60 * 1000 < now - issued ->
      Keyed.check (Some rid) now stamp reply st = (Keyed.Expired, st))
  /\ (forall st0 rid suffix issued tok,
      rid <> 0 ->
      Forall (fun r => AppendLog.v_id r < AppendLog.next_code_id st0)
             (AppendLog.verification_codes st0) ->
      10 * 60 * 1000 < now - issued ->
      let st := snd (AppendLog.start_verification (Some rid) suffix issued st0) in
      AppendLog.check (Some rid) now tok reply st = (AppendLog.Expired, st))
  /\ (forall st0 rid suffix issued stamp,
      rid <> "" ->
      10 * 60 * 1000 < now - issued ->
      let st := snd (Keyed.start_verification (Some rid) suffix issued st0) in
      Keyed.check (Some rid) now stamp reply st = (Keyed.Expired, st)).
Proof.
  assert (HA : forall st rid row tok,
             rid <> 0 ->
             AppendLog.latest_code rid (AppendLog.verification_codes st) = Some row ->
             10 * 60 * 1000 < now - AppendLog.v_created_at row ->
             AppendLog.check (Some rid) now tok reply st = (AppendLog.Expired, st)).
  { intros st rid row tok Hrid Hrow Hlate.
    rewrite (appendlog_check_found _ _ _ _ _ Hrid).
    unfold AppendLog.check_callback. rewrite Hrow.
    apply isExpired_spec in Hlate. rewrite Hlate. reflexivity. }
  assert (HK : forall st rid row issued stamp,
             rid <> "" ->
             Keyed.select_code rid (Keyed.verification_codes st) = Some row ->
             Keyed.v_expires_at row = issued + 10 * 60 * 1000 ->
             10 * 60 * 1000 < now - issued ->
             Keyed.check (Some rid) now stamp reply st = (Keyed.Expired, st)).
  { intros st rid row issued stamp Hrid Hrow Hexp Hlate.
    rewrite (keyed_check_found _ _ _ _ _ Hrid).
    unfold Keyed.check_callback. rewrite Hrow.
    destruct (Z.ltb_spec (Keyed.v_expires_at row) now); [reflexivity | lia]. }
  split; [exact HA|]. split; [exact HK|]. split.
  - intros st0 rid suffix issued tok Hrid Hids Hlate st.
    eapply HA; [exact Hrid | apply appendlog_issued_is_latest; assumption |].
    exact Hlate.
  - intros st0 rid suffix issued stamp Hrid Hlate st.
    eapply HK; [exact Hrid | apply keyed_issued_is_stored; assumption | | exact Hlate].
    reflexivity.
Qed.

(** A log that already holds an older challenge for the account. *)
Definition busy_log : AppendLog.store :=
  AppendLog.mkStore [] [AppendLog.mkCode 1 42 "USAFE-OLD000" 0] 2.

(** Eleven minutes after issuance, with the profile service down on one
    variant and the code present in the bio on the other. *)
Lemma check_after_window_is_expired_witness :
  (let st := snd (AppendLog.start_verification (Some 42) "ABC123" 300000 busy_log) in
   AppendLog.check (Some 42) 960000 "tok" Throws st = (AppendLog.Expired, st))
  /\ Keyed.check (Some "42") 660000 660001
                 (Replies (profile "USAFE-ABC123" "bob" "Bob")) keyed_store
    = (Keyed.Expired, keyed_store).
Proof.
  split.
  - apply (proj1 (proj2 (proj2 (check_after_window_is_expired 960000 Throws)))
             busy_log 42 "ABC123" 300000 "tok").
    + lia.
    + repeat constructor.
    + lia.
  - apply (proj2 (proj2 (proj2 (check_after_window_is_expired 660000
               (Replies (profile "USAFE-ABC123" "bob" "Bob")))))
             (Keyed.mkStore [] 1 [] []) "42" "ABC123" 0 660001).
    + discriminate.
    + lia.
Defined.

(** C5: a check that does not answer 200 leaves the store, and so the
    challenge, as it was, also when the lookup itself fails; in particular
    a check whose bio lacks the code answers [CodeMismatch], and the same
    challenge checked again within its window with the code in the bio is
    accepted. *)
Theorem failed_check_keeps_challenge :
  (forall rid now tok reply st,
      status (fst (AppendLog.check rid now tok reply st)) <> 200 ->
      snd (AppendLog.check rid now tok reply st) = st)
  /\ (forall rid now stamp reply st,
      status (fst (Keyed.check rid now stamp reply st)) <> 200 ->
      snd (Keyed.check rid now stamp reply st) = st)
  /\ (forall rid now tok res reply st,
      status (fst (AppendLog.check_callback rid now tok res reply st)) <> 200 ->
      snd (AppendLog.check_callback rid now tok res reply st) = st)
  /\ (forall rid now stamp res reply st,
      status (fst (Keyed.check_callback rid now stamp res reply st)) <> 200 ->
      snd (Keyed.check_callback rid now stamp res reply st) = st)
  /\ (forall st rid row now tok bio name dname,
      rid <> 0 ->
      AppendLog.latest_code rid (AppendLog.verification_codes st) = Some row ->
      now - AppendLog.v_created_at row <= 10 * 60 * 1000 ->
      includes bio (AppendLog.v_code row) = false ->
      AppendLog.check (Some rid) now tok (Replies (profile bio name dname)) st
        = (AppendLog.CodeMismatch, st)
      /\ forall now2 tok2 bio2 name2 dname2,
          now2 - AppendLog.v_created_at row <= 10 * 60 * 1000 ->
          includes bio2 (AppendLog.v_code row) = true ->
          status (fst (AppendLog.check (Some rid) now2 tok2
                         (Replies (profile bio2 name2 dname2)) st)) = 200)
  /\ (forall st rid row now stamp bio name dname,
      rid <> "" ->
      Keyed.select_code rid (Keyed.verification_codes st) = Some row ->
      now <= Keyed.v_expires_at row ->
      includes bio (Keyed.v_code row) = false ->
      Keyed.check (Some rid) now stamp (Replies (profile bio name dname)) st
        = (Keyed.CodeMismatch, st)
      /\ forall now2 stamp2 bio2 name2 dname2,
          now2 <= Keyed.v_expires_at row ->
          includes bio2 (Keyed.v_code row) = true ->
          status (fst (Keyed.check (Some rid) now2 stamp2
                         (Replies (profile bio2 name2 dname2)) st)) = 200).
Proof.
  split; [intros; apply appendlog_check_reads_only|].
  split; [intros; now apply keyed_failed_check_reads_only|].
  split; [intros; apply appendlog_callback_reads_only|].
  split; [intros; now apply keyed_failed_callback_reads_only|].
  split.
  - intros st rid row now tok bio name dname Hrid Hrow Hfresh Hinc.
    assert (Hne : forall t, t - AppendLog.v_created_at row <= 10 * 60 * 1000 ->
                            AppendLog.isExpired (AppendLog.v_created_at row) t = false).
    { intros t Ht. apply not_true_iff_false. rewrite isExpired_spec. lia. }
    split.
    + rewrite (appendlog_check_found _ _ _ _ _ Hrid).
      unfold AppendLog.check_callback. rewrite Hrow, (Hne _ Hfresh).
      replace (opt_prop "description" (profile bio name dname))
        with (prop "description" (profile bio name dname)) by reflexivity.
      rewrite bio_includes, Hinc. reflexivity.
    + intros now2 tok2 bio2 name2 dname2 Hfresh2 Hinc2.
      rewrite (appendlog_check_found _ _ _ _ _ Hrid).
      unfold AppendLog.check_callback. rewrite Hrow, (Hne _ Hfresh2).
      replace (opt_prop "description" (profile bio2 name2 dname2))
        with (prop "description" (profile bio2 name2 dname2)) by reflexivity.
      rewrite bio_includes, Hinc2. reflexivity.
  - intros st rid row now stamp bio name dname Hrid Hrow Hfresh Hinc.
    split.
    + rewrite (keyed_check_found _ _ _ _ _ Hrid).
      unfold Keyed.check_callback. rewrite Hrow.
      destruct (Z.ltb_spec (Keyed.v_expires_at row) now); [lia|].
      cbv beta iota delta [profile]. fold (profile bio name dname).
      rewrite bio_includes, Hinc. reflexivity.
    + intros now2 stamp2 bio2 name2 dname2 Hfresh2 Hinc2.
      pose proof (keyed_check_success rid row now2 stamp2 bio2 name2 dname2 st
                    Hrid Hrow Hfresh2 Hinc2) as H.
      cbn zeta in H.
      destruct (Keyed.check _ _ _ _ _) as [resp st'].
      destruct H as [-> _]. reflexivity.
Qed.

(** A bio without the code at one minute, then the code in the bio at two. *)
Lemma failed_check_keeps_challenge_witness :
  snd (AppendLog.check (Some 42) 60000 "tok" Throws log_store) = log_store
  /\ snd (Keyed.check (Some "42") 60000 60001 Throws keyed_store) = keyed_store
  /\ (AppendLog.check (Some 42) 60000 "tok" (Replies (profile "hello" "bob" "Bob"))
                      log_store = (AppendLog.CodeMismatch, log_store)
      /\ status (fst (AppendLog.check (Some 42) 120000 "tok"
                        (Replies (profile "USAFE-ABC123" "bob" "Bob")) log_store)) = 200)
  /\ (Keyed.check (Some "42") 60000 60001 (Replies (profile "hello" "bob" "Bob"))
                  keyed_store = (Keyed.CodeMismatch, keyed_store)
      /\ status (fst (Keyed.check (Some "42") 120000 120001
                        (Replies (profile "USAFE-ABC123" "bob" "Bob")) keyed_store)) = 200).
Proof.
  pose proof failed_check_keeps_challenge as [HA [HK [_ [_ [HAm HKm]]]]].
  split; [apply HA; vm_compute; discriminate|].
  split; [apply HK; vm_compute; discriminate|].
  split.
  - destruct (HAm log_store 42 (AppendLog.mkCode 1 42 "USAFE-ABC123" 0)
                  60000 "tok" "hello" "bob" "Bob") as [H1 H2];
      [lia | reflexivity | cbn; lia | reflexivity |].
    split; [exact H1|]. apply H2; [cbn; lia | reflexivity].
  - destruct (HKm keyed_store "42" (Keyed.mkCode "42" "USAFE-ABC123" 600000)
                  60000 60001 "hello" "bob" "Bob") as [H1 H2];
      [discriminate | reflexivity | cbn; lia | reflexivity |].
    split; [exact H1|]. apply H2; [cbn; lia | reflexivity].
Defined.

End Verification.

(** ** Members: resolution and upsert *)

Module Members.

Lemma find_the_only {A} (f : A -> bool) (l : list A) (m : A) :
  In m l -> f m = true ->
  (forall u, In u l -> f u = true -> u = m) ->
  find f l = Some m.
Proof.
  induction l as [|x l IH]; intros Hin Hm Honly; [destruct Hin|].
  cbn [find]. destruct (f x) eqn:Hx.
  - f_equal. apply Honly; [left; reflexivity | exact Hx].
  - destruct Hin as [->|Hin]; [congruence|].
    apply IH; [exact Hin | exact Hm |].
    intros u Hu. apply Honly. right. exact Hu.
Qed.

Lemma find_none_of {A} (f : A -> bool) (l : list A) :
  (forall u, In u l -> f u = false) -> find f l = None.
Proof.
  induction l as [|x l IH]; intros H; [reflexivity|].
  cbn [find]. rewrite (H x (or_introl eq_refl)).
  apply IH. intros u Hu. apply H. right. exact Hu.
Qed.

Lemma text_is_true col s : Server.text_is col s = true <-> col = Some s.
Proof.
  unfold Server.text_is. destruct col as [t|].
  - rewrite String.eqb_eq. split; congruence.
  - split; discriminate.
Qed.

Section Resolution.

Context {sq : Sqlite}.

Lemma int_is_true col s : Server.int_is col s = true <-> sqlite_int_of_text s = Some col.
Proof.
  unfold Server.int_is. destruct (sqlite_int_of_text s) as [z|].
  - rewrite Z.eqb_eq. split; congruence.
  - split; discriminate.
Qed.

(** The lookup of src/server.js under the amended premises. *)
Lemma server_resolve_by_either
      (t : Server.users_table) (m : Server.user) (s_int s_ext : string) :
  In m (Server.users t) ->
  sqlite_int_of_text s_int = Some (Server.id m) ->
  Server.roblox_id m = Some s_ext ->
  (forall u, In u (Server.users t) -> Server.id u = Server.id m -> u = m) ->
  (forall u, In u (Server.users t) -> Server.roblox_id u = Some s_ext -> u = m) ->
  (forall u, In u (Server.users t) -> Server.roblox_id u = Some s_int -> u = m) ->
  (forall u, In u (Server.users t) ->
             sqlite_int_of_text s_ext = Some (Server.id u) -> u = m) ->
  fst (Server.resolve s_int t) = inr m
  /\ fst (Server.resolve s_ext t) = inr m
  /\ (forall s,
        (forall u, In u (Server.users t) ->
                   Server.roblox_id u <> Some s
                   /\ sqlite_int_of_text s <> Some (Server.id u)) ->
        fst (Server.resolve s t) = inl Server.NotFound)
  /\ (forall s, snd (Server.resolve s t) = t).
Proof.
  intros Hin Hint Hext Hid Hrid Hcross1 Hcross2.
  unfold Server.resolve, Server.getUserByIdOrRobloxId.
  repeat split.
  - destruct (find (fun u => Server.text_is (Server.roblox_id u) s_int) (Server.users t))
      as [u|] eqn:E.
    + apply find_some in E as [Hu Hmatch]. apply text_is_true in Hmatch.
      now rewrite (Hcross1 u Hu Hmatch).
    + rewrite (find_the_only _ _ m Hin); [reflexivity| |].
      * now apply int_is_true.
      * intros u Hu H. apply int_is_true in H. apply Hid; [exact Hu | congruence].
  - rewrite (find_the_only _ _ m Hin); [reflexivity| |].
    + now apply text_is_true.
    + intros u Hu H. apply Hrid; [exact Hu | now apply text_is_true].
  - intros s Hnone. rewrite !find_none_of; [reflexivity| |].
    + intros u Hu. apply not_true_iff_false. rewrite int_is_true.
      exact (proj2 (Hnone u Hu)).
    + intros u Hu. apply not_true_iff_false. rewrite text_is_true.
      exact (proj1 (Hnone u Hu)).
  - intros s. destruct (find _ _); [|destruct (find _ _)]; reflexivity.
Qed.




End Resolution.

(** *** Examples, over plain decimal texts *)

#[local] Existing Instance decimal_texts.

(** Two members whose identifiers cross. *)
Definition alice : Server.user :=
  Server.mkUser 1 (Some "2") (Some "alice") (Some "Alice") (Some "Unassigned") 0 0.
Definition bob : Server.user :=
  Server.mkUser 2 (Some "777") (Some "bob") (Some "Bob") (Some "Unassigned") 0 0.
Definition crossed : Server.users_table := Server.mkUsers [alice; bob] 3.

Definition k_alice : Keyed.user :=
  Keyed.mkUser 1 (Some "2") (Some "alice") (Some "Alice") None None 0 0 0.
Definition k_bob : Keyed.user :=
  Keyed.mkUser 2 (Some "777") (Some "bob") (Some "Bob") None None 0 0 0.
Definition k_crossed : Keyed.store := Keyed.mkStore [k_alice; k_bob] 3 [] [].


(** [resolveInternalUserId] searches the internal ids first: on the same
    two members it is [alice] whose two identifiers part, her external id
    "2" being taken for the internal id of [bob]. *)
Lemma keyed_resolve_crossed_identifiers :
  fst (Keyed.resolveInternalUserId (Server.IdNum 1) k_crossed) = Keyed.Internal 1
  /\ fst (Keyed.resolveInternalUserId (Server.IdStr "2") k_crossed) = Keyed.Internal 2
  /\ fst (Keyed.resolveInternalUserId (Server.IdNum 2) k_crossed) = Keyed.Internal 2
  /\ fst (Keyed.resolveInternalUserId (Server.IdStr "777") k_crossed) = Keyed.Internal 2.
Proof.
  repeat split; vm_compute; reflexivity.
Qed.

(** The order of the rows changes nothing: with [bob] stored first the
    text "2" still resolves to [alice]. *)
Lemma resolve_crossed_other_order :
  let t := Server.mkUsers [bob; alice] 3 in
  fst (Server.resolve "2" t) = inr alice
  /\ fst (Server.resolve "777" t) = inr bob.
Proof.
  split; vm_compute; reflexivity.
Qed.

Definition carol : Server.user :=
  Server.mkUser 7 (Some "123456789") (Some "carol") (Some "Carol") (Some "Private") 5 0.
Definition roster_table : Server.users_table := Server.mkUsers [alice; carol] 8.

Definition k_carol : Keyed.user :=
  Keyed.mkUser 7 (Some "123456789") (Some "carol") (Some "Carol") None None 5 0 0.
Definition k_roster : Keyed.store := Keyed.mkStore [k_alice; k_carol] 8 [] [].


(** *** Upsert *)

Lemma existsb_member {A} (f : A -> bool) (l : list A) (m : A) :
  In m l -> f m = true -> existsb f l = true.
Proof.
  intros Hin Hm. apply existsb_exists. exists m. auto.
Qed.

Definition veteran : Keyed.user :=
  Keyed.mkUser 1 (Some "42") (Some "bob") (Some "Bob") (Some "Army") (Some "Sergeant")
               10 3 0.

(** C6, as the specification words it, has every upsert leave the rank
    of an existing member untouched. POST /api/users does not: sent for
    the stored member "42" with rank "General", it replaces the stored
    rank "Sergeant". *)
Lemma upsert_user_overwrites_rank :
  let t := Basic.mkUsers [veteran] 2 in
  let t' := snd (Basic.upsert_user (Some "42") (Some "bob") (Some "Bob") (Some "Army")
                                   (Some "General") 99 t) in
  Keyed.rank veteran = Some "Sergeant"
  /\ Basic.users t' =
     [Keyed.mkUser 1 (Some "42") (Some "bob") (Some "Bob") (Some "Army") (Some "General")
                   10 3 0].
Proof.
  split; reflexivity.
Qed.

Section UpsertExisting.

Variables (rid : string) (uname dname : option string) (now : Z).

(** POST /api/users on a stored member: the four request fields replace
    the stored ones; everything else in the row, and every other row, stays. *)
Lemma basic_upsert_existing t m br rk :
  In m (Basic.users t) -> Keyed.roblox_id m = Some rid ->
  let t' := snd (Basic.upsert_user (Some rid) uname dname br rk now t) in
  In (Keyed.mkUser (Keyed.id m) (Keyed.roblox_id m) uname dname br rk
                   (Keyed.points m) (Keyed.valor m) (Keyed.created_at m))
     (Basic.users t')
  /\ List.length (Basic.users t') = List.length (Basic.users t)
  /\ (forall u, In u (Basic.users t) -> Keyed.roblox_id u <> Some rid ->
                In u (Basic.users t')).
Proof.
  intros Hin Hrid t'. subst t'. unfold Basic.upsert_user. cbn [snd].
  rewrite (existsb_member _ _ m Hin) by (now apply text_is_true).
  cbn [Basic.users]. split; [|split].
  - apply in_map_iff. exists m.
    cbn [Basic.conflicts]. rewrite (proj2 (text_is_true _ _) Hrid). auto.
  - apply length_map.
  - intros u Hu Hne. apply in_map_iff. exists u. split; [|exact Hu].
    cbn [Basic.conflicts].
    destruct (Server.text_is (Keyed.roblox_id u) rid) eqn:E; [|reflexivity].
    apply text_is_true in E. contradiction.
Qed.

(** The upsert of the keyed check on a stored member: only the two names change. *)
Lemma keyed_upsert_existing st m :
  In m (Keyed.users st) -> Keyed.roblox_id m = Some rid ->
  let st' := Keyed.upsert_profile rid uname dname now st in
  In (Keyed.mkUser (Keyed.id m) (Keyed.roblox_id m) uname dname
                   (Keyed.branch m) (Keyed.rank m)
                   (Keyed.points m) (Keyed.valor m) (Keyed.created_at m))
     (Keyed.users st')
  /\ List.length (Keyed.users st') = List.length (Keyed.users st)
  /\ (forall u, In u (Keyed.users st) -> Keyed.roblox_id u <> Some rid ->
                In u (Keyed.users st')).
Proof.
  intros Hin Hrid st'. subst st'. unfold Keyed.upsert_profile.
  rewrite (existsb_member _ _ m Hin) by (now apply text_is_true).
  cbn [Keyed.users]. split; [|split].
  - apply in_map_iff. exists m. rewrite (proj2 (text_is_true _ _) Hrid). auto.
  - apply length_map.
  - intros u Hu Hne. apply in_map_iff. exists u. split; [|exact Hu].
    destruct (Server.text_is (Keyed.roblox_id u) rid) eqn:E; [|reflexivity].
    apply text_is_true in E. contradiction.
Qed.

(** [ensureUserByRobloxProfile] on a stored member: a read. *)
Lemma ensure_existing t m :
  In m (Server.users t) -> Server.roblox_id m = Some rid ->
  snd (Server.ensureUserByRobloxProfile rid uname dname now t) = t
  /\ exists row, fst (Server.ensureUserByRobloxProfile rid uname dname now t) = Some row
                 /\ In row (Server.users t)
                 /\ Server.roblox_id row = Some rid.
Proof.
  intros Hin Hrid. unfold Server.ensureUserByRobloxProfile.
  destruct (find _ (Server.users t)) as [row|] eqn:E.
  - split; [reflexivity|]. exists row.
    apply find_some in E as [Hrow Hm]. apply text_is_true in Hm. auto.
  - apply (find_none _ _ E) in Hin. apply text_is_true in Hrid. congruence.
Qed.

End UpsertExisting.

(** C6 (amended): for an existing member, POST /api/users overwrites
    username, display name, branch and rank with the request's values and
    keeps the id, the external id, points, valor and the creation time;
    the upsert of the keyed verification check overwrites username and
    display name only and keeps branch, rank and the counters; and
    [ensureUserByRobloxProfile] hands back a stored row and changes
    nothing. No path adds a row, and rows of other members stay as they
    are. *)
Theorem upsert_existing_member (rid : string) (uname dname : option string) (now : Z) :
  (forall t m br rk,
      In m (Basic.users t) -> Keyed.roblox_id m = Some rid ->
      let t' := snd (Basic.upsert_user (Some rid) uname dname br rk now t) in
      In (Keyed.mkUser (Keyed.id m) (Keyed.roblox_id m) uname dname br rk
                       (Keyed.points m) (Keyed.valor m) (Keyed.created_at m))
         (Basic.users t')
      /\ List.length (Basic.users t') = List.length (Basic.users t)
      /\ (forall u, In u (Basic.users t) -> Keyed.roblox_id u <> Some rid ->
                    In u (Basic.users t')))
  /\ (forall st m,
      In m (Keyed.users st) -> Keyed.roblox_id m = Some rid ->
      let st' := Keyed.upsert_profile rid uname dname now st in
      In (Keyed.mkUser (Keyed.id m) (Keyed.roblox_id m) uname dname
                       (Keyed.branch m) (Keyed.rank m)
                       (Keyed.points m) (Keyed.valor m) (Keyed.created_at m))
         (Keyed.users st')
      /\ List.length (Keyed.users st') = List.length (Keyed.users st)
      /\ (forall u, In u (Keyed.users st) -> Keyed.roblox_id u <> Some rid ->
                    In u (Keyed.users st')))
  /\ (forall t m,
      In m (Server.users t) -> Server.roblox_id m = Some rid ->
      snd (Server.ensureUserByRobloxProfile rid uname dname now t) = t
      /\ exists row, fst (Server.ensureUserByRobloxProfile rid uname dname now t) = Some row
                     /\ In row (Server.users t)
                     /\ Server.roblox_id row = Some rid).
Proof.
  split; [|split].
  - intros t m br rk. apply basic_upsert_existing.
  - intros st m. apply keyed_upsert_existing.
  - intros t m. apply ensure_existing.
Qed.

Lemma upsert_existing_member_witness :
  (let t' := snd (Basic.upsert_user (Some "42") (Some "rob") None None (Some "General") 99
                                    (Basic.mkUsers [veteran] 2)) in
   In (Keyed.mkUser 1 (Some "42") (Some "rob") None None (Some "General") 10 3 0)
      (Basic.users t')
   /\ List.length (Basic.users t') = 1%nat
   /\ (forall u, In u [veteran] -> Keyed.roblox_id u <> Some "42" ->
                 In u (Basic.users t')))
  /\ (let st' := Keyed.upsert_profile "42" (Some "rob") None 99
                                      (Keyed.mkStore [veteran] 2 [] []) in
      In (Keyed.mkUser 1 (Some "42") (Some "rob") None (Some "Army") (Some "Sergeant")
                       10 3 0)
         (Keyed.users st')
      /\ List.length (Keyed.users st') = 1%nat
      /\ (forall u, In u [veteran] -> Keyed.roblox_id u <> Some "42" ->
                    In u (Keyed.users st')))
  /\ (snd (Server.ensureUserByRobloxProfile "2" (Some "rob") None 99 crossed) = crossed
      /\ exists row,
          fst (Server.ensureUserByRobloxProfile "2" (Some "rob") None 99 crossed) = Some row
          /\ In row (Server.users crossed)
          /\ Server.roblox_id row = Some "2").
Proof.
  split; [|split].
  - apply (proj1 (upsert_existing_member "42" (Some "rob") None 99)
                 (Basic.mkUsers [veteran] 2) veteran None (Some "General")).
    + left. reflexivity.
    + reflexivity.
  - apply (proj1 (proj2 (upsert_existing_member "42" (Some "rob") None 99))
                 (Keyed.mkStore [veteran] 2 [] []) veteran).
    + left. reflexivity.
    + reflexivity.
  - apply (proj2 (proj2 (upsert_existing_member "2" (Some "rob") None 99))
                 crossed alice).
    + left. reflexivity.
    + reflexivity.
Defined.

End Members.

(** ** Training attendees *)

Module Attendance.

Lemma append_each {A B} (f : A -> B) (l : list A) (init : list B) :
  fold_left (fun rows a => (rows ++ [f a])%list) l init = (init ++ map f l)%list.
Proof.
  revert init. induction l as [|a l IH]; intros init; cbn [fold_left map].
  - now rewrite app_nil_r.
  - rewrite IH, <- app_assoc. reflexivity.
Qed.

Definition truthy_id (a : Server.ident) : bool := negb (Keyed.falsy_id a).

(** The [forEach]: falsy entries are counted off, the others are queued;
    a response goes out here only when nothing was queued. *)
Lemma forEach_turns (l : list Server.ident) (run : Keyed.attendee_run) :
  Keyed.pending run
    = Z.of_nat (List.length l) + Z.of_nat (List.length (Keyed.queued run)) ->
  0 < Keyed.pending run ->
  let run1 := fold_left Keyed.each_entry l run in
  Keyed.written run1 = Keyed.written run
  /\ Keyed.queued run1 = (Keyed.queued run ++ List.filter truthy_id l)%list
  /\ Keyed.pending run1 = Z.of_nat (List.length (Keyed.queued run1))
  /\ Keyed.sent run1
     = (Keyed.sent run ++ if Keyed.pending run1 =? 0 then [Keyed.success] else [])%list.
Proof.
  revert run. induction l as [|x l IH]; intros run Hp Hpos; cbn [fold_left].
  - cbn [List.length List.filter] in *. rewrite !app_nil_r.
    repeat split; [lia|].
    destruct (Z.eqb_spec (Keyed.pending run) 0); [lia | now rewrite app_nil_r].
  - cbn [List.length List.filter] in Hp |- *.
    destruct (Keyed.falsy_id x) eqn:Hx.
    + assert (Hstep : Keyed.each_entry run x
                      = Keyed.mkRun (Keyed.pending run - 1) (Keyed.queued run)
                          (Keyed.written run)
                          (if Keyed.pending run - 1 =? 0
                           then (Keyed.sent run ++ [Keyed.success])%list
                           else Keyed.sent run))
        by (unfold Keyed.each_entry; rewrite Hx; reflexivity).
      rewrite Hstep. unfold truthy_id at 1. rewrite Hx. cbn [negb].
      destruct (Z.eqb_spec (Keyed.pending run - 1) 0) as [Hz|Hnz].
      * assert (Hl : l = [])
          by (destruct l; [reflexivity | cbn [List.length] in Hp; lia]).
        assert (Hq : Keyed.queued run = [])
          by (destruct (Keyed.queued run); [reflexivity | cbn [List.length] in Hp; lia]).
        subst l. cbn [fold_left List.filter Keyed.written Keyed.queued Keyed.pending
                      Keyed.sent].
        rewrite Hq, Hz. cbn. auto.
      * specialize (IH (Keyed.mkRun (Keyed.pending run - 1) (Keyed.queued run)
                                    (Keyed.written run) (Keyed.sent run))).
        cbn [Keyed.pending Keyed.queued Keyed.written Keyed.sent] in IH.
        apply IH; lia.
    + assert (Hstep : Keyed.each_entry run x
                      = Keyed.mkRun (Keyed.pending run) (Keyed.queued run ++ [x])
                          (Keyed.written run) (Keyed.sent run))
        by (unfold Keyed.each_entry; rewrite Hx; reflexivity).
      rewrite Hstep. unfold truthy_id at 1. rewrite Hx. cbn [negb].
      specialize (IH (Keyed.mkRun (Keyed.pending run) (Keyed.queued run ++ [x])
                                  (Keyed.written run) (Keyed.sent run))).
      cbn [Keyed.pending Keyed.queued Keyed.written Keyed.sent] in IH.
      rewrite <- app_assoc in IH. cbn [app] in IH.
      apply IH; [rewrite length_app; cbn [List.length]; lia | lia].
Qed.

Section Resolving.

Context {sq : Sqlite}.

Variables (trainingId : string) (finalize_err : bool) (st : Keyed.store).

(** The rows the lookups of a list of entries write, in order. *)
Definition rows_of (l : list Server.ident) : list Keyed.attendance_row :=
  flat_map (fun a => match fst (Keyed.resolveInternalUserId a st) with
                     | Keyed.Internal i => [Keyed.mkAttendance trainingId i]
                     | _ => []
                     end) l.

Lemma rows_of_permutation (l l' : list Server.ident) :
  Permutation l l' -> Permutation (rows_of l) (rows_of l').
Proof.
  intros H. induction H; cbn [rows_of flat_map].
  - constructor.
  - now apply Permutation_app_head.
  - rewrite !app_assoc. apply Permutation_app_tail, Permutation_app_comm.
  - now transitivity (rows_of l').
Qed.

(** The lookups' callbacks: every resolved entry is written, and the one
    response goes out with the last callback. *)
Lemma callbacks_turns (x : Server.ident) (q : list Server.ident)
      (run : Keyed.attendee_run) :
  Keyed.pending run = Z.of_nat (List.length (x :: q)) ->
  let run2 := fold_left (Keyed.resolved_entry trainingId finalize_err st) (x :: q) run in
  Keyed.written run2 = (Keyed.written run ++ rows_of (x :: q))%list
  /\ Keyed.sent run2
     = (Keyed.sent run ++ [if finalize_err
                           then error 500 "Failed to add attendees"
                           else Keyed.success])%list.
Proof.
  revert x run. induction q as [|y q IH]; intros x run Hp.
  - cbn [fold_left List.length] in *. unfold Keyed.resolved_entry.
    cbn [Keyed.written Keyed.sent]. rewrite Hp. cbn [Z.of_nat Z.sub Z.eqb Pos.of_succ_nat].
    unfold rows_of. cbn [flat_map].
    destruct (fst (Keyed.resolveInternalUserId x st)); rewrite ?app_nil_r; auto.
  - change (fold_left (Keyed.resolved_entry trainingId finalize_err st) (x :: y :: q) run)
      with (fold_left (Keyed.resolved_entry trainingId finalize_err st) (y :: q)
                      (Keyed.resolved_entry trainingId finalize_err st run x)).
    specialize (IH y (Keyed.resolved_entry trainingId finalize_err st run x)).
    cbn zeta in IH |- *.
    destruct IH as [Hw Hs].
    + unfold Keyed.resolved_entry. cbn [Keyed.pending]. rewrite Hp.
      cbn [List.length]. lia.
    + rewrite Hw, Hs. unfold Keyed.resolved_entry.
      cbn [Keyed.written Keyed.sent].
      destruct (Z.eqb_spec (Keyed.pending run - 1) 0) as [Hz|_];
        [rewrite Hp in Hz; cbn [List.length] in Hz; lia|].
      split; [|reflexivity].
      unfold rows_of. cbn [flat_map].
      destruct (fst (Keyed.resolveInternalUserId x st));
        rewrite <- ?app_assoc; reflexivity.
Qed.

(** The resolving route as a whole, the queued lookups completing in the
    order [completion] gives them: one response, and the rows of the
    entries that resolve, in the order of completion. *)
Lemma keyed_add_attendees (attendees : list Server.ident)
      (completion : list Server.ident -> list Server.ident) :
  attendees <> [] ->
  Permutation (List.filter truthy_id attendees)
              (completion (List.filter truthy_id attendees)) ->
  exists resp,
    Keyed.add_attendees trainingId (Some attendees) completion finalize_err st
    = ([resp],
       Keyed.mkStore (Keyed.users st) (Keyed.next_user_id st)
         (Keyed.verification_codes st)
         (Keyed.training_attendance st
            ++ rows_of (completion (List.filter truthy_id attendees))))
    /\ (finalize_err = false -> resp = Keyed.success).
Proof.
  intros Hne Hperm. unfold Keyed.add_attendees.
  destruct attendees as [|a0 l0] eqn:El; [contradiction|]. rewrite <- El in *.
  set (r0 := Keyed.mkRun (Z.of_nat (List.length attendees)) []
                         (Keyed.training_attendance st) []).
  destruct (forEach_turns attendees r0) as [Hw [Hq [Hp Hs]]].
  { subst r0. cbn [Keyed.pending Keyed.queued List.length]. lia. }
  { subst r0 attendees. cbn [Keyed.pending List.length]. lia. }
  cbn zeta in Hw, Hq, Hp, Hs.
  remember (fold_left Keyed.each_entry attendees r0) as r1 eqn:Er1.
  subst r0. cbn [Keyed.queued Keyed.written Keyed.sent app] in Hw, Hq, Hs.
  rewrite Hq in Hp |- *.
  pose proof (Permutation_length Hperm) as Hlen.
  destruct (completion (List.filter truthy_id attendees)) as [|x q] eqn:Ec.
  - cbn [fold_left]. rewrite Hs, Hp, Hlen. cbn [List.length Z.of_nat Z.eqb].
    exists Keyed.success. unfold rows_of. cbn [flat_map].
    rewrite Hw, app_nil_r. auto.
  - destruct (callbacks_turns x q r1) as [Hw2 Hs2];
      [rewrite Hp, Hlen; reflexivity|].
    cbn zeta in Hw2, Hs2. rewrite Hw2, Hs2, Hw, Hs, Hp, Hlen.
    cbn [List.length Z.of_nat Z.eqb app].
    eexists. split; [reflexivity|]. intros ->. reflexivity.
Qed.

(** What an entry resolves to, in terms of the stored members. *)
Lemma number_resolves_by_id (m : Keyed.user) :
  In m (Keyed.users st) ->
  fst (Keyed.resolveInternalUserId (Server.IdNum (Keyed.id m)) st)
  = Keyed.Internal (Keyed.id m).
Proof.
  intros Hin. unfold Keyed.resolveInternalUserId, Keyed.select_user. cbn [fst].
  destruct (find (fun u => Keyed.id_is (Keyed.id u) (Server.IdNum (Keyed.id m)))
                 (Keyed.users st)) as [u|] eqn:E.
  - apply find_some in E as [_ H]. cbn [Keyed.id_is] in H. apply Z.eqb_eq in H.
    cbn [Keyed.resolve_callback]. now rewrite H.
  - apply (find_none _ _ E) in Hin. cbn [Keyed.id_is] in Hin.
    now rewrite Z.eqb_refl in Hin.
Qed.

Lemma text_resolves_by_id (m : Keyed.user) (s : string) :
  In m (Keyed.users st) ->
  sqlite_int_of_text s = Some (Keyed.id m) ->
  fst (Keyed.resolveInternalUserId (Server.IdStr s) st) = Keyed.Internal (Keyed.id m).
Proof.
  intros Hin Hs. unfold Keyed.resolveInternalUserId, Keyed.select_user. cbn [fst].
  destruct (find (fun u => Keyed.id_is (Keyed.id u) (Server.IdStr s)) (Keyed.users st))
    as [u|] eqn:E.
  - apply find_some in E as [_ H]. cbn [Keyed.id_is] in H.
    apply Members.int_is_true in H. cbn [Keyed.resolve_callback]. congruence.
  - apply (find_none _ _ E) in Hin. cbn [Keyed.id_is] in Hin.
    apply not_true_iff_false in Hin. now rewrite Members.int_is_true in Hin.
Qed.

Lemma resolves_by_external_id (m : Keyed.user) (a : Server.ident) (r : string) :
  In m (Keyed.users st) ->
  Keyed.roblox_id m = Some r ->
  Keyed.ident_text a = r ->
  (forall u, In u (Keyed.users st) -> Keyed.id_is (Keyed.id u) a = false) ->
  (forall u, In u (Keyed.users st) -> Keyed.roblox_id u = Some r ->
             Keyed.id u = Keyed.id m) ->
  fst (Keyed.resolveInternalUserId a st) = Keyed.Internal (Keyed.id m).
Proof.
  intros Hin Hr Ha Hno Honly. unfold Keyed.resolveInternalUserId, Keyed.select_user.
  cbn [fst]. rewrite Members.find_none_of by exact Hno. rewrite Ha.
  destruct (find (fun u => Server.text_is (Keyed.roblox_id u) r) (Keyed.users st))
    as [u|] eqn:E.
  - apply find_some in E as [Hu H]. apply Members.text_is_true in H.
    cbn [Keyed.resolve_callback]. now rewrite (Honly u Hu H).
  - apply (find_none _ _ E) in Hin. apply not_true_iff_false in Hin.
    now rewrite Members.text_is_true in Hin.
Qed.

(** Whatever resolves, resolves to a stored member that carries the entry
    in one of its two columns. *)
Lemma resolved_is_stored (a : Server.ident) (i : Z) :
  fst (Keyed.resolveInternalUserId a st) = Keyed.Internal i ->
  exists m, In m (Keyed.users st) /\ Keyed.id m = i
            /\ (Keyed.id_is i a = true
                \/ Keyed.roblox_id m = Some (Keyed.ident_text a)).
Proof.
  unfold Keyed.resolveInternalUserId, Keyed.select_user. cbn [fst].
  destruct (find (fun u => Keyed.id_is (Keyed.id u) a) (Keyed.users st)) as [u|] eqn:E.
  - intros [= <-]. apply find_some in E as [Hu H]. exists u. auto.
  - destruct (find (fun u => Server.text_is (Keyed.roblox_id u) (Keyed.ident_text a))
                   (Keyed.users st)) as [u|] eqn:E';
      cbn [Keyed.resolve_callback]; [|discriminate].
    intros [= <-]. apply find_some in E' as [Hu H].
    apply Members.text_is_true in H. exists u. auto.
Qed.

End Resolving.

Section Recorded.

Context {sq : Sqlite}.

(** C8: for an existing training and a non-empty attendee list, the
    request answers success, every entry that resolves to a member is
    recorded, and an entry that does not resolve stops nothing. On
    src/server.js every entry is recorded as it is sent. On the resolving
    route, in whatever order the lookups complete, exactly one response is
    sent; the rows written are, up to their order, those of the truthy
    entries that resolve, each under the internal id found, after the rows
    already stored. There an entry resolves when it is the internal id of a
    stored member, as a number or as a text that SQLite converts to it, or,
    no member having it for internal id, the external id of a stored
    member, as a text or as a number of magnitude at most 2^53 printed in
    decimal; and every row written carries the id of a stored member that
    an entry names. *)
Theorem attendees_recorded (trainingId : string) (attendees : list Server.ident) :
  attendees <> [] ->
  (forall r tr,
      Server.select_training trainingId r = Some tr ->
      let out := Server.add_attendees trainingId (Some attendees) false r in
      fst out = json (VObj [("success", VBool true)])
      /\ Server.training_attendees (snd out)
         = (Server.training_attendees r
              ++ map (Server.mkAttendee trainingId) attendees)%list
      /\ (forall a, In a attendees ->
                    In (Server.mkAttendee trainingId a)
                       (Server.training_attendees (snd out))))
  /\ (forall st completion,
      (forall l, Permutation l (completion l)) ->
      let out := Keyed.add_attendees trainingId (Some attendees) completion false st in
      let recorded i := In (Keyed.mkAttendance trainingId i)
                           (Keyed.training_attendance (snd out)) in
      fst out = [Keyed.success]
      /\ Keyed.training_attendance (snd out)
         = (Keyed.training_attendance st
              ++ rows_of trainingId st (completion (List.filter truthy_id attendees)))%list
      /\ Permutation (Keyed.training_attendance (snd out))
                     (Keyed.training_attendance st
                        ++ rows_of trainingId st (List.filter truthy_id attendees))
      /\ (forall a i, In a attendees -> Keyed.falsy_id a = false ->
                      fst (Keyed.resolveInternalUserId a st) = Keyed.Internal i ->
                      recorded i)
      /\ (forall u, In u (Keyed.training_attendance st) ->
                    In u (Keyed.training_attendance (snd out)))
      /\ (forall m, In m (Keyed.users st) -> Keyed.id m <> 0 ->
                    In (Server.IdNum (Keyed.id m)) attendees ->
                    recorded (Keyed.id m))
      /\ (forall m s, In m (Keyed.users st) -> s <> "" ->
                      sqlite_int_of_text s = Some (Keyed.id m) ->
                      In (Server.IdStr s) attendees ->
                      recorded (Keyed.id m))
      /\ (forall m s, In m (Keyed.users st) -> s <> "" ->
                      Keyed.roblox_id m = Some s ->
                      (forall u, In u (Keyed.users st) ->
                                 sqlite_int_of_text s <> Some (Keyed.id u)) ->
                      (forall u, In u (Keyed.users st) -> Keyed.roblox_id u = Some s ->
                                 Keyed.id u = Keyed.id m) ->
                      In (Server.IdStr s) attendees ->
                      recorded (Keyed.id m))
      /\ (forall m z, In m (Keyed.users st) -> z <> 0 -> safe z ->
                      Keyed.roblox_id m = Some (toString z) ->
                      (forall u, In u (Keyed.users st) -> Keyed.id u <> z) ->
                      (forall u, In u (Keyed.users st) ->
                                 Keyed.roblox_id u = Some (toString z) ->
                                 Keyed.id u = Keyed.id m) ->
                      In (Server.IdNum z) attendees ->
                      recorded (Keyed.id m))
      /\ (forall row, In row (Keyed.training_attendance (snd out)) ->
                      In row (Keyed.training_attendance st)
                      \/ (Keyed.ta_training_id row = trainingId
                          /\ exists m a,
                              In m (Keyed.users st) /\ In a attendees
                              /\ Keyed.falsy_id a = false
                              /\ Keyed.id m = Keyed.ta_user_id row
                              /\ (match a with
                                  | Server.IdNum z => Keyed.id m = z
                                  | Server.IdStr s =>
                                      sqlite_int_of_text s = Some (Keyed.id m)
                                  end
                                  \/ match a with
                                     | Server.IdNum z => Keyed.roblox_id m = Some (toString z)
                                     | Server.IdStr s => Keyed.roblox_id m = Some s
                                     end)))).
Proof.
  intros Hne. split.
  - intros r tr Htr out. subst out. unfold Server.add_attendees.
    destruct attendees as [|a0 l0] eqn:El; [contradiction|]. rewrite <- El.
    unfold Server.attendees_callback. rewrite Htr.
    cbn [fst snd Server.training_attendees]. rewrite append_each.
    repeat split. intros a Ha. apply in_or_app. right. now apply in_map.
  - intros st completion Hperm out recorded. subst recorded out.
    destruct (keyed_add_attendees trainingId false st attendees completion Hne
                (Hperm _)) as [resp [-> Hr]].
    rewrite (Hr eq_refl). cbn [fst snd Keyed.training_attendance].
    assert (Hrec : forall a i, In a attendees -> Keyed.falsy_id a = false ->
                     fst (Keyed.resolveInternalUserId a st) = Keyed.Internal i ->
                     In (Keyed.mkAttendance trainingId i)
                        (Keyed.training_attendance st
                           ++ rows_of trainingId st
                                (completion (List.filter truthy_id attendees)))).
    { intros a i Ha Hfalsy Hres. apply in_or_app. right.
      unfold rows_of. apply in_flat_map. exists a. split.
      - apply (Permutation_in _ (Hperm _)). apply filter_In.
        split; [exact Ha|]. unfold truthy_id. now rewrite Hfalsy.
      - rewrite Hres. left. reflexivity. }
    split; [reflexivity|]. split; [reflexivity|]. split.
    { apply Permutation_app_head, rows_of_permutation, Permutation_sym, Hperm. }
    split; [exact Hrec|]. split.
    { intros u Hu. apply in_or_app. left. exact Hu. }
    split.
    { intros m Hm Hnz Ha. apply (Hrec (Server.IdNum (Keyed.id m))); [exact Ha| |].
      - cbn [Keyed.falsy_id]. now apply Z.eqb_neq.
      - now apply number_resolves_by_id. }
    split.
    { intros m s Hm Hs Hconv Ha. apply (Hrec (Server.IdStr s)); [exact Ha| |].
      - cbn [Keyed.falsy_id]. now apply String.eqb_neq.
      - now apply text_resolves_by_id. }
    split.
    { intros m s Hm Hs Hrid Hnoid Honly Ha. apply (Hrec (Server.IdStr s)); [exact Ha| |].
      - cbn [Keyed.falsy_id]. now apply String.eqb_neq.
      - apply (resolves_by_external_id st m (Server.IdStr s) s Hm Hrid eq_refl).
        + intros u Hu. cbn [Keyed.id_is]. apply not_true_iff_false.
          rewrite Members.int_is_true. exact (Hnoid u Hu).
        + exact Honly. }
    split.
    { intros m z Hm Hz _ Hrid Hnoid Honly Ha. apply (Hrec (Server.IdNum z)); [exact Ha| |].
      - cbn [Keyed.falsy_id]. now apply Z.eqb_neq.
      - apply (resolves_by_external_id st m (Server.IdNum z) (toString z) Hm Hrid eq_refl).
        + intros u Hu. cbn [Keyed.id_is]. apply Z.eqb_neq. exact (Hnoid u Hu).
        + exact Honly. }
    intros row Hrow. apply in_app_or in Hrow as [Hold|Hnew]; [left; exact Hold|].
    right. unfold rows_of in Hnew. apply in_flat_map in Hnew as [a [Ha Hin]].
    apply (Permutation_in _ (Permutation_sym (Hperm _))) in Ha.
    apply filter_In in Ha as [Ha Ht]. unfold truthy_id in Ht.
    apply negb_true_iff in Ht.
    destruct (fst (Keyed.resolveInternalUserId a st)) as [| |i] eqn:Hres;
      try contradiction.
    destruct Hin as [<-|[]]. cbn [Keyed.ta_training_id Keyed.ta_user_id].
    split; [reflexivity|].
    destruct (resolved_is_stored st a i Hres) as [m [Hm [Hid Hcol]]].
    exists m, a. repeat split; try assumption.
    destruct Hcol as [H|H]; [left | right].
    + destruct a as [z|s]; cbn [Keyed.id_is] in H.
      * apply Z.eqb_eq in H. congruence.
      * apply Members.int_is_true in H. congruence.
    + destruct a as [z|s]; exact H.
Qed.

End Recorded.

(** *** Examples, over plain decimal texts *)

#[local] Existing Instance decimal_texts.

Definition drill : Server.training := Server.mkTraining 5 "Drill" "2024-01-01" "1".
Definition drill_roster : Server.roster := Server.mkRoster [drill] [].
Definition squad : Keyed.store :=
  Keyed.mkStore
    [Keyed.mkUser 1 (Some "a") (Some "ann") None None None 0 0 0;
     Keyed.mkUser 2 (Some "b") (Some "ben") None None None 0 0 0;
     Keyed.mkUser 3 (Some "4242") (Some "cy") None None None 0 0 0]
    4 [] [].
Definition three_entries : list Server.ident :=
  [Server.IdStr "a"; Server.IdStr "b"; Server.IdStr "missing"].

(** Entries of every kind: an internal id as a number and as a text, an
    external id as a text and as a number, a falsy entry and an entry that
    names nobody. *)
Definition mixed_entries : list Server.ident :=
  [Server.IdNum 1; Server.IdStr "2"; Server.IdStr "a"; Server.IdNum 4242;
   Server.IdNum 0; Server.IdStr "missing"].

(** The lookups completing last first, for [mixed_entries] and for the
    three entries of the specification's example. *)
Lemma attendees_recorded_witness :
  fst (Server.add_attendees "5" (Some mixed_entries) false drill_roster)
    = json (VObj [("success", VBool true)])
  /\ fst (Keyed.add_attendees "5" (Some mixed_entries) (@rev Server.ident) false squad)
     = [Keyed.success]
  /\ Keyed.training_attendance
       (snd (Keyed.add_attendees "5" (Some mixed_entries) (@rev Server.ident) false squad))
     = [Keyed.mkAttendance "5" 3; Keyed.mkAttendance "5" 1;
        Keyed.mkAttendance "5" 2; Keyed.mkAttendance "5" 1]
  /\ Permutation
       (Keyed.training_attendance
          (snd (Keyed.add_attendees "5" (Some mixed_entries) (@rev Server.ident) false
                                    squad)))
       [Keyed.mkAttendance "5" 1; Keyed.mkAttendance "5" 2;
        Keyed.mkAttendance "5" 1; Keyed.mkAttendance "5" 3]
  /\ fst (Keyed.add_attendees "5" (Some three_entries) (@rev Server.ident) false squad)
     = [Keyed.success]
  /\ Permutation
       (Keyed.training_attendance
          (snd (Keyed.add_attendees "5" (Some three_entries) (@rev Server.ident) false
                                    squad)))
       [Keyed.mkAttendance "5" 1; Keyed.mkAttendance "5" 2].
Proof.
  assert (Hne : mixed_entries <> []) by discriminate.
  assert (Hne3 : three_entries <> []) by discriminate.
  destruct (attendees_recorded "5" mixed_entries Hne) as [HS HK].
  destruct (HK squad (@rev Server.ident) (@Permutation_rev Server.ident))
    as [Hresp [Hrows [Hperm _]]].
  destruct (proj2 (attendees_recorded "5" three_entries Hne3)
                  squad (@rev Server.ident) (@Permutation_rev Server.ident))
    as [Hresp3 [_ [Hperm3 _]]].
  split; [|split; [|split; [|split; [|split]]]].
  - apply (HS drill_roster drill). reflexivity.
  - exact Hresp.
  - exact Hrows.
  - exact Hperm.
  - exact Hresp3.
  - exact Hperm3.
Defined.

End Attendance.

(** ** Avatar proxy and command stats *)

Module Endpoints.

Definition null_image : response := json (VObj [("imageUrl", VNull)]).



(** On src/server.js a reply is answered with its image exactly when the
    guarded chain of the source finds a truthy [imageUrl]. *)
Lemma server_avatar_image data :
  Server.avatar (Replies data)
  = if truthy data
       && truthy (prop "data" data)
       && truthy (first_item (prop "data" data))
       && truthy (prop "imageUrl" (first_item (prop "data" data)))
    then json (VObj [("imageUrl", prop "imageUrl" (first_item (prop "data" data)))])
    else null_image.
Proof.
  unfold Server.avatar, js_and.
  destruct (truthy data) eqn:H0; cbn [andb]; rewrite ?H0; [|reflexivity].
  destruct (truthy (prop "data" data)) eqn:H1; cbn [andb]; rewrite ?H1; [|reflexivity].
  destruct (truthy (first_item (prop "data" data))) eqn:H2; cbn [andb]; rewrite ?H2;
    [|reflexivity].
  destruct (truthy (prop "imageUrl" (first_item (prop "data" data)))) eqn:H3;
    rewrite ?H3; reflexivity.
Qed.

(** What a query outcome contributes to the stats: the count of the row,
    0 for an error and 0 for no row. *)
Definition counted {R} (get : R -> Z) (q : db_result R) : Z :=
  match q with
  | DbErr => 0
  | DbRow None => 0
  | DbRow (Some row) => get row
  end.

(** C10: whatever the three count queries yield, the stats endpoint
    answers 200 with the three counters, each holding the count its query
    returned, or 0 when that query failed; this holds of src/server.js and
    of the points/valor variant. *)
Theorem stats_never_fail (users_q trainings_q medals_q : db_result Server.count_row)
        (users_q' trainings_q' medals_q' : db_result Keyed.count_row) :
  Server.admin_stats users_q trainings_q medals_q
  = mkResponse 200
      (VObj [("active_personnel", VNum (counted Server.cnt users_q));
             ("trainings_today", VNum (counted Server.cnt trainings_q));
             ("medals_awarded", VNum (counted Server.cnt medals_q))])
  /\ Keyed.admin_stats users_q' trainings_q' medals_q'
     = mkResponse 200
         (VObj [("active_personnel", VNum (counted Keyed.count users_q'));
                ("trainings_today", VNum (counted Keyed.count trainings_q'));
                ("medals_awarded", VNum (counted Keyed.count medals_q'))])
  /\ counted Server.cnt (@DbErr Server.count_row) = 0
  /\ counted Keyed.count (@DbErr Keyed.count_row) = 0.
Proof.
  assert (HS : forall q, Server.set_count 0 q = counted Server.cnt q).
  { intros [|[row|]]; cbn; try reflexivity.
    destruct (Z.eqb_spec (Server.cnt row) 0); congruence. }
  assert (HK : forall q, Keyed.count_or_zero q = counted Keyed.count q)
    by (intros [|[row|]]; reflexivity).
  unfold Server.admin_stats, Keyed.admin_stats, Server.stats_json, json.
  cbn [Server.active_personnel Server.trainings_today Server.medals_awarded].
  rewrite !HS, !HK. auto.
Qed.

End Endpoints.

(** * Further properties of the handlers *)

(** ** Admin keys, sessions and the admin gate *)

Module Sessions.
Import Server.

Lemma prefix_slice p s :
  String.prefix p s = true -> s = String.append p (slice (String.length p) s).
Proof.
  revert s. induction p as [|a p IH]; intros s H; [reflexivity|].
  destruct s as [|b s]; [discriminate|]. cbn [String.prefix] in H.
  destruct (ascii_dec a b) as [->|]; [|discriminate].
  cbn [String.length slice].
  change (String b s = String b (String.append p (slice (String.length p) s))).
  f_equal. apply IH. exact H.
Qed.

Lemma bearer_prefix tok : String.prefix "Bearer " (String.append "Bearer " tok) = true.
Proof.
  cbn. destruct tok; reflexivity.
Qed.

Lemma gate_bearer tok w :
  requireAdmin (Some (String.append "Bearer " tok)) w
  = if String.eqb tok "" then Answered (error 401 "Admin token required")
    else match ADMIN_SESSIONS w !! tok with
         | None => Answered (error 401 "Invalid or expired admin session")
         | Some _ => Next
         end.
Proof.
  unfold requireAdmin. rewrite bearer_prefix. reflexivity.
Qed.

(** X1: a key that was just created under a value no row carries yet is
    exchanged for a token at any time up to and including twelve hours
    after its creation, and refused as expired from then on. *)
Theorem created_key_exchange (key : string) (created now : Z) (tok : string) (w : world) :
  key <> "" ->
  select_key key (admin_keys w) = None ->
  fst (login (Some key) now tok (snd (create_key key created w)))
  = if created + 12 * 60 * 60 * 1000 <? now then Expired else token_reply tok.
Proof.
  intros Hkey Hfresh.
  rewrite (AdminKeys.login_nonempty _ _ _ _ Hkey).
  rewrite (AdminKeys.created_key_is_found key created w Hfresh).
  unfold login_callback. cbn [k_expires_at k_used Z.eqb negb].
  change twelve_hours with (12 * 60 * 60 * 1000).
  destruct (created + 12 * 60 * 60 * 1000 <? now); reflexivity.
Qed.

Lemma created_key_exchange_witness :
  fst (login (Some "9f1c") 43200000 "tok"
             (snd (create_key "9f1c" 0 AdminKeys.sample_world)))
  = token_reply "tok".
Proof.
  apply (created_key_exchange "9f1c" 0 43200000 "tok" AdminKeys.sample_world).
  - discriminate.
  - reflexivity.
Defined.

Lemma gate_opens_iff (authorization : option string) (w : world) :
  requireAdmin authorization w = Next
  <-> exists tok, authorization = Some (String.append "Bearer " tok)
                  /\ tok <> ""
                  /\ is_Some (ADMIN_SESSIONS w !! tok).
Proof.
  split.
  - unfold requireAdmin. intros H.
    destruct authorization as [h|].
    + destruct (String.prefix "Bearer " h) eqn:Hp; [|discriminate].
      apply prefix_slice in Hp. cbn [String.length] in Hp.
      exists (slice 7 h). split; [congruence|].
      destruct (String.eqb_spec (slice 7 h) ""); [discriminate|].
      split; [assumption|].
      destruct (ADMIN_SESSIONS w !! slice 7 h); [eauto | discriminate].
    + discriminate.
  - intros [tok [-> [Hne [session Hs]]]]. rewrite gate_bearer, Hs.
    destruct (String.eqb_spec tok ""); [contradiction | reflexivity].
Qed.

(** X2: the admin gate lets a request through exactly when its
    authorization header is "Bearer " followed by a non-empty token that
    the session map holds, and answers every other request 401: "Invalid
    or expired admin session" when the header carries a non-empty token
    the map does not hold, "Admin token required" when it carries no token
    (no header, another scheme, or nothing after "Bearer "). *)
Theorem requireAdmin_passes_iff (authorization : option string) (w : world) :
  (requireAdmin authorization w = Next
   <-> exists tok, authorization = Some (String.append "Bearer " tok)
                   /\ tok <> ""
                   /\ is_Some (ADMIN_SESSIONS w !! tok))
  /\ (requireAdmin authorization w = Next
      \/ requireAdmin authorization w = Answered (error 401 "Admin token required")
      \/ requireAdmin authorization w
         = Answered (error 401 "Invalid or expired admin session"))
  /\ (requireAdmin authorization w
       = Answered (error 401 "Invalid or expired admin session")
      <-> exists tok, authorization = Some (String.append "Bearer " tok)
                      /\ tok <> ""
                      /\ ADMIN_SESSIONS w !! tok = None)
  /\ requireAdmin None w = Answered (error 401 "Admin token required")
  /\ requireAdmin (Some "Bearer ") w = Answered (error 401 "Admin token required")
  /\ (forall h, String.prefix "Bearer " h = false ->
                requireAdmin (Some h) w = Answered (error 401 "Admin token required")).
Proof.
  split; [apply gate_opens_iff|]. split; [|split; [|split; [|split]]].
  - unfold requireAdmin.
    destruct (String.prefix "Bearer " _); [|auto].
    destruct (String.eqb _ ""); [auto|].
    destruct (ADMIN_SESSIONS w !! _); auto.
  - split.
    + unfold requireAdmin. intros H.
      destruct authorization as [h|]; [|discriminate].
      destruct (String.prefix "Bearer " h) eqn:Hp; [|discriminate].
      apply prefix_slice in Hp. cbn [String.length] in Hp.
      exists (slice 7 h). split; [congruence|].
      destruct (String.eqb_spec (slice 7 h) ""); [discriminate|].
      split; [assumption|].
      destruct (ADMIN_SESSIONS w !! slice 7 h); [discriminate | reflexivity].
    + intros [tok [-> [Hne Hs]]]. rewrite gate_bearer, Hs.
      destruct (String.eqb_spec tok ""); [contradiction | reflexivity].
  - reflexivity.
  - reflexivity.
  - intros h Hp. unfold requireAdmin. now rewrite Hp.
Qed.

Lemma login_returns_token key now tok w :
  fst (login key now tok w) = token_reply tok ->
  ADMIN_SESSIONS (snd (login key now tok w)) !! tok
  = Some (mkSession (match key with Some k => k | None => "" end) now).
Proof.
  unfold login. destruct key as [k|]; [|discriminate].
  destruct (String.eqb k ""); [discriminate|].
  unfold login_callback. destruct (select_key k (admin_keys w)) as [row|]; [|discriminate].
  destruct (k_expires_at row <? now); [discriminate|].
  destruct (negb (k_used row =? 0)); [discriminate|].
  intros _. cbn [snd ADMIN_SESSIONS]. apply lookup_insert_eq.
Qed.

(** X3: the token a login returns opens the admin gate: a request that
    carries it as "Bearer <token>" is handed on. *)
Theorem login_token_authorizes (key : option string) (now : Z) (tok : string) (w : world) :
  tok <> "" ->
  fst (login key now tok w) = token_reply tok ->
  requireAdmin (Some (String.append "Bearer " tok)) (snd (login key now tok w)) = Next.
Proof.
  intros Hne Hok. rewrite gate_bearer, (login_returns_token _ _ _ _ Hok).
  destruct (String.eqb_spec tok ""); [contradiction | reflexivity].
Qed.

Lemma login_token_authorizes_witness :
  requireAdmin (Some "Bearer 3d2a")
               (snd (login (Some "6b29c8ee") 500 "3d2a" AdminKeys.sample_world)) = Next.
Proof.
  apply (login_token_authorizes (Some "6b29c8ee") 500 "3d2a" AdminKeys.sample_world).
  - discriminate.
  - reflexivity.
Defined.

Lemma callback_keeps_sessions k now tok res w t :
  is_Some (ADMIN_SESSIONS w !! t) ->
  is_Some (ADMIN_SESSIONS (snd (login_callback k now tok res w)) !! t).
Proof.
  intros Hs. unfold login_callback.
  destruct res as [|[row|]]; try exact Hs.
  destruct (k_expires_at row <? now); [exact Hs|].
  destruct (negb (k_used row =? 0)); [exact Hs|].
  cbn [snd ADMIN_SESSIONS]. rewrite lookup_insert.
  destruct (decide (tok = t)); [eauto | exact Hs].
Qed.

Lemma step_keeps_sessions e s t :
  is_Some (ADMIN_SESSIONS (sys_world s) !! t) ->
  is_Some (ADMIN_SESSIONS (sys_world (step e s)) !! t).
Proof.
  intros Hs. destruct e as [r key|r|r now tok]; cbn [step].
  - destruct key as [k|]; [destruct (String.eqb k "")|]; exact Hs.
  - destruct (in_flight s !! r) as [[k|k res]|]; exact Hs.
  - destruct (in_flight s !! r) as [[k|k res]|]; try exact Hs.
    pose proof (callback_keeps_sessions k now tok res (sys_world s) t Hs) as H.
    destruct (login_callback k now tok res (sys_world s)) as [resp w']. exact H.
Qed.

(** X4: a session is never revoked: whatever login requests are served
    afterwards, in whatever interleaving, a header that opened the admin
    gate still opens it. *)
Theorem sessions_never_revoked (es : list event) (s : system)
        (authorization : option string) :
  requireAdmin authorization (sys_world s) = Next ->
  requireAdmin authorization (sys_world (run es s)) = Next.
Proof.
  rewrite !gate_opens_iff. intros [tok [Hh [Hne Hs]]].
  exists tok. split; [exact Hh|]. split; [exact Hne|].
  revert s Hs. unfold run.
  induction es as [|e es IH]; intros s Hs; cbn [fold_left]; [exact Hs|].
  apply IH. now apply step_keeps_sessions.
Qed.

Lemma sessions_never_revoked_witness :
  let s := mkSystem (snd (login (Some "6b29c8ee") 500 "3d2a" AdminKeys.sample_world))
                    ∅ [] in
  requireAdmin (Some "Bearer 3d2a")
    (sys_world (run [Arrives 1 (Some "6b29c8ee"); Selects 1; CallsBack 1 600 "77aa"] s))
  = Next.
Proof.
  apply (sessions_never_revoked
           [Arrives 1 (Some "6b29c8ee"); Selects 1; CallsBack 1 600 "77aa"]).
  vm_compute. reflexivity.
Defined.

(** The request an event belongs to. *)
Definition request_of (e : event) : nat :=
  match e with
  | Arrives r _ | Selects r | CallsBack r _ _ => r
  end.

Lemma step_other_request e s r :
  request_of e <> r -> in_flight (step e s) !! r = in_flight s !! r.
Proof.
  intros Hne. destruct e as [r' key|r'|r' now tok]; cbn [step request_of] in *.
  - destruct key as [k|]; [destruct (String.eqb k "")|]; cbn [in_flight];
      rewrite ?lookup_insert_ne by exact Hne; reflexivity.
  - destruct (in_flight s !! r') as [[k|k res]|]; cbn [in_flight];
      rewrite ?lookup_insert_ne by exact Hne; reflexivity.
  - destruct (in_flight s !! r') as [[k|k res]|]; try reflexivity.
    destruct (login_callback k now tok res (sys_world s)) as [resp w'].
    cbn [in_flight]. now rewrite lookup_delete_ne.
Qed.

Lemma run_other_requests es s r :
  Forall (fun e => request_of e <> r) es ->
  in_flight (run es s) !! r = in_flight s !! r.
Proof.
  unfold run. revert s. induction es as [|e es IH]; intros s H; [reflexivity|].
  cbn [fold_left]. inversion H as [|e' es' He Hes]; subst.
  rewrite IH by exact Hes. now apply step_other_request.
Qed.

(** X5: the window between a request's lookup and its callback is the only
    way past the used flag. A login whose lookup runs once the key's row is
    marked used gets no token, whatever turns of other requests run before
    its callback: it is answered [Expired] or [AlreadyUsed] and the world is
    left as the other requests made it. *)
Theorem late_lookup_never_succeeds (r : nat) (k : string) (row : admin_key)
        (es : list event) (now : Z) (tok : string) (s : system) :
  in_flight s !! r = Some (Queued k) ->
  select_key k (admin_keys (sys_world s)) = Some row ->
  k_used row <> 0 ->
  Forall (fun e => request_of e <> r) es ->
  let before := run es (step (Selects r) s) in
  let after := step (CallsBack r now tok) before in
  sys_world after = sys_world before
  /\ exists resp, replies after = (replies before ++ [(r, resp)])%list
                  /\ (resp = Expired \/ resp = AlreadyUsed).
Proof.
  intros Hq Hsel Hused Hes before after.
  assert (Hf : in_flight before !! r = Some (Fetched k (DbRow (Some row)))).
  { subst before. rewrite run_other_requests by exact Hes.
    cbn [step]. rewrite Hq. cbn [in_flight]. rewrite Hsel. apply lookup_insert_eq. }
  subst after. cbn [step]. rewrite Hf. unfold login_callback.
  destruct (Z.eqb_spec (k_used row) 0) as [|_]; [contradiction|]. cbn [negb].
  destruct (k_expires_at row <? now); cbn [sys_world replies];
    (split; [reflexivity | eexists; split; [reflexivity | auto]]).
Qed.

Lemma late_lookup_never_succeeds_witness :
  let used := mkAdminKey 1 "6b29c8ee" 0 1000 1 in
  let s := step (Arrives 2 (Some "6b29c8ee")) (idle (mkWorld [used] 2 ∅)) in
  let before := run [Arrives 3 (Some "x")] (step (Selects 2) s) in
  let after := step (CallsBack 2 500 "tok") before in
  sys_world after = sys_world before
  /\ exists resp, replies after = (replies before ++ [(2%nat, resp)])%list
                  /\ (resp = Expired \/ resp = AlreadyUsed).
Proof.
  apply (late_lookup_never_succeeds 2 "6b29c8ee" (mkAdminKey 1 "6b29c8ee" 0 1000 1)
           [Arrives 3 (Some "x")] 500 "tok").
  - vm_compute. reflexivity.
  - reflexivity.
  - discriminate.
  - repeat constructor. discriminate.
Defined.

End Sessions.

(** ** Arithmetic on points *)

Module Arithmetic.

Lemma to_double_safe z : safe z -> to_double z = z.
Proof.
  unfold safe, to_double. intros H.
  destruct (Z.ltb_spec (Z.log2 (Z.abs z)) 53) as [_|Hlog]; [reflexivity|].
  assert (Hpos : 0 < Z.abs z).
  { destruct (Z.eq_dec (Z.abs z) 0) as [E|]; [|lia].
    rewrite E in Hlog. cbn in Hlog. lia. }
  apply (Z.log2_le_pow2 _ _ Hpos) in Hlog.
  assert (E : z = 2 ^ 53 \/ z = - 2 ^ 53) by lia.
  destruct E as [->| ->]; vm_compute; reflexivity.
Qed.

Lemma js_add_safe a b : safe a -> safe b -> safe (a + b) -> js_add a b = a + b.
Proof.
  intros Ha Hb Hab. unfold js_add.
  now rewrite (to_double_safe a Ha), (to_double_safe b Hb), (to_double_safe _ Hab).
Qed.

Lemma sql_add_safe c d : safe c -> safe d -> safe (c + d) -> sql_add c d = c + d.
Proof.
  intros Hc Hd Hcd. unfold sql_add.
  destruct (int32 d && int64 c && int64 (c + d)); [reflexivity|].
  now rewrite (to_double_safe c Hc), (to_double_safe d Hd), (to_double_safe _ Hcd).
Qed.

Lemma sql_add_zero c : int64 c = true -> sql_add c 0 = c.
Proof.
  intros Hc. unfold sql_add. rewrite Z.add_0_r, Hc. reflexivity.
Qed.

(** Two deltas added one after the other to a counter, and their sum added
    at once, when every number on the way is an integer of magnitude at
    most 2^53. *)
Definition adds_exactly (c d1 d2 : Z) : Prop :=
  safe c /\ safe d1 /\ safe d2
  /\ safe (c + d1) /\ safe (d1 + d2) /\ safe (c + d1 + d2).

Lemma js_add_twice c d1 d2 :
  adds_exactly c d1 d2 -> js_add (js_add c d1) d2 = js_add c (d1 + d2).
Proof.
  intros (Hc & H1 & H2 & Hc1 & H12 & Hc12).
  rewrite (js_add_safe c d1), (js_add_safe (c + d1) d2), (js_add_safe c (d1 + d2));
    try assumption; [lia | now rewrite Z.add_assoc].
Qed.

Lemma sql_add_twice c d1 d2 :
  adds_exactly c d1 d2 -> sql_add (sql_add c d1) d2 = sql_add c (d1 + d2).
Proof.
  intros (Hc & H1 & H2 & Hc1 & H12 & Hc12).
  rewrite (sql_add_safe c d1), (sql_add_safe (c + d1) d2), (sql_add_safe c (d1 + d2));
    try assumption; [lia | now rewrite Z.add_assoc].
Qed.

(** Beyond 2^53 the sums round: 2^53 + 1 is 2^53 again, in JavaScript and,
    for a delta that is bound as a REAL, in SQLite; a delta that is bound
    as an INTEGER is added exactly. *)
Lemma sums_round_beyond_safe :
  js_add (2 ^ 53) 1 = 2 ^ 53
  /\ js_add (2 ^ 53 + 2) 1 = 2 ^ 53 + 4
  /\ sql_add (2 ^ 53) 1 = 2 ^ 53 + 1
  /\ sql_add 1 (2 ^ 53) = 2 ^ 53.
Proof.
  repeat split; vm_compute; reflexivity.
Qed.

End Arithmetic.

(** ** Roster operations of src/server.js *)

Module RosterOps.
Import Server.

Lemma find_map_same {A} (f : A -> bool) (g : A -> A) (l : list A) :
  (forall x, f (g x) = f x) ->
  find f (map g l) = option_map g (find f l).
Proof.
  intros Hfg. induction l as [|x l IH]; [reflexivity|].
  cbn [map find]. rewrite Hfg. destruct (f x); [reflexivity | exact IH].
Qed.

Lemma find_app_skip {A} (f : A -> bool) (l : list A) (x : A) :
  (forall y, In y l -> f y = false) -> f x = true ->
  find f (l ++ [x]) = Some x.
Proof.
  intros Hl Hx. induction l as [|y l IH]; cbn [app find].
  - now rewrite Hx.
  - rewrite (Hl y (or_introl eq_refl)). apply IH.
    intros z Hz. apply Hl. right. exact Hz.
Qed.

Definition with_points (c : Z) (u : user) : user :=
  mkUser (id u) (roblox_id u) (username u) (display_name u) (rank u) c (created_at u).

Definition with_rank (r : string) (u : user) : user :=
  mkUser (id u) (roblox_id u) (username u) (display_name u) (Some r)
         (combat_points u) (created_at u).

Lemma points_or_zero c : (if c =? 0 then 0 else c) = c.
Proof.
  destruct (Z.eqb_spec c 0); congruence.
Qed.

Lemma set_points_twice i c1 c2 us :
  set_combat_points i c2 (set_combat_points i c1 us) = set_combat_points i c2 us.
Proof.
  unfold set_combat_points. rewrite map_map. apply map_ext. intros u.
  destruct (id u =? i) eqn:E; cbn [id]; rewrite E; reflexivity.
Qed.

Lemma set_rank_points_commute i r c us :
  set_rank i r (set_combat_points i c us) = set_combat_points i c (set_rank i r us).
Proof.
  unfold set_rank, set_combat_points. rewrite !map_map. apply map_ext. intros u.
  destruct (id u =? i) eqn:E; cbn [id]; rewrite E; reflexivity.
Qed.

(** The decimal text of an integer is converted back to that integer, on
    plain decimal texts. *)
Lemma int_of_toString z : decimal_int_of_text (toString z) = Some z.
Proof.
  unfold decimal_int_of_text, toString.
  assert (H : NilZero.int_of_string (NilZero.string_of_int (Z.to_int z))
              = Some (Z.to_int z)).
  { apply NilZero.isi.
    - destruct z; cbn; try discriminate.
      intros [= H]. now apply DecimalPos.Unsigned.to_uint_nonnil in H.
    - destruct z; cbn; try discriminate.
      intros [= H]. now apply DecimalPos.Unsigned.to_uint_nonnil in H. }
  destruct (String.eqb_spec (NilZero.string_of_int (Z.to_int z)) "") as [E|_].
  { rewrite E in H. destruct z; discriminate H. }
  destruct (String.eqb_spec (NilZero.string_of_int (Z.to_int z)) "-") as [E|_].
  { rewrite E in H. destruct z; discriminate H. }
  cbn [orb]. rewrite H. cbn [option_map]. now rewrite DecimalZ.of_to.
Qed.

Section Roster.

Context {sq : Sqlite}.

Lemma resolve_after_points s i c us n :
  fst (resolve s (mkUsers (set_combat_points i c us) n))
  = match fst (resolve s (mkUsers us n)) with
    | inl resp => inl resp
    | inr u => inr (if id u =? i then with_points c u else u)
    end.
Proof.
  unfold resolve, getUserByIdOrRobloxId, set_combat_points. cbn [users fst].
  rewrite !find_map_same by (intros x; destruct (id x =? i); reflexivity).
  destruct (find _ us) as [u|]; [reflexivity|].
  destruct (find _ us) as [u|]; reflexivity.
Qed.

Lemma resolve_after_rank s i r us n :
  fst (resolve s (mkUsers (set_rank i r us) n))
  = match fst (resolve s (mkUsers us n)) with
    | inl resp => inl resp
    | inr u => inr (if id u =? i then with_rank r u else u)
    end.
Proof.
  unfold resolve, getUserByIdOrRobloxId, set_rank. cbn [users fst].
  rewrite !find_map_same by (intros x; destruct (id x =? i); reflexivity).
  destruct (find _ us) as [u|]; [reflexivity|].
  destruct (find _ us) as [u|]; reflexivity.
Qed.

Lemma adjust_missing s d t resp :
  fst (resolve s t) = inl resp -> adjust s (VNum d) t = (resp, t).
Proof.
  intros H. unfold adjust. now rewrite H.
Qed.

Lemma adjust_found s d t u :
  fst (resolve s t) = inr u ->
  adjust s (VNum d) t
  = (json (VObj [("success", VBool true);
                 ("new_combat_points", VNum (js_add (combat_points u) d))]),
     mkUsers (set_combat_points (id u) (js_add (combat_points u) d) (users t))
             (next_user_id t)).
Proof.
  intros H. unfold adjust. now rewrite H, points_or_zero.
Qed.

Lemma promote_missing s r t resp :
  String.eqb r "" = false ->
  fst (resolve s t) = inl resp -> promote s (Some r) t = (resp, t).
Proof.
  intros Hr H. unfold promote. now rewrite Hr, H.
Qed.

Lemma promote_found s r t u :
  String.eqb r "" = false ->
  fst (resolve s t) = inr u ->
  promote s (Some r) t
  = (json (VObj [("success", VBool true); ("rank", VStr r)]),
     mkUsers (set_rank (id u) r (users t)) (next_user_id t)).
Proof.
  intros Hr H. unfold promote. now rewrite Hr, H.
Qed.

Lemma lookup_unmatched s t :
  (forall u, In u (users t) ->
             roblox_id u <> Some s /\ sqlite_int_of_text s <> Some (id u)) ->
  fst (resolve s t) = inl NotFound.
Proof.
  intros Hnone. unfold resolve, getUserByIdOrRobloxId.
  rewrite !Members.find_none_of; [reflexivity| |].
  - intros u Hu. apply not_true_iff_false. rewrite Members.int_is_true.
    exact (proj2 (Hnone u Hu)).
  - intros u Hu. apply not_true_iff_false. rewrite Members.text_is_true.
    exact (proj1 (Hnone u Hu)).
Qed.

(** X6: adjustments add up where JavaScript adds exactly: when the points
    of the member found, the two deltas and the sums on the way are
    integers of magnitude at most 2^53, adjusting by [d1] and then by [d2]
    leaves the same table, and gives the same final answer, as one
    adjustment by [d1 + d2]; for an identifier that matches no member,
    in either column, every adjustment answers 404 "User not found" and
    changes nothing; and beyond that range the sum is rounded as a double
    is: a member at 2^53 points adjusted by 1 is answered, and left at,
    2^53. *)
Theorem adjust_adds_up (idOrRobloxId : string) (d1 d2 : Z) (t : users_table) :
  (forall u, fst (resolve idOrRobloxId t) = inr u ->
             Arithmetic.adds_exactly (combat_points u) d1 d2) ->
  adjust idOrRobloxId (VNum d2) (snd (adjust idOrRobloxId (VNum d1) t))
  = adjust idOrRobloxId (VNum (d1 + d2)) t
  /\ ((forall u, In u (users t) ->
                 roblox_id u <> Some idOrRobloxId
                 /\ sqlite_int_of_text idOrRobloxId <> Some (id u)) ->
      forall d, adjust idOrRobloxId (VNum d) t = (error 404 "User not found", t))
  /\ (forall u, fst (resolve idOrRobloxId t) = inr u -> combat_points u = 2 ^ 53 ->
                adjust idOrRobloxId (VNum 1) t
                = (json (VObj [("success", VBool true);
                               ("new_combat_points", VNum (2 ^ 53))]),
                   mkUsers (set_combat_points (id u) (2 ^ 53) (users t))
                           (next_user_id t))).
Proof.
  intros Hsafe. split; [|split].
  - destruct t as [us n].
    destruct (fst (resolve idOrRobloxId (mkUsers us n))) as [resp|u] eqn:Hres.
    + rewrite (adjust_missing _ d1 _ _ Hres), (adjust_missing _ (d1 + d2) _ _ Hres).
      cbn [snd]. apply (adjust_missing _ _ _ _ Hres).
    + rewrite (adjust_found _ d1 _ _ Hres), (adjust_found _ (d1 + d2) _ _ Hres).
      cbn [snd users next_user_id].
      rewrite (adjust_found _ d2 _ (with_points (js_add (combat_points u) d1) u)).
      * cbn [with_points combat_points id users next_user_id].
        now rewrite set_points_twice, (Arithmetic.js_add_twice _ _ _ (Hsafe u eq_refl)).
      * now rewrite resolve_after_points, Hres, Z.eqb_refl.
  - intros Hnone d. apply adjust_missing. now apply lookup_unmatched.
  - intros u Hres Hc. rewrite (adjust_found _ 1 _ _ Hres), Hc.
    replace (js_add (2 ^ 53) 1) with (2 ^ 53) by (vm_compute; reflexivity).
    reflexivity.
Qed.

(** X7: adjusting and promoting touch different columns: served in
    either order, for any request bodies, they leave the same table. *)
Theorem adjust_promote_commute (idOrRobloxId : string) (combatDelta : value)
        (newRank : option string) (t : users_table) :
  snd (promote idOrRobloxId newRank (snd (adjust idOrRobloxId combatDelta t)))
  = snd (adjust idOrRobloxId combatDelta (snd (promote idOrRobloxId newRank t))).
Proof.
  destruct newRank as [r|]; [|reflexivity].
  destruct (String.eqb r "") eqn:Hr; [unfold promote; rewrite Hr; reflexivity|].
  destruct combatDelta as [| |b|d|x|l|fs]; try reflexivity.
  destruct t as [us n].
  destruct (fst (resolve idOrRobloxId (mkUsers us n))) as [resp|u] eqn:Hres.
  - rewrite (adjust_missing _ d _ _ Hres), (promote_missing _ r _ _ Hr Hres).
    cbn [snd].
    now rewrite (adjust_missing _ d _ _ Hres), (promote_missing _ r _ _ Hr Hres).
  - rewrite (adjust_found _ d _ _ Hres), (promote_found _ r _ _ Hr Hres).
    cbn [snd users next_user_id].
    rewrite (promote_found _ r _ (with_points (js_add (combat_points u) d) u) Hr)
      by (now rewrite resolve_after_points, Hres, Z.eqb_refl).
    rewrite (adjust_found _ d _ (with_rank r u))
      by (now rewrite resolve_after_rank, Hres, Z.eqb_refl).
    cbn [snd with_points with_rank id combat_points users next_user_id].
    now rewrite set_rank_points_commute.
Qed.

(** X8: an update is read back: once a member is promoted, resolving the
    same identifier yields the member with the new rank and the points it
    had; once adjusted by a delta such that the old points, the delta and
    their sum are integers of magnitude at most 2^53, the route has
    answered the old points plus the delta, and resolving the same
    identifier yields the member with those points and the rank it had. *)
Theorem update_then_resolve (idOrRobloxId : string) (u : user) (t : users_table) :
  fst (resolve idOrRobloxId t) = inr u ->
  (forall r, r <> "" ->
     fst (resolve idOrRobloxId (snd (promote idOrRobloxId (Some r) t)))
     = inr (with_rank r u))
  /\ (forall d,
        safe (combat_points u) -> safe d -> safe (combat_points u + d) ->
        fst (resolve idOrRobloxId (snd (adjust idOrRobloxId (VNum d) t)))
        = inr (with_points (combat_points u + d) u)
        /\ prop "new_combat_points" (body (fst (adjust idOrRobloxId (VNum d) t)))
           = VNum (combat_points u + d)).
Proof.
  destruct t as [us n]. intros Hres. split.
  - intros r Hr. apply String.eqb_neq in Hr.
    rewrite (promote_found _ r _ _ Hr Hres). cbn [snd users next_user_id].
    now rewrite resolve_after_rank, Hres, Z.eqb_refl.
  - intros d Hc Hd Hcd. rewrite (adjust_found _ d _ _ Hres).
    cbn [fst snd users next_user_id].
    rewrite resolve_after_points, Hres, Z.eqb_refl.
    rewrite (Arithmetic.js_add_safe _ _ Hc Hd Hcd). split; reflexivity.
Qed.

(** X9: a training that was just created is found by the attendee route
    under the id the creation returned: with the ids of earlier trainings
    below the counter, recording a non-empty attendee list for that id
    answers success and appends one row per entry. The path carries the
    decimal text of the id: the statement holds for every conversion that
    takes this text back to the id, and so for the conversion of plain
    decimal texts ([int_of_toString]). *)
Theorem created_training_takes_attendees
        (type date host_id : option string) (b : training_book)
        (attendees : list ident) :
  blank type = false -> blank date = false -> blank host_id = false ->
  Forall (fun tr => t_id tr < next_training_id b) (trainings (book b)) ->
  attendees <> [] ->
  let created := create_training type date host_id b in
  let trainingId := toString (next_training_id b) in
  let recorded :=
    (json (VObj [("success", VBool true)]),
     mkRoster (trainings (book (snd created)))
              (training_attendees (book b) ++ map (mkAttendee trainingId) attendees)) in
  prop "training_id" (body (fst created)) = VNum (next_training_id b)
  /\ (sqlite_int_of_text trainingId = Some (next_training_id b) ->
      add_attendees trainingId (Some attendees) false (book (snd created)) = recorded)
  /\ @add_attendees decimal_texts trainingId (Some attendees) false (book (snd created))
     = recorded.
Proof.
  intros Ht Hd Hh Hids Hne created trainingId recorded. subst created recorded.
  unfold create_training. rewrite Ht, Hd, Hh. cbn [orb fst snd body book].
  split; [reflexivity|].
  assert (Hgen : forall conv : Sqlite,
             @sqlite_int_of_text conv trainingId = Some (next_training_id b) ->
             @add_attendees conv trainingId (Some attendees) false
               (mkRoster (trainings (book b)
                            ++ [mkTraining (next_training_id b) (or_empty type)
                                           (or_empty date) (or_empty host_id)])
                         (training_attendees (book b)))
             = (json (VObj [("success", VBool true)]),
                mkRoster (trainings (book b)
                            ++ [mkTraining (next_training_id b) (or_empty type)
                                           (or_empty date) (or_empty host_id)])
                         (training_attendees (book b)
                            ++ map (mkAttendee trainingId) attendees))).
  { intros conv Hconv.
    unfold add_attendees. destruct attendees as [|a0 l0] eqn:El; [contradiction|].
    rewrite <- El. unfold attendees_callback, select_training. cbn [trainings].
    rewrite find_app_skip.
    - cbn [training_attendees]. now rewrite Attendance.append_each.
    - intros tr Htr. rewrite List.Forall_forall in Hids. apply Hids in Htr.
      unfold int_is. rewrite Hconv. apply Z.eqb_neq. lia.
    - unfold int_is. rewrite Hconv. cbn [t_id]. apply Z.eqb_refl. }
  split.
  - apply Hgen.
  - apply Hgen. apply int_of_toString.
Qed.

(** X25: a member whose identifiers are not taken by another member in the
    other column is adjusted, and promoted, the same way whichever of its
    two identifiers the path carries: same answer, same table. *)
Theorem update_by_either_identifier (t : users_table) (m : user) (s_int s_ext : string)
        (combatDelta : value) (newRank : option string) :
  In m (users t) ->
  sqlite_int_of_text s_int = Some (id m) ->
  roblox_id m = Some s_ext ->
  (forall u, In u (users t) -> id u = id m -> u = m) ->
  (forall u, In u (users t) -> roblox_id u = Some s_ext -> u = m) ->
  (forall u, In u (users t) -> roblox_id u = Some s_int -> u = m) ->
  (forall u, In u (users t) -> sqlite_int_of_text s_ext = Some (id u) -> u = m) ->
  adjust s_int combatDelta t = adjust s_ext combatDelta t
  /\ promote s_int newRank t = promote s_ext newRank t.
Proof.
  intros Hin Hint Hext Hid Hrid Hc1 Hc2.
  destruct (Members.server_resolve_by_either t m s_int s_ext
              Hin Hint Hext Hid Hrid Hc1 Hc2) as [H1 [H2 _]].
  unfold adjust, promote. now rewrite H1, H2.
Qed.

End Roster.

(** *** Examples, over plain decimal texts *)

#[local] Existing Instance decimal_texts.

Definition seasoned : user :=
  mkUser 7 (Some "123456789") (Some "carol") (Some "Carol") (Some "Private")
         (2 ^ 53) 0.

Lemma adjust_adds_up_witness :
  adjust "7" (VNum 4) (snd (adjust "7" (VNum 3) Members.roster_table))
  = adjust "7" (VNum 7) Members.roster_table
  /\ (forall d, safe d ->
                adjust "99" (VNum d) Members.roster_table
                = (error 404 "User not found", Members.roster_table))
  /\ adjust "7" (VNum 1) (mkUsers [seasoned] 8)
     = (json (VObj [("success", VBool true); ("new_combat_points", VNum (2 ^ 53))]),
        mkUsers [seasoned] 8).
Proof.
  split; [|split].
  - apply (adjust_adds_up "7" 3 4 Members.roster_table).
    intros u [= <-]. unfold Arithmetic.adds_exactly, safe. cbn. repeat split; lia.
  - intros d _. apply (adjust_adds_up "99" 0 0 Members.roster_table).
    + intros u H. discriminate H.
    + intros u [<-|[<-|[]]]; split; discriminate.
  - destruct (adjust_adds_up "7" 0 0 (mkUsers [seasoned] 8)) as [_ [_ H]].
    + intros u [= <-]. unfold Arithmetic.adds_exactly, safe. cbn. repeat split; lia.
    + exact (H seasoned eq_refl eq_refl).
Defined.

Lemma update_then_resolve_witness :
  fst (resolve "123456789"
         (snd (promote "123456789" (Some "Corporal") Members.roster_table)))
  = inr (with_rank "Corporal" Members.carol)
  /\ fst (resolve "123456789"
            (snd (adjust "123456789" (VNum 4) Members.roster_table)))
     = inr (with_points 9 Members.carol)
  /\ prop "new_combat_points"
          (body (fst (adjust "123456789" (VNum 4) Members.roster_table)))
     = VNum 9.
Proof.
  destruct (update_then_resolve "123456789" Members.carol Members.roster_table eq_refl)
    as [Hrank Hpoints].
  split.
  - apply Hrank. discriminate.
  - apply (Hpoints 4); unfold safe; cbn; lia.
Defined.

Lemma created_training_takes_attendees_witness :
  let b := mkBook Attendance.drill_roster 6 in
  let created := create_training (Some "Drill") (Some "2024-02-01") (Some "1") b in
  prop "training_id" (body (fst created)) = VNum 6
  /\ add_attendees "6" (Some Attendance.three_entries) false (book (snd created))
     = (json (VObj [("success", VBool true)]),
        mkRoster (trainings (book (snd created)))
                 (map (mkAttendee "6") Attendance.three_entries)).
Proof.
  destruct (created_training_takes_attendees
              (Some "Drill") (Some "2024-02-01") (Some "1")
              (mkBook Attendance.drill_roster 6) Attendance.three_entries)
    as [Hid [_ Hrec]].
  - reflexivity.
  - reflexivity.
  - reflexivity.
  - repeat constructor.
  - discriminate.
  - split; [exact Hid | exact Hrec].
Defined.

Lemma update_by_either_identifier_witness :
  adjust "7" (VNum 4) Members.roster_table = adjust "123456789" (VNum 4) Members.roster_table
  /\ promote "7" (Some "Corporal") Members.roster_table
     = promote "123456789" (Some "Corporal") Members.roster_table.
Proof.
  apply (update_by_either_identifier Members.roster_table Members.carol "7" "123456789").
  - right. left. reflexivity.
  - reflexivity.
  - reflexivity.
  - intros u [<-|[<-|[]]]; [discriminate | reflexivity].
  - intros u [<-|[<-|[]]]; [discriminate | reflexivity].
  - intros u [<-|[<-|[]]]; [discriminate | reflexivity].
  - intros u [<-|[<-|[]]]; [discriminate | reflexivity].
Defined.

End RosterOps.

(** ** Creating members *)

Module Identity.

(** The external ids a users table holds, NULLs left out. *)
Definition external_ids {U} (rid_of : U -> option string) (us : list U) : list string :=
  flat_map (fun u => match rid_of u with
                     | Some r => [r]
                     | None => []
                     end) us.

Lemma external_ids_map {U} (rid_of : U -> option string) (g : U -> U) (us : list U) :
  (forall u, rid_of (g u) = rid_of u) ->
  external_ids rid_of (map g us) = external_ids rid_of us.
Proof.
  intros Hg. unfold external_ids. induction us as [|u us IH]; [reflexivity|].
  cbn [map flat_map]. now rewrite Hg, IH.
Qed.

Lemma external_ids_app {U} (rid_of : U -> option string) (us vs : list U) :
  external_ids rid_of (us ++ vs)
  = (external_ids rid_of us ++ external_ids rid_of vs)%list.
Proof.
  unfold external_ids. apply flat_map_app.
Qed.

Lemma external_ids_absent {U} (rid_of : U -> option string) (us : list U) (r : string) :
  (forall u, In u us -> Server.text_is (rid_of u) r = false) ->
  ~ In r (external_ids rid_of us).
Proof.
  intros Hno Hin. unfold external_ids in Hin. apply in_flat_map in Hin as [u [Hu Hr]].
  specialize (Hno u Hu). destruct (rid_of u) as [t|]; [|destruct Hr].
  destruct Hr as [->|[]]. cbn in Hno. now rewrite String.eqb_refl in Hno.
Qed.

Lemma nodup_snoc (l : list string) (r : string) :
  List.NoDup l -> ~ In r l -> List.NoDup (l ++ [r]).
Proof.
  intros Hl Hr. induction l as [|x l IH]; cbn [app].
  - constructor; [intros [] | constructor].
  - apply List.NoDup_cons_iff in Hl as [Hx Hl]. constructor.
    + intros Hin. apply in_app_or in Hin as [Hin|[->|[]]]; [contradiction|].
      apply Hr. left. reflexivity.
    + apply IH; [exact Hl|]. intros Hin. apply Hr. right. exact Hin.
Qed.

Lemma existsb_none {A} (f : A -> bool) (l : list A) :
  existsb f l = false -> forall x, In x l -> f x = false.
Proof.
  intros H x Hx. destruct (f x) eqn:E; [|reflexivity].
  rewrite <- H. symmetry. apply existsb_exists. eauto.
Qed.

(** X10: [ensureUserByRobloxProfile] is idempotent: with the ids of the
    stored rows below the counter, a second call for the same external id,
    whatever names it carries, hands back the row the first call handed
    back and leaves the table as the first call left it. *)
Theorem ensure_is_idempotent (robloxId : string) (uname dname uname' dname' : option string)
        (now now' : Z) (t : Server.users_table) :
  Forall (fun u => Server.id u < Server.next_user_id t) (Server.users t) ->
  let first := Server.ensureUserByRobloxProfile robloxId uname dname now t in
  is_Some (fst first)
  /\ Server.ensureUserByRobloxProfile robloxId uname' dname' now' (snd first) = first.
Proof.
  intros Hids first. subst first.
  destruct (find (fun u => Server.text_is (Server.roblox_id u) robloxId)
                 (Server.users t)) as [row|] eqn:Hfind.
  - assert (HE : Server.ensureUserByRobloxProfile robloxId uname dname now t
                 = (Some row, t))
      by (unfold Server.ensureUserByRobloxProfile; now rewrite Hfind).
    rewrite HE. cbn [fst snd]. split; [eauto|].
    unfold Server.ensureUserByRobloxProfile. now rewrite Hfind.
  - set (row := Server.mkUser (Server.next_user_id t) (Some robloxId)
                              (Some (Server.or_empty uname))
                              (Some (Server.or_empty dname)) (Some "Unassigned") 0 now).
    assert (Hnew : find (fun u => Server.id u =? Server.next_user_id t)
                        (Server.users t ++ [row]) = Some row).
    { apply RosterOps.find_app_skip.
      - intros u Hu. rewrite List.Forall_forall in Hids. apply Hids in Hu.
        apply Z.eqb_neq. lia.
      - apply Z.eqb_refl. }
    assert (HE : Server.ensureUserByRobloxProfile robloxId uname dname now t
                 = (Some row,
                    Server.mkUsers (Server.users t ++ [row]) (Server.next_user_id t + 1))).
    { unfold Server.ensureUserByRobloxProfile. rewrite Hfind. cbn zeta.
      cbn [Server.users]. fold row. now rewrite Hnew. }
    rewrite HE. cbn [fst snd]. split; [eauto|].
    unfold Server.ensureUserByRobloxProfile. cbn [Server.users].
    rewrite RosterOps.find_app_skip.
    + reflexivity.
    + intros u Hu. exact (find_none _ _ Hfind u Hu).
    + cbn. apply String.eqb_refl.
Qed.

Lemma ensure_is_idempotent_witness :
  let first := Server.ensureUserByRobloxProfile "555" (Some "dan") None 10
                                                Members.roster_table in
  is_Some (fst first)
  /\ Server.ensureUserByRobloxProfile "555" (Some "daniel") (Some "Dan") 20 (snd first)
     = first.
Proof.
  apply (ensure_is_idempotent "555" (Some "dan") None (Some "daniel") (Some "Dan") 10 20
           Members.roster_table).
  repeat constructor.
Defined.

(** X11: external ids stay unique: if no two stored members share an
    external id, none do after [ensureUserByRobloxProfile], after the upsert
    of the keyed verification check, or after POST /api/users, whether the
    call creates a row or finds one. *)
Theorem external_ids_stay_unique :
  (forall rid uname dname now t,
      List.NoDup (external_ids Server.roblox_id (Server.users t)) ->
      List.NoDup (external_ids Server.roblox_id
               (Server.users
                  (snd (Server.ensureUserByRobloxProfile rid uname dname now t)))))
  /\ (forall rid uname dname now st,
      List.NoDup (external_ids Keyed.roblox_id (Keyed.users st)) ->
      List.NoDup (external_ids Keyed.roblox_id
               (Keyed.users (Keyed.upsert_profile rid uname dname now st))))
  /\ (forall rid uname dname br rk now t,
      List.NoDup (external_ids Keyed.roblox_id (Basic.users t)) ->
      List.NoDup (external_ids Keyed.roblox_id
               (Basic.users (snd (Basic.upsert_user rid uname dname br rk now t))))).
Proof.
  split; [|split].
  - intros rid uname dname now t Hnd. unfold Server.ensureUserByRobloxProfile.
    destruct (find _ (Server.users t)) eqn:Hfind; [exact Hnd|].
    cbn [snd Server.users]. rewrite external_ids_app. cbn.
    apply nodup_snoc; [exact Hnd|].
    apply external_ids_absent. intros u Hu. exact (find_none _ _ Hfind u Hu).
  - intros rid uname dname now st Hnd. unfold Keyed.upsert_profile.
    destruct (existsb _ (Keyed.users st)) eqn:Hex; cbn [Keyed.users].
    + rewrite external_ids_map; [exact Hnd|].
      intros u. destruct (Server.text_is (Keyed.roblox_id u) rid); reflexivity.
    + rewrite external_ids_app. cbn. apply nodup_snoc; [exact Hnd|].
      apply external_ids_absent. exact (existsb_none _ _ Hex).
  - intros rid uname dname br rk now t Hnd. unfold Basic.upsert_user. cbn [snd].
    destruct (existsb _ (Basic.users t)) eqn:Hex; cbn [Basic.users].
    + rewrite external_ids_map; [exact Hnd|].
      intros u. destruct (Basic.conflicts rid u); reflexivity.
    + rewrite external_ids_app. destruct rid as [r|]; cbn.
      * apply nodup_snoc; [exact Hnd|].
        apply external_ids_absent. exact (existsb_none _ _ Hex).
      * now rewrite app_nil_r.
Qed.

Lemma external_ids_stay_unique_witness :
  List.NoDup (external_ids Server.roblox_id
           (Server.users
              (snd (Server.ensureUserByRobloxProfile "555" None None 10
                                                     Members.roster_table))))
  /\ List.NoDup (external_ids Keyed.roblox_id
              (Keyed.users (Keyed.upsert_profile "2" None None 10 Members.k_roster)))
  /\ List.NoDup (external_ids Keyed.roblox_id
              (Basic.users
                 (snd (Basic.upsert_user (Some "42") None None None None 10
                                         (Basic.mkUsers [Members.veteran] 2))))).
Proof.
  destruct external_ids_stay_unique as [HS [HK HB]].
  split; [|split].
  - apply HS. cbn. repeat constructor; cbn; intuition discriminate.
  - apply HK. cbn. repeat constructor; cbn; intuition discriminate.
  - apply HB. cbn. repeat constructor; cbn; intuition discriminate.
Defined.

End Identity.

(** ** Roster operations of the points/valor servers *)

Module KeyedOps.
Import Keyed.

Section Roster.

Context {sq : Sqlite}.

Lemma resolve_after_update (g : user -> user) a us n codes att :
  (forall u, id (g u) = id u) -> (forall u, roblox_id (g u) = roblox_id u) ->
  fst (resolveInternalUserId a (mkStore (map g us) n codes att))
  = fst (resolveInternalUserId a (mkStore us n codes att)).
Proof.
  intros Hid Hrid. unfold resolveInternalUserId, select_user. cbn [fst users].
  rewrite !RosterOps.find_map_same by (intros u; now rewrite ?Hid, ?Hrid).
  destruct (find _ us) as [u|]; cbn [option_map resolve_callback];
    [now rewrite Hid|].
  destruct (find _ us) as [u|]; cbn [option_map resolve_callback]; [|reflexivity].
  now rewrite Hid.
Qed.

Lemma add_points_twice i p1 v1 p2 v2 us :
  (forall u, In u us -> id u = i ->
             Arithmetic.adds_exactly (points u) p1 p2
             /\ Arithmetic.adds_exactly (valor u) v1 v2) ->
  add_points i p2 v2 (add_points i p1 v1 us) = add_points i (p1 + p2) (v1 + v2) us.
Proof.
  intros Hsafe. unfold add_points. rewrite map_map. apply map_ext_in. intros u Hu.
  destruct (id u =? i) eqn:E; cbn [id]; rewrite E; [|reflexivity].
  apply Z.eqb_eq in E. destruct (Hsafe u Hu E) as [Hp Hv].
  cbn [roblox_id username display_name branch rank points valor created_at].
  now rewrite (Arithmetic.sql_add_twice _ _ _ Hp), (Arithmetic.sql_add_twice _ _ _ Hv).
Qed.

Lemma resolve_after_add_points a i p v us n codes att :
  fst (resolveInternalUserId a (mkStore (add_points i p v us) n codes att))
  = fst (resolveInternalUserId a (mkStore us n codes att)).
Proof.
  unfold add_points. apply resolve_after_update;
    intros u; destruct (id u =? i); reflexivity.
Qed.

Lemma internal_id_unmatched (a : Server.ident) (st : store) :
  (forall u, In u (users st) ->
             id_is (id u) a = false /\ roblox_id u <> Some (ident_text a)) ->
  fst (resolveInternalUserId a st) = UserNotFound.
Proof.
  intros Hnone. unfold resolveInternalUserId, select_user. cbn [fst].
  rewrite !Members.find_none_of; [reflexivity| |].
  - intros u Hu. apply not_true_iff_false. rewrite Members.text_is_true.
    exact (proj2 (Hnone u Hu)).
  - intros u Hu. exact (proj1 (Hnone u Hu)).
Qed.

(** X12: adjustments add up on the resolving server where SQLite adds
    exactly: when the points and the valor of the member found, the deltas
    and the sums on the way are integers of magnitude at most 2^53, two
    adjustments of the member, by either identifier, leave the store and
    give the answer of one adjustment by the summed deltas, an absent
    delta counting as 0; an identifier that matches no member, in
    either column, is answered 400 "User not found" with the store
    unchanged, whatever the deltas; and beyond that range a delta that
    fits 32 bits is added as a 64-bit integer (2^53 points and 1 are
    2^53 + 1) and a larger one as a double (1 valor and 2^53 are 2^53). *)
Theorem keyed_adjust_adds_up (userId : string) (p1 v1 p2 v2 : option Z) (st : store) :
  (forall u, In u (users st) ->
             fst (resolveInternalUserId (Server.IdStr userId) st) = Internal (id u) ->
             Arithmetic.adds_exactly (points u) (or_zero p1) (or_zero p2)
             /\ Arithmetic.adds_exactly (valor u) (or_zero v1) (or_zero v2)) ->
  adjust userId p2 v2 (snd (adjust userId p1 v1 st))
  = adjust userId (Some (or_zero p1 + or_zero p2)) (Some (or_zero v1 + or_zero v2)) st
  /\ ((forall u, In u (users st) ->
                 sqlite_int_of_text userId <> Some (id u)
                 /\ roblox_id u <> Some userId) ->
      forall p v, adjust userId p v st = (error 400 "User not found", st))
  /\ (forall u, In u (users st) ->
                fst (resolveInternalUserId (Server.IdStr userId) st) = Internal (id u) ->
                points u = 2 ^ 53 -> valor u = 1 ->
                In (mkUser (id u) (roblox_id u) (username u) (display_name u)
                           (branch u) (rank u) (2 ^ 53 + 1) (2 ^ 53) (created_at u))
                   (users (snd (adjust userId (Some 1) (Some (2 ^ 53)) st)))).
Proof.
  intros Hsafe. split; [|split].
  - destruct st as [us n codes att].
    assert (Hadj : forall p v,
               adjust userId p v (mkStore us n codes att)
               = match fst (resolveInternalUserId (Server.IdStr userId)
                                                  (mkStore us n codes att)) with
                 | Internal i =>
                     (success,
                      mkStore (add_points i (or_zero p) (or_zero v) us) n codes att)
                 | _ => (error 400 "User not found", mkStore us n codes att)
                 end) by reflexivity.
    rewrite !Hadj.
    destruct (fst (resolveInternalUserId (Server.IdStr userId) (mkStore us n codes att)))
      as [| |i] eqn:Hres; cbn [snd].
    + apply Hadj.
    + apply Hadj.
    + unfold adjust. rewrite resolve_after_add_points, Hres.
      cbn [users next_user_id verification_codes training_attendance or_zero].
      rewrite add_points_twice; [reflexivity|].
      intros u Hu Hi. apply (Hsafe u Hu). cbn [users]. now rewrite Hi.
  - intros Hnone p v. unfold adjust. rewrite internal_id_unmatched; [reflexivity|].
    intros u Hu. destruct (Hnone u Hu) as [H1 H2]. split; [|exact H2].
    cbn [id_is]. apply not_true_iff_false. now rewrite Members.int_is_true.
  - intros u Hu Hres Hp Hv. unfold adjust. rewrite Hres. cbn [snd users or_zero].
    unfold add_points. apply in_map_iff. exists u. split; [|exact Hu].
    rewrite Z.eqb_refl, Hp, Hv.
    replace (sql_add (2 ^ 53) 1) with (2 ^ 53 + 1) by (vm_compute; reflexivity).
    replace (sql_add 1 (2 ^ 53)) with (2 ^ 53) by (vm_compute; reflexivity).
    reflexivity.
Qed.

(** X13: an award is all or nothing: the route answers either 200, having
    appended exactly one row under the next id, or 400, having written
    nothing. *)
Theorem award_all_or_nothing
        (medal_id user_id awarded_by user_roblox_id awarded_by_roblox_id
         : option Server.ident)
        (reason : option string) (now : Z) (st : store) (aw : awards_table) :
  let out := award medal_id user_id awarded_by user_roblox_id awarded_by_roblox_id
                   reason now st aw in
  (fst out = success
   /\ exists row, ma_id row = next_award_id aw
                  /\ medal_awards (snd out) = (medal_awards aw ++ [row])%list
                  /\ next_award_id (snd out) = next_award_id aw + 1)
  \/ (status (fst out) = 400 /\ snd out = aw).
Proof.
  cbn zeta. unfold award.
  destruct medal_id as [medal|]; [|right; split; reflexivity].
  destruct (falsy_id medal || Server.blank reason); [right; split; reflexivity|].
  destruct (either_id user_id user_roblox_id) as [u|];
    [|right; split; reflexivity].
  destruct (either_id awarded_by awarded_by_roblox_id) as [a|];
    [|right; split; reflexivity].
  destruct (falsy_id u || falsy_id a); [right; split; reflexivity|].
  destruct (fst (resolveInternalUserId u st)) as [| |i];
    try (right; split; reflexivity).
  destruct (fst (resolveInternalUserId a st)) as [| |j];
    try (right; split; reflexivity).
  left. cbn [fst snd medal_awards next_award_id]. split; [reflexivity|].
  eexists. split; [|split; reflexivity]. reflexivity.
Qed.

(** X14: an award stores the internal ids its identifiers resolve to, and
    nothing else of them: sent as [user_id]/[awarded_by] or as
    [user_roblox_id]/[awarded_by_roblox_id], with any identifiers that
    resolve to the same two members, it writes the same row. *)
Theorem award_by_either_identifier
        (medal u1 u2 b1 b2 : Server.ident) (i j : Z) (reason : string) (now : Z)
        (st : store) (aw : awards_table) :
  falsy_id medal = false -> reason <> "" ->
  falsy_id u1 = false -> falsy_id u2 = false ->
  falsy_id b1 = false -> falsy_id b2 = false ->
  fst (resolveInternalUserId u1 st) = Internal i ->
  fst (resolveInternalUserId u2 st) = Internal i ->
  fst (resolveInternalUserId b1 st) = Internal j ->
  fst (resolveInternalUserId b2 st) = Internal j ->
  let stored := (success,
                 mkAwards (medal_awards aw
                             ++ [mkAward (next_award_id aw) medal i j now reason])
                          (next_award_id aw + 1)) in
  award (Some medal) (Some u1) (Some b1) None None (Some reason) now st aw = stored
  /\ award (Some medal) None None (Some u2) (Some b2) (Some reason) now st aw = stored
  /\ award (Some medal) (Some u1) (Some b1) (Some u2) (Some b2) (Some reason) now st aw
     = stored.
Proof.
  intros Hm Hr Hu1 Hu2 Hb1 Hb2 Ru1 Ru2 Rb1 Rb2 stored. subst stored.
  apply String.eqb_neq in Hr.
  unfold award, either_id, Server.blank.
  repeat split;
    rewrite ?Hm, ?Hr, ?Hu1, ?Hu2, ?Hb1, ?Hb2; cbn [orb];
    rewrite ?Hu1, ?Hu2, ?Hb1, ?Hb2; cbn [orb];
    rewrite ?Ru1, ?Ru2, ?Rb1, ?Rb2; reflexivity.
Qed.

(** X15: the resolving attendee route answers every request exactly once,
    whatever the body holds and however [stmt.finalize] ends: in whatever
    order the lookups complete, and so when they complete in the order in
    which they were queued. *)
Theorem attendee_route_answers_once (trainingId : string)
        (attendees : option (list Server.ident)) (finalize_err : bool) (st : store) :
  (forall completion : list Server.ident -> list Server.ident,
      (forall l, Permutation l (completion l)) ->
      exists resp,
        fst (add_attendees trainingId attendees completion finalize_err st) = [resp])
  /\ exists resp,
      fst (add_attendees trainingId attendees (fun l => l) finalize_err st) = [resp].
Proof.
  assert (Hany : forall completion : list Server.ident -> list Server.ident,
             (forall l, Permutation l (completion l)) ->
             exists resp,
               fst (add_attendees trainingId attendees completion finalize_err st)
               = [resp]).
  { intros completion Hperm.
    destruct attendees as [[|a l]|]; try (eexists; reflexivity).
    destruct (Attendance.keyed_add_attendees trainingId finalize_err st (a :: l)
                                             completion)
      as [resp [H _]]; [discriminate | apply Hperm |].
    exists resp. now rewrite H. }
  split; [exact Hany|]. apply Hany. intros l. apply Permutation_refl.
Qed.

Lemma resolve_after_set_rank a i r us n codes att :
  fst (resolveInternalUserId a (mkStore (set_rank i r us) n codes att))
  = fst (resolveInternalUserId a (mkStore us n codes att)).
Proof.
  unfold set_rank. apply resolve_after_update;
    intros u; destruct (id u =? i); reflexivity.
Qed.

Lemma set_rank_add_points_commute i r p v us :
  set_rank i r (add_points i p v us) = add_points i p v (set_rank i r us).
Proof.
  unfold set_rank, add_points. rewrite !map_map. apply map_ext. intros u.
  destruct (id u =? i) eqn:E; cbn [id]; rewrite E; reflexivity.
Qed.

(** X26: on the resolving server too, adjusting and promoting touch
    different columns: served in either order, for any request bodies,
    they leave the same store; a promotion keeps points and valor, an
    adjustment keeps the rank. *)
Theorem keyed_adjust_promote_commute (userId : string) (pointsDelta valorDelta : option Z)
        (newRank : option string) (st : store) :
  snd (promote userId newRank (snd (adjust userId pointsDelta valorDelta st)))
  = snd (adjust userId pointsDelta valorDelta (snd (promote userId newRank st))).
Proof.
  destruct st as [us n codes att]. unfold promote at 2.
  destruct (Server.blank newRank) eqn:Hb.
  - cbn [snd]. unfold promote. now rewrite Hb.
  - unfold adjust at 1.
    destruct (fst (resolveInternalUserId (Server.IdStr userId) (mkStore us n codes att)))
      as [| |i] eqn:Hres; cbn [snd].
    + unfold promote, adjust. now rewrite Hb, Hres.
    + unfold promote, adjust. now rewrite Hb, Hres.
    + cbn [users next_user_id verification_codes training_attendance].
      unfold promote, adjust. rewrite Hb.
      rewrite resolve_after_add_points, resolve_after_set_rank, Hres.
      cbn [snd users next_user_id verification_codes training_attendance].
      now rewrite set_rank_add_points_commute.
Qed.

End Roster.

(** *** Examples, over plain decimal texts *)

#[local] Existing Instance decimal_texts.

Lemma keyed_adjust_adds_up_witness :
  adjust "123456789" (Some 4) None (snd (adjust "123456789" (Some 3) (Some 2)
                                                Members.k_roster))
  = adjust "123456789" (Some 7) (Some 2) Members.k_roster
  /\ adjust "99" (Some 4) None Members.k_roster
     = (error 400 "User not found", Members.k_roster).
Proof.
  split.
  - apply (keyed_adjust_adds_up "123456789" (Some 3) (Some 2) (Some 4) None
                                Members.k_roster).
    intros u [<-|[<-|[]]] _; unfold Arithmetic.adds_exactly, safe; cbn;
      repeat split; lia.
  - apply (keyed_adjust_adds_up "99" None None None None Members.k_roster).
    + intros u _ H. discriminate H.
    + intros u [<-|[<-|[]]]; split; discriminate.
Defined.

(** Member "2" of [k_crossed] is [alice], but the text also converts to the
    internal id of [bob], and internal ids are searched first: the
    adjustment sent for "2" lands on [bob]. *)
Lemma keyed_adjust_crossed :
  snd (adjust "2" (Some 5) None Members.k_crossed)
  = mkStore [Members.k_alice;
             mkUser 2 (Some "777") (Some "bob") (Some "Bob") None None 5 0 0] 3 [] [].
Proof.
  vm_compute. reflexivity.
Qed.

Lemma award_by_either_identifier_witness :
  let stored := (success,
                 mkAwards [mkAward 1 (Server.IdNum 3) 7 1 99 "valour"] 2) in
  award (Some (Server.IdNum 3)) (Some (Server.IdNum 7)) (Some (Server.IdNum 1)) None None
        (Some "valour") 99 Members.k_roster (mkAwards [] 1) = stored
  /\ award (Some (Server.IdNum 3)) None None (Some (Server.IdStr "123456789"))
           (Some (Server.IdStr "2")) (Some "valour") 99 Members.k_roster (mkAwards [] 1)
     = stored
  /\ award (Some (Server.IdNum 3)) (Some (Server.IdNum 7)) (Some (Server.IdNum 1))
           (Some (Server.IdStr "123456789")) (Some (Server.IdStr "2"))
           (Some "valour") 99 Members.k_roster (mkAwards [] 1)
     = stored.
Proof.
  apply (award_by_either_identifier (Server.IdNum 3)
           (Server.IdNum 7) (Server.IdStr "123456789")
           (Server.IdNum 1) (Server.IdStr "2") 7 1 "valour" 99
           Members.k_roster (mkAwards [] 1)); try reflexivity.
  discriminate.
Defined.

Lemma attendee_route_answers_once_witness :
  exists resp,
    fst (add_attendees "5" (Some Attendance.mixed_entries) (@rev Server.ident) true
                       Attendance.squad) = [resp].
Proof.
  apply (proj1 (attendee_route_answers_once "5" (Some Attendance.mixed_entries)
                                            true Attendance.squad)
               (@rev Server.ident)).
  apply Permutation_rev.
Defined.

End KeyedOps.

(** ** Routes of the first server *)

Module BasicOps.

Lemma map_unchanged {A} (g : A -> A) (l : list A) :
  (forall x, In x l -> g x = x) -> map g l = l.
Proof.
  intros H. induction l as [|x l IH]; [reflexivity|].
  cbn [map]. rewrite (H x (or_introl eq_refl)). f_equal.
  apply IH. intros y Hy. apply H. right. exact Hy.
Qed.

Section Adjusting.

Context {sq : Sqlite}.

(** X16: the first server's adjust route never reports a miss: it answers
    success for every request; when the path text equals the id of no row
    the table is left as it was; and so it is when the body carries no
    delta and the counters stored are 64-bit integers. *)
Theorem adjust_is_silent (userId : string) (pointsDelta valorDelta : option Z)
        (t : Basic.users_table) :
  fst (Basic.adjust userId pointsDelta valorDelta t) = json (VObj [("success", VBool true)])
  /\ ((forall u, In u (Basic.users t) -> sqlite_int_of_text userId <> Some (Keyed.id u)) ->
      snd (Basic.adjust userId pointsDelta valorDelta t) = t)
  /\ ((forall u, In u (Basic.users t) ->
                 int64 (Keyed.points u) = true /\ int64 (Keyed.valor u) = true) ->
      snd (Basic.adjust userId None None t) = t).
Proof.
  destruct t as [us n]. unfold Basic.adjust. cbn [fst snd Basic.users Basic.next_user_id].
  split; [reflexivity|]. split.
  - intros Hno. f_equal. apply map_unchanged. intros u Hu.
    destruct (Server.int_is (Keyed.id u) userId) eqn:E; [|reflexivity].
    apply Members.int_is_true in E. now apply Hno in E.
  - intros H64. f_equal. apply map_unchanged. intros u Hu.
    destruct (Server.int_is (Keyed.id u) userId); [|reflexivity].
    destruct (H64 u Hu) as [Hp Hv]. cbn [Keyed.or_zero].
    rewrite (Arithmetic.sql_add_zero _ Hp), (Arithmetic.sql_add_zero _ Hv).
    destruct u. reflexivity.
Qed.

End Adjusting.

Section Examples.

#[local] Existing Instance decimal_texts.

Lemma adjust_is_silent_witness :
  fst (Basic.adjust "99" (Some 5) None (Basic.mkUsers [Members.veteran] 2))
    = json (VObj [("success", VBool true)])
  /\ snd (Basic.adjust "99" (Some 5) None (Basic.mkUsers [Members.veteran] 2))
     = Basic.mkUsers [Members.veteran] 2
  /\ snd (Basic.adjust "1" None None (Basic.mkUsers [Members.veteran] 2))
     = Basic.mkUsers [Members.veteran] 2.
Proof.
  destruct (adjust_is_silent "99" (Some 5) None (Basic.mkUsers [Members.veteran] 2))
    as [H1 [H2 _]].
  destruct (adjust_is_silent "1" None None (Basic.mkUsers [Members.veteran] 2))
    as [_ [_ H3]].
  split; [exact H1|]. split.
  - apply H2. intros u [<-|[]]. discriminate.
  - apply H3. intros u [<-|[]]. split; reflexivity.
Defined.

End Examples.

(** X17: the first server's attendee route records exactly the truthy
    entries of the list, in order, after the rows already stored; falsy
    entries are skipped, and an empty list is answered like any other. *)
Theorem attendees_truthy_only (trainingId : string) (attendees : list Server.ident)
        (finalize_err : bool) (rows : list Basic.attendance) :
  snd (Basic.add_attendees trainingId attendees finalize_err rows)
  = (rows ++ map (Basic.mkAttendance trainingId)
                 (List.filter (fun a => negb (Keyed.falsy_id a)) attendees))%list
  /\ fst (Basic.add_attendees trainingId attendees false rows)
     = json (VObj [("success", VBool true)]).
Proof.
  split; [|reflexivity]. unfold Basic.add_attendees. cbn [snd].
  revert rows. induction attendees as [|a l IH]; intros rows; cbn [fold_left List.filter].
  - now rewrite app_nil_r.
  - destruct (negb (Keyed.falsy_id a)); [|apply IH].
    rewrite IH, <- app_assoc. reflexivity.
Qed.

(** X18: the status route answers 200 with its four fields whatever the
    four queries yield, and the rank it reports is never empty: it is the
    rank the last query returned, or "Unknown". *)
Theorem status_route_total (users_q trainings_q medals_q : db_result Keyed.count_row)
        (rank_q : db_result Basic.rank_row) :
  let resp := Basic.status_route users_q trainings_q medals_q rank_q in
  status resp = 200
  /\ prop "activePersonnel" (body resp) = VNum (Endpoints.counted Keyed.count users_q)
  /\ prop "trainingsToday" (body resp) = VNum (Endpoints.counted Keyed.count trainings_q)
  /\ prop "medalsAwarded" (body resp) = VNum (Endpoints.counted Keyed.count medals_q)
  /\ prop "currentRank" (body resp) = VStr (Basic.current_rank rank_q)
  /\ Basic.current_rank rank_q <> ""
  /\ (Basic.current_rank rank_q = "Unknown"
      \/ rank_q = DbRow (Some (Basic.mkRank (Some (Basic.current_rank rank_q))))).
Proof.
  cbn zeta. unfold Basic.status_route.
  repeat split; try (destruct users_q as [|[r|]]; reflexivity);
    try (destruct trainings_q as [|[r|]]; reflexivity);
    try (destruct medals_q as [|[r|]]; reflexivity).
  - destruct rank_q as [|[[[r|]]|]]; cbn; try discriminate.
    destruct (String.eqb_spec r ""); [discriminate | assumption].
  - destruct rank_q as [|[[[r|]]|]]; cbn; auto.
    destruct (String.eqb_spec r ""); auto.
Qed.

End BasicOps.

(** ** Issuing and checking challenges *)

Module Challenges.
Import Verification.

Lemma append_cons a s t : String.append (String a s) t = String a (String.append s t).
Proof. reflexivity. Qed.

Lemma prefix_append n post : String.prefix n (String.append n post) = true.
Proof.
  induction n as [|a n IH]; [destruct post; reflexivity|].
  rewrite append_cons. cbn [String.prefix].
  destruct (ascii_dec a a); [exact IH | contradiction].
Qed.

Lemma includes_unfold hay needle :
  includes hay needle
  = String.prefix needle hay
    || match hay with
       | EmptyString => false
       | String _ hay' => includes hay' needle
       end.
Proof.
  destruct hay; reflexivity.
Qed.

(** X19: the substring test of the check is exact: [includes] answers true
    precisely when the bio is some text, then the code, then some text. *)
Theorem includes_iff_substring (hay needle : string) :
  includes hay needle = true
  <-> exists pre post, hay = String.append pre (String.append needle post).
Proof.
  split.
  - induction hay as [|c hay IH]; rewrite includes_unfold; intros H;
      apply orb_true_iff in H as [H|H].
    + exists "", (Server.slice (String.length needle) ""). cbn [String.append].
      now apply Sessions.prefix_slice.
    + discriminate.
    + exists "", (Server.slice (String.length needle) (String c hay)).
      cbn [String.append]. now apply Sessions.prefix_slice.
    + destruct (IH H) as [pre [post ->]]. exists (String c pre), post. reflexivity.
  - intros [pre [post ->]]. induction pre as [|c pre IH].
    + change (String.append "" (String.append needle post))
        with (String.append needle post).
      rewrite includes_unfold, prefix_append. reflexivity.
    + rewrite append_cons, includes_unfold, IH. apply orb_true_r.
Qed.

(** X20: the two variants expire a challenge at the same instant: the
    minutes test of [isExpired] on the issuance time agrees with the
    comparison of the keyed variant on the stored expiry, issuance plus
    ten minutes. *)
Theorem variants_expire_alike (issued now : Z) :
  AppendLog.isExpired issued now = (issued + Keyed.ten_minutes <? now).
Proof.
  change Keyed.ten_minutes with (10 * 60 * 1000).
  destruct (Z.ltb_spec (issued + 10 * 60 * 1000) now) as [H|H].
  - apply isExpired_spec. lia.
  - apply not_true_iff_false. rewrite isExpired_spec. lia.
Qed.

(** X21: on the keyed variant a challenge that was just issued is
    accepted by a check within ten minutes whose profile text carries the
    code that was returned: the check answers 200 with the minted token,
    the member row carries the profile names, and the challenge is gone. *)
Theorem keyed_issue_then_check (rid suffix : string) (issued now stamp : Z)
        (bio name dname : string) (st0 : Keyed.store) :
  rid <> "" ->
  now <= issued + 10 * 60 * 1000 ->
  includes bio (String.append "USAFE-" suffix) = true ->
  let issue := Keyed.start_verification (Some rid) suffix issued st0 in
  let done := Keyed.check (Some rid) now stamp (Replies (profile bio name dname))
                          (snd issue) in
  prop "code" (body (fst issue)) = VStr (String.append "USAFE-" suffix)
  /\ status (fst done) = 200
  /\ prop "token" (body (fst done)) = VStr (Keyed.mint_token rid stamp)
  /\ (exists u, In u (Keyed.users (snd done))
                /\ Keyed.roblox_id u = Some rid
                /\ Keyed.username u = Some name
                /\ Keyed.display_name u = Some dname)
  /\ Keyed.select_code rid (Keyed.verification_codes (snd done)) = None.
Proof.
  intros Hrid Hnow Hinc issue done.
  assert (Hsel := keyed_issued_is_stored rid suffix issued st0 Hrid).
  fold issue in Hsel.
  pose proof (keyed_check_success rid _ now stamp bio name dname (snd issue)
                Hrid Hsel Hnow Hinc) as Hok.
  cbn zeta in Hok. fold done in Hok.
  destruct done as [resp st']. destruct Hok as [-> [Hu [Hgone _]]].
  split.
  - subst issue. unfold Keyed.start_verification, Keyed.missing_id.
    destruct (String.eqb_spec rid ""); [contradiction | reflexivity].
  - cbn [fst snd]. repeat split; [exact Hu | exact Hgone].
Qed.

Lemma keyed_issue_then_check_witness :
  let issue := Keyed.start_verification (Some "42") "ABC123" 0
                                        (Keyed.mkStore [] 1 [] []) in
  let done := Keyed.check (Some "42") 600000 600001
                          (Replies (profile "hi USAFE-ABC123 there" "bob" "Bob"))
                          (snd issue) in
  prop "code" (body (fst issue)) = VStr "USAFE-ABC123"
  /\ status (fst done) = 200
  /\ prop "token" (body (fst done)) = VStr (Keyed.mint_token "42" 600001)
  /\ (exists u, In u (Keyed.users (snd done))
                /\ Keyed.roblox_id u = Some "42"
                /\ Keyed.username u = Some "bob"
                /\ Keyed.display_name u = Some "Bob")
  /\ Keyed.select_code "42" (Keyed.verification_codes (snd done)) = None.
Proof.
  apply (keyed_issue_then_check "42" "ABC123" 0 600000 600001
           "hi USAFE-ABC123 there" "bob" "Bob" (Keyed.mkStore [] 1 [] [])).
  - discriminate.
  - lia.
  - reflexivity.
Defined.

(** The ids of the log stay below the counter. *)
Definition ids_below_counter (st : AppendLog.store) : Prop :=
  Forall (fun r => AppendLog.v_id r < AppendLog.next_code_id st)
         (AppendLog.verification_codes st).

Lemma issue_keeps_ids_below rid suffix issued st :
  ids_below_counter st ->
  ids_below_counter (snd (AppendLog.start_verification rid suffix issued st)).
Proof.
  unfold ids_below_counter, AppendLog.start_verification. intros H.
  destruct rid as [z|]; [|exact H]. destruct (z =? 0); [exact H|].
  cbn [snd AppendLog.verification_codes AppendLog.next_code_id].
  rewrite List.Forall_forall in *. intros r Hr.
  apply in_app_or in Hr as [Hr|[<-|[]]].
  - specialize (H r Hr). lia.
  - cbn. lia.
Qed.

(** X22: on the append-only variant, with the ids of the log below its
    counter, a challenge that was just issued is the one the next check
    examines: within ten minutes and with the returned code in the profile
    text the check answers 200 with the token and the profile names, and
    it writes nothing. *)
Theorem appendlog_issue_then_check (rid : Z) (suffix : string) (issued now : Z)
        (tok bio name dname : string) (st0 : AppendLog.store) :
  rid <> 0 ->
  ids_below_counter st0 ->
  now - issued <= 10 * 60 * 1000 ->
  includes bio (String.append "USAFE-" suffix) = true ->
  let issue := AppendLog.start_verification (Some rid) suffix issued st0 in
  prop "code" (body (fst issue)) = VStr (String.append "USAFE-" suffix)
  /\ AppendLog.check (Some rid) now tok (Replies (profile bio name dname)) (snd issue)
     = (json (VObj [("token", VStr tok); ("roblox_id", VNum rid);
                    ("username", VStr name); ("display_name", VStr dname)]),
        snd issue).
Proof.
  intros Hrid Hids Hnow Hinc issue.
  assert (Hlatest := appendlog_issued_is_latest rid suffix issued st0 Hrid Hids).
  fold issue in Hlatest. split.
  - subst issue. unfold AppendLog.start_verification.
    destruct (Z.eqb_spec rid 0); [contradiction | reflexivity].
  - rewrite (appendlog_check_found _ _ _ _ _ Hrid).
    unfold AppendLog.check_callback. rewrite Hlatest.
    cbn [AppendLog.v_created_at AppendLog.v_code].
    assert (Hfresh : AppendLog.isExpired issued now = false)
      by (apply not_true_iff_false; rewrite isExpired_spec; lia).
    rewrite Hfresh.
    replace (opt_prop "description" (profile bio name dname))
      with (prop "description" (profile bio name dname)) by reflexivity.
    unfold AppendLog.generateVerificationCode. rewrite bio_includes, Hinc.
    reflexivity.
Qed.

Lemma appendlog_issue_then_check_witness :
  let issue := AppendLog.start_verification (Some 42) "ABC123" 300000 busy_log in
  prop "code" (body (fst issue)) = VStr "USAFE-ABC123"
  /\ AppendLog.check (Some 42) 900000 "tok"
                     (Replies (profile "hi USAFE-ABC123" "bob" "Bob")) (snd issue)
     = (json (VObj [("token", VStr "tok"); ("roblox_id", VNum 42);
                    ("username", VStr "bob"); ("display_name", VStr "Bob")]),
        snd issue).
Proof.
  apply (appendlog_issue_then_check 42 "ABC123" 300000 900000 "tok"
           "hi USAFE-ABC123" "bob" "Bob" busy_log).
  - lia.
  - repeat constructor.
  - lia.
  - reflexivity.
Defined.

Lemma keyed_mismatch st rid row now stamp bio name dname :
  rid <> "" ->
  Keyed.select_code rid (Keyed.verification_codes st) = Some row ->
  now <= Keyed.v_expires_at row ->
  includes bio (Keyed.v_code row) = false ->
  Keyed.check (Some rid) now stamp (Replies (profile bio name dname)) st
  = (Keyed.CodeMismatch, st).
Proof.
  intros Hrid Hrow Hnow Hinc. rewrite (keyed_check_found _ _ _ _ _ Hrid).
  unfold Keyed.check_callback. rewrite Hrow.
  destruct (Z.ltb_spec (Keyed.v_expires_at row) now); [lia|].
  cbv beta iota delta [profile]. fold (profile bio name dname).
  now rewrite bio_includes, Hinc.
Qed.

Lemma appendlog_mismatch st rid row now tok bio name dname :
  rid <> 0 ->
  AppendLog.latest_code rid (AppendLog.verification_codes st) = Some row ->
  now - AppendLog.v_created_at row <= 10 * 60 * 1000 ->
  includes bio (AppendLog.v_code row) = false ->
  AppendLog.check (Some rid) now tok (Replies (profile bio name dname)) st
  = (AppendLog.CodeMismatch, st).
Proof.
  intros Hrid Hrow Hnow Hinc. rewrite (appendlog_check_found _ _ _ _ _ Hrid).
  unfold AppendLog.check_callback. rewrite Hrow.
  assert (Hfresh : AppendLog.isExpired (AppendLog.v_created_at row) now = false)
    by (apply not_true_iff_false; rewrite isExpired_spec; lia).
  rewrite Hfresh.
  replace (opt_prop "description" (profile bio name dname))
    with (prop "description" (profile bio name dname)) by reflexivity.
  now rewrite bio_includes, Hinc.
Qed.

(** X23: issuing again supersedes: after a second challenge is issued for
    an account, a check whose profile text lacks the second code is
    answered [CodeMismatch] on both variants, whether or not the text still
    carries the first code, and the store is left as it was. *)
Theorem reissue_supersedes (suffix1 suffix2 : string) (t1 t2 now : Z)
        (bio name dname : string) :
  includes bio (String.append "USAFE-" suffix2) = false ->
  (forall rid stamp st0,
      rid <> "" -> now <= t2 + 10 * 60 * 1000 ->
      let st := snd (Keyed.start_verification (Some rid) suffix2 t2
                       (snd (Keyed.start_verification (Some rid) suffix1 t1 st0))) in
      Keyed.check (Some rid) now stamp (Replies (profile bio name dname)) st
      = (Keyed.CodeMismatch, st))
  /\ (forall rid tok st0,
      rid <> 0 -> ids_below_counter st0 -> now - t2 <= 10 * 60 * 1000 ->
      let st := snd (AppendLog.start_verification (Some rid) suffix2 t2
                       (snd (AppendLog.start_verification (Some rid) suffix1 t1 st0))) in
      AppendLog.check (Some rid) now tok (Replies (profile bio name dname)) st
      = (AppendLog.CodeMismatch, st)).
Proof.
  intros Hinc. split.
  - intros rid stamp st0 Hrid Hnow st.
    eapply keyed_mismatch.
    + exact Hrid.
    + subst st. apply keyed_issued_is_stored. exact Hrid.
    + cbn [Keyed.v_expires_at]. change Keyed.ten_minutes with (10 * 60 * 1000). lia.
    + exact Hinc.
  - intros rid tok st0 Hrid Hids Hnow st.
    eapply appendlog_mismatch.
    + exact Hrid.
    + subst st. apply appendlog_issued_is_latest; [exact Hrid|].
      now apply issue_keeps_ids_below.
    + cbn [AppendLog.v_created_at]. lia.
    + exact Hinc.
Qed.

(** The first code still in the bio, the second one not yet. *)
Lemma reissue_supersedes_witness :
  (let st := snd (Keyed.start_verification (Some "42") "NEW222" 60000
                    (snd (Keyed.start_verification (Some "42") "OLD111" 0
                                                   (Keyed.mkStore [] 1 [] [])))) in
   Keyed.check (Some "42") 120000 120001
               (Replies (profile "USAFE-OLD111" "bob" "Bob")) st
   = (Keyed.CodeMismatch, st))
  /\ (let st := snd (AppendLog.start_verification (Some 42) "NEW222" 60000
                       (snd (AppendLog.start_verification (Some 42) "OLD111" 0
                                                          busy_log))) in
      AppendLog.check (Some 42) 120000 "tok"
                      (Replies (profile "USAFE-OLD111" "bob" "Bob")) st
      = (AppendLog.CodeMismatch, st)).
Proof.
  destruct (reissue_supersedes "OLD111" "NEW222" 0 60000 120000
              "USAFE-OLD111" "bob" "Bob") as [HK HA]; [reflexivity|].
  split.
  - apply (HK "42" 120001 (Keyed.mkStore [] 1 [] [])); [discriminate | lia].
  - apply (HA 42 "tok" busy_log); [lia | repeat constructor | lia].
Defined.

Lemma nodup_map_filter {A} (f : A -> string) (p : A -> bool) (l : list A) :
  List.NoDup (map f l) -> List.NoDup (map f (List.filter p l)).
Proof.
  induction l as [|x l IH]; intros H; [exact H|].
  cbn [map] in H. apply List.NoDup_cons_iff in H as [Hx Hl].
  cbn [List.filter]. destruct (p x); [|now apply IH].
  cbn [map]. constructor; [|now apply IH].
  intros Hin. apply Hx. apply in_map_iff in Hin as [y [Hy Hin]].
  apply filter_In in Hin as [Hin _]. apply in_map_iff. eauto.
Qed.

(** X24: the keyed variant holds at most one challenge per account: if no
    two stored challenges share an account, none do after a start request
    or after a check, whatever they carry and however they end. *)
Theorem one_challenge_per_account (st : Keyed.store) :
  List.NoDup (map Keyed.v_roblox_id (Keyed.verification_codes st)) ->
  (forall roblox_id suffix now,
      List.NoDup (map Keyed.v_roblox_id
                    (Keyed.verification_codes
                       (snd (Keyed.start_verification roblox_id suffix now st)))))
  /\ (forall roblox_id now stamp reply,
      List.NoDup (map Keyed.v_roblox_id
                    (Keyed.verification_codes
                       (snd (Keyed.check roblox_id now stamp reply st))))).
Proof.
  intros Hnd. split.
  - intros roblox_id suffix now. unfold Keyed.start_verification.
    destruct (Keyed.missing_id roblox_id); [exact Hnd|].
    cbn [snd Keyed.verification_codes]. unfold Keyed.upsert_code.
    destruct (existsb _ (Keyed.verification_codes st)) eqn:Hex.
    + rewrite map_map.
      erewrite map_ext; [exact Hnd|].
      intros r. cbn. destruct (String.eqb (Keyed.v_roblox_id r) _); reflexivity.
    + rewrite map_app. cbn [map Keyed.v_roblox_id].
      apply Identity.nodup_snoc; [exact Hnd|].
      intros Hin. apply in_map_iff in Hin as [r [Hr Hin]].
      pose proof (Identity.existsb_none _ _ Hex r Hin) as Hno. cbn in Hno.
      rewrite Hr in Hno. now rewrite String.eqb_refl in Hno.
  - intros roblox_id now stamp reply. unfold Keyed.check, Keyed.check_callback.
    destruct (Keyed.missing_id roblox_id); [exact Hnd|].
    destruct (Keyed.select_code _ _) as [row|]; [|exact Hnd].
    destruct (Keyed.v_expires_at row <? now); [exact Hnd|].
    destruct reply as [|data]; [exact Hnd|].
    destruct data; try exact Hnd;
      destruct (AppendLog.js_includes _ _) as [[|]|]; try exact Hnd;
      cbn [snd]; unfold Keyed.delete_code; cbn [Keyed.verification_codes];
      apply nodup_map_filter;
      unfold Keyed.upsert_profile; destruct (existsb _ _); exact Hnd.
Qed.

Lemma one_challenge_per_account_witness :
  List.NoDup (map Keyed.v_roblox_id
                (Keyed.verification_codes
                   (snd (Keyed.start_verification (Some "42") "NEW222" 60000
                                                  keyed_store))))
  /\ List.NoDup (map Keyed.v_roblox_id
                   (Keyed.verification_codes
                      (snd (Keyed.check (Some "42") 1000 1001
                              (Replies (profile "USAFE-ABC123" "bob" "Bob"))
                              keyed_store)))).
Proof.
  assert (Hnd : List.NoDup (map Keyed.v_roblox_id
                              (Keyed.verification_codes keyed_store)))
    by (cbn; repeat constructor; cbn; intuition).
  destruct (one_challenge_per_account keyed_store Hnd) as [H1 H2].
  split; [apply H1 | apply H2].
Defined.

End Challenges.

(** ** Autoincrement ids *)

Module Counters.

Lemma below_after_insert {A} (idx : A -> Z) (rows : list A) (row : A) (n : Z) :
  Forall (fun r => idx r < n) rows -> idx row = n ->
  Forall (fun r => idx r < n + 1) (rows ++ [row]).
Proof.
  intros H Hrow. rewrite List.Forall_forall in *. intros r Hr.
  apply in_app_or in Hr as [Hr|[<-|[]]]; [specialize (H r Hr)|]; lia.
Qed.

Section Inserting.

Context {sq : Sqlite}.

(** X27: ids are never handed out twice: on every table with an
    autoincrement id, if the stored ids lie below the counter they still
    do after the route that inserts into it, whatever the request,
    so each new row gets an id no stored row has. This holds of
    [ensureUserByRobloxProfile], of training creation, of the append-only
    start request and of the medal award. *)
Theorem ids_stay_below_counter :
  (forall rid uname dname now t,
      Forall (fun u => Server.id u < Server.next_user_id t) (Server.users t) ->
      let t' := snd (Server.ensureUserByRobloxProfile rid uname dname now t) in
      Forall (fun u => Server.id u < Server.next_user_id t') (Server.users t'))
  /\ (forall type date host_id b,
      Forall (fun tr => Server.t_id tr < Server.next_training_id b)
             (Server.trainings (Server.book b)) ->
      let b' := snd (Server.create_training type date host_id b) in
      Forall (fun tr => Server.t_id tr < Server.next_training_id b')
             (Server.trainings (Server.book b')))
  /\ (forall rid suffix now st,
      Challenges.ids_below_counter st ->
      Challenges.ids_below_counter (snd (AppendLog.start_verification rid suffix now st)))
  /\ (forall medal_id user_id awarded_by user_roblox_id awarded_by_roblox_id reason now
             st aw,
      Forall (fun r => Keyed.ma_id r < Keyed.next_award_id aw) (Keyed.medal_awards aw) ->
      let aw' := snd (Keyed.award medal_id user_id awarded_by user_roblox_id
                                  awarded_by_roblox_id reason now st aw) in
      Forall (fun r => Keyed.ma_id r < Keyed.next_award_id aw') (Keyed.medal_awards aw')).
Proof.
  split; [|split; [|split]].
  - intros rid uname dname now t H t'. subst t'.
    unfold Server.ensureUserByRobloxProfile.
    destruct (find _ (Server.users t)); [exact H|].
    cbn [snd Server.users Server.next_user_id]. now apply below_after_insert.
  - intros type date host_id b H b'. subst b'. unfold Server.create_training.
    destruct (Server.blank type || Server.blank date || Server.blank host_id);
      [exact H|].
    cbn [snd Server.book Server.trainings Server.next_training_id].
    now apply below_after_insert.
  - intros rid suffix now st. apply Challenges.issue_keeps_ids_below.
  - intros medal_id user_id awarded_by user_roblox_id awarded_by_roblox_id reason now
           st aw H aw'. subst aw'. unfold Keyed.award.
    destruct medal_id as [medal|]; [|exact H].
    destruct (Keyed.falsy_id medal || Server.blank reason); [exact H|].
    destruct (Keyed.either_id user_id user_roblox_id) as [u|]; [|exact H].
    destruct (Keyed.either_id awarded_by awarded_by_roblox_id) as [a|]; [|exact H].
    destruct (Keyed.falsy_id u || Keyed.falsy_id a); [exact H|].
    destruct (fst (Keyed.resolveInternalUserId u st)) as [| |i]; try exact H.
    destruct (fst (Keyed.resolveInternalUserId a st)) as [| |j]; try exact H.
    cbn [snd Keyed.medal_awards Keyed.next_award_id]. now apply below_after_insert.
Qed.

End Inserting.

#[local] Existing Instance decimal_texts.

Lemma ids_stay_below_counter_witness :
  (let t' := snd (Server.ensureUserByRobloxProfile "555" None None 10
                                                   Members.roster_table) in
   Forall (fun u => Server.id u < Server.next_user_id t') (Server.users t'))
  /\ (let b' := snd (Server.create_training (Some "Drill") (Some "2024-02-01") (Some "1")
                                            (Server.mkBook Attendance.drill_roster 6)) in
      Forall (fun tr => Server.t_id tr < Server.next_training_id b')
             (Server.trainings (Server.book b')))
  /\ Challenges.ids_below_counter
       (snd (AppendLog.start_verification (Some 42) "ABC123" 10 Verification.busy_log))
  /\ (let aw' := snd (Keyed.award (Some (Server.IdNum 3)) (Some (Server.IdNum 7))
                                  (Some (Server.IdNum 1)) None None (Some "valour") 99
                                  Members.k_roster
                                  (Keyed.mkAwards
                                     [Keyed.mkAward 1 (Server.IdNum 2) 1 7 50 "service"]
                                     2)) in
      Forall (fun r => Keyed.ma_id r < Keyed.next_award_id aw') (Keyed.medal_awards aw')).
Proof.
  destruct ids_stay_below_counter as [HU [HT [HL HA]]].
  split; [|split; [|split]].
  - apply HU. repeat constructor.
  - apply HT. repeat constructor.
  - apply HL. repeat constructor.
  - apply HA. repeat constructor.
Defined.

End Counters.
